(** * detecta-multa: the scraping backend (backend-server.js, server.js)

    A shallow embedding of the adapters and of the [/multas] route of the two
    server files, and the properties of them that the specification states.

    Conventions of the embedding.
    - A JavaScript string is modelled by the bytes of its UTF-8 encoding, which
      is how the string literals of this file are read.  Case mapping is
      modelled for Basic Latin and the Latin-1 Supplement (the letters of
      Spanish); other letters are left as they are.
    - A JavaScript number is an IEEE 754 binary64 value, kept as a sign, an
      integer significand and a binary exponent; decimal text is rounded to
      nearest, ties to even, by exact integer arithmetic.
    - A JSON value is a tree; an object is an association list.
    - cheerio, JSON.parse, Date and the AES primitive are libraries: what
      cheerio and JSON.parse read in the text of a response is part of the
      response as the model sees it, and the date conversion, the block cipher
      and what cheerio makes of data that is not a text are arguments of the
      functions that call them.
    - An exception is a value of [exn]; code that can throw returns [result].
      The message of an error the engine raises is written in the words of V8,
      shortened where V8 quotes the expression; no property depends on it.
    - A network request is an entry of a log; the answer to it is given by a
      function of the requests made so far.  Headers, cookies and the lines
      written to the console are left out.
    - A query parameter of the route is a value: a string, [undefined] when
      the key is absent, an array or an object when express makes one of a
      key that is repeated or written with brackets. *)

From Stdlib Require Import ZArith NArith List String Ascii Bool Lia DecimalString.
Import ListNotations.
Open Scope string_scope.
Open Scope Z_scope.

(* ================================================================== *)
(** * Part I. JavaScript primitives                                    *)
(* ================================================================== *)

Module JS.

(** ** Exceptions and fallible computations *)

Inductive exn_kind := Error | TypeError | ReferenceError | RangeError | SyntaxError.

Record exn := Exn { kind : exn_kind; message : string }.

Inductive result (A : Type) :=
| Ok (a : A)
| Throw (e : exn).
Arguments Ok {A} a.
Arguments Throw {A} e.

Definition bind {A B} (r : result A) (k : A -> result B) : result B :=
  match r with
  | Ok a => k a
  | Throw e => Throw e
  end.

Notation "x <- e ;; k" := (bind e (fun x => k))
  (at level 61, e at next level, right associativity).

Fixpoint mapM {A B} (f : A -> result B) (l : list A) : result (list B) :=
  match l with
  | [] => Ok []
  | a :: l' => b <- f a ;; bs <- mapM f l' ;; Ok (b :: bs)
  end.

(** ** Strings *)

Definition code (c : ascii) : N := N_of_ascii c.

Definition chr (n : N) : ascii := ascii_of_N n.

Definition dquote : string := String (chr 34) "".

Definition in_range (lo hi : N) (c : ascii) : bool :=
  (lo <=? code c)%N && (code c <=? hi)%N.

(** [\d] and [0-9] *)
Definition is_digit : ascii -> bool := in_range 48 57.

(** [A-Z] *)
Definition is_upper : ascii -> bool := in_range 65 90.

(** [a-z] *)
Definition is_lower : ascii -> bool := in_range 97 122.

Definition is_char (n : N) (c : ascii) : bool := (code c =? n)%N.

Fixpoint filter_string (keep : ascii -> bool) (s : string) : string :=
  match s with
  | EmptyString => EmptyString
  | String c r => if keep c then String c (filter_string keep r) else filter_string keep r
  end.

Fixpoint forallb_string (p : ascii -> bool) (s : string) : bool :=
  match s with
  | EmptyString => true
  | String c r => p c && forallb_string p r
  end.

(** [s.replace(from, to)] with a one-character string pattern: only the first
    occurrence is replaced. *)
Fixpoint replace_first (from to : ascii) (s : string) : string :=
  match s with
  | EmptyString => EmptyString
  | String c r => if Ascii.eqb c from then String to r else String c (replace_first from to r)
  end.

(** [s.includes(sub)] *)
Fixpoint includes (sub s : string) : bool :=
  prefix sub s ||
  match s with
  | EmptyString => false
  | String _ r => includes sub r
  end.

(** The second byte of a two-byte sequence led by 0xC3 that encodes an upper
    case letter of the Latin-1 Supplement (U+00C0 to U+00DE, U+00D7 apart). *)
Definition latin1_upper_tail (c : ascii) : bool :=
  in_range 128 158 c && negb (is_char 151 c).

Definition latin1_lower_tail (c : ascii) : bool :=
  in_range 160 190 c && negb (is_char 183 c).

(** [s.toLowerCase()] *)
Fixpoint toLowerCase (s : string) : string :=
  match s with
  | EmptyString => EmptyString
  | String c r =>
      if is_upper c then String (chr (code c + 32)) (toLowerCase r)
      else if is_char 195 c then
        match r with
        | String d r' =>
            if latin1_upper_tail d
            then String c (String (chr (code d + 32)) (toLowerCase r'))
            else String c (toLowerCase r)
        | EmptyString => String c EmptyString
        end
      else String c (toLowerCase r)
  end.

(** The length in bytes of the white space character (WhiteSpace or
    LineTerminator) at the head of [s]; 0 when there is none. *)
Definition ws_head (s : string) : nat :=
  match s with
  | String c r =>
      if in_range 9 13 c || is_char 32 c then 1%nat
      else if is_char 194 c then
        match r with
        | String d _ => if is_char 160 d then 2%nat else 0%nat
        | _ => 0%nat
        end
      else if is_char 225 c then
        if prefix (String (chr 154) (String (chr 128) "")) r then 3%nat else 0%nat
      else if is_char 226 c then
        match r with
        | String d (String e _) =>
            if is_char 128 d && (in_range 128 138 e || is_char 168 e || is_char 169 e || is_char 175 e)
            then 3%nat
            else if is_char 129 d && is_char 159 e then 3%nat else 0%nat
        | _ => 0%nat
        end
      else if is_char 227 c then
        if prefix (String (chr 128) (String (chr 128) "")) r then 3%nat else 0%nat
      else if is_char 239 c then
        if prefix (String (chr 187) (String (chr 191) "")) r then 3%nat else 0%nat
      else 0%nat
  | EmptyString => 0%nat
  end.

Fixpoint drop (n : nat) (s : string) : string :=
  match n, s with
  | S n', String _ r => drop n' r
  | _, _ => s
  end.

Fixpoint trimStart_fuel (fuel : nat) (s : string) : string :=
  match fuel with
  | O => s
  | S f =>
      match ws_head s with
      | O => s
      | k => trimStart_fuel f (drop k s)
      end
  end.

(** [s.trimStart()]: every step removes at least one byte, so the length of
    the string is fuel enough. *)
Definition trimStart (s : string) : string := trimStart_fuel (String.length s) s.

(** [s.replace(/\s/g, '')] *)
Fixpoint strip_ws_fuel (fuel : nat) (s : string) : string :=
  match fuel with
  | O => s
  | S f =>
      match ws_head s with
      | O => match s with
             | EmptyString => EmptyString
             | String c r => String c (strip_ws_fuel f r)
             end
      | k => strip_ws_fuel f (drop k s)
      end
  end.

Definition strip_ws (s : string) : string := strip_ws_fuel (String.length s) s.

(** [s.trimEnd()]: the longest prefix that ends before trailing white space. *)
Fixpoint trimEnd_fuel (fuel : nat) (s : string) : string :=
  match fuel with
  | O => s
  | S f =>
      match ws_head s with
      | O => match s with
             | EmptyString => EmptyString
             | String c r => String c (trimEnd_fuel f r)
             end
      | k =>
          match trimEnd_fuel f (drop k s) with
          | EmptyString => EmptyString
          | rest => substring 0 k s ++ rest
          end
      end
  end.

Definition trimEnd (s : string) : string := trimEnd_fuel (String.length s) s.

(** [s.trim()] *)
Definition trim (s : string) : string := trimEnd (trimStart s).

(** [s.toUpperCase()].  Besides the letters of Basic Latin and Latin-1, the
    characters whose upper case is made of ASCII letters are mapped: the sharp
    s, the dotless i, the long s and the Latin ligatures. *)
Fixpoint toUpperCase (s : string) : string :=
  match s with
  | EmptyString => EmptyString
  | String c r =>
      if is_lower c then String (chr (code c - 32)) (toUpperCase r)
      else if is_char 195 c then
        match r with
        | String d r' =>
            if is_char 159 d then "SS" ++ toUpperCase r'
            else if is_char 191 d then String (chr 197) (String (chr 184) (toUpperCase r'))
            else if latin1_lower_tail d
            then String c (String (chr (code d - 32)) (toUpperCase r'))
            else String c (toUpperCase r)
        | EmptyString => String c EmptyString
        end
      else if is_char 194 c then
        match r with
        | String d r' =>
            if is_char 181 d then String (chr 206) (String (chr 156) (toUpperCase r'))
            else String c (toUpperCase r)
        | EmptyString => String c EmptyString
        end
      else if is_char 196 c then
        match r with
        | String d r' =>
            if is_char 177 d then "I" ++ toUpperCase r' else String c (toUpperCase r)
        | EmptyString => String c EmptyString
        end
      else if is_char 197 c then
        match r with
        | String d r' =>
            if is_char 191 d then "S" ++ toUpperCase r' else String c (toUpperCase r)
        | EmptyString => String c EmptyString
        end
      else if is_char 239 c then
        match r with
        | String d (String e r') =>
            if is_char 172 d then
              if is_char 128 e then "FF" ++ toUpperCase r'
              else if is_char 129 e then "FI" ++ toUpperCase r'
              else if is_char 130 e then "FL" ++ toUpperCase r'
              else if is_char 131 e then "FFI" ++ toUpperCase r'
              else if is_char 132 e then "FFL" ++ toUpperCase r'
              else if is_char 133 e || is_char 134 e then "ST" ++ toUpperCase r'
              else String c (toUpperCase r)
            else String c (toUpperCase r)
        | _ => String c (toUpperCase r)
        end
      else String c (toUpperCase r)
  end.

(** The UTF-16 code units of a string, decoded from its UTF-8 bytes; a byte
    that starts no well-formed sequence counts as one unit. *)
Fixpoint code_units (s : string) : list N :=
  let cont c := N.land (code c) 63 in
  let is_cont c := in_range 128 191 c in
  match s with
  | EmptyString => []
  | String a r =>
      match r with
      | String b r1 =>
          if in_range 192 223 a && is_cont b
          then (N.land (code a) 31 * 64 + cont b)%N :: code_units r1
          else
            match r1 with
            | String c r2 =>
                if in_range 224 239 a && is_cont b && is_cont c
                then (N.land (code a) 15 * 4096 + cont b * 64 + cont c)%N :: code_units r2
                else
                  match r2 with
                  | String d r3 =>
                      if in_range 240 247 a && is_cont b && is_cont c && is_cont d
                      then
                        let cp := (N.land (code a) 7 * 262144 + cont b * 4096
                                   + cont c * 64 + cont d - 65536)%N in
                        (55296 + cp / 1024)%N :: (56320 + cp mod 1024)%N :: code_units r3
                      else code a :: code_units r
                  | EmptyString => code a :: code_units r
                  end
            | EmptyString => code a :: code_units r
            end
      | EmptyString => [code a]
      end
  end.

(** [s.slice(a, b)] for [0 <= a <= b] on a string of one-byte characters. *)
Definition slice (a b : nat) (s : string) : string := substring a (b - a) s.

(** [l.join(sep)] *)
Fixpoint join (sep : string) (l : list string) : string :=
  match l with
  | [] => ""
  | [s] => s
  | s :: l' => s ++ sep ++ join sep l'
  end.

(** ** Numbers *)

(** A binary64 value.  [Fin neg m e] is [m * 2^e], negated when [neg]; the
    values built below are canonical: [0 <= m < 2^53], [-1074 <= e <= 971],
    and [2^52 <= m] unless [e = -1074]. *)
Inductive number :=
| NaN
| Inf (neg : bool)
| Fin (neg : bool) (m : Z) (e : Z).

Definition number_eqb (x y : number) : bool :=
  match x, y with
  | NaN, NaN => true
  | Inf a, Inf b => Bool.eqb a b
  | Fin a m e, Fin b m' e' => Bool.eqb a b && (m =? m') && (e =? e')
  | _, _ => false
  end.

Definition zero : number := Fin false 0 (-1074).

(** ToBoolean of a number: false on +0, -0 and NaN. *)
Definition number_truthy (x : number) : bool :=
  match x with
  | NaN => false
  | Inf _ => true
  | Fin _ m _ => negb (m =? 0)
  end.

(** The real number a finite value stands for, as a fraction. *)
Definition ratio_of (m e : Z) : Z * Z :=
  if 0 <=? e then (m * 2 ^ e, 1) else (m, 2 ^ (- e)).

(** floor (log2 (n / d)) for positive [n] and [d]. *)
Definition floor_log2_ratio (n d : Z) : Z :=
  let l := Z.log2 n - Z.log2 d in
  if (if 0 <=? l then d * 2 ^ l <=? n else d <=? n * 2 ^ (- l)) then l else l - 1.

(** The binary64 value nearest to [n / d] (positive [n], [d]), ties to even. *)
Definition binary64 (neg : bool) (n d : Z) : number :=
  let e := Z.max (floor_log2_ratio n d - 52) (-1074) in
  let num := if 0 <=? e then n else n * 2 ^ (- e) in
  let den := if 0 <=? e then d * 2 ^ e else d in
  let q := num / den in
  let r := num mod den in
  let m := if 2 * r <? den then q
           else if den <? 2 * r then q + 1
           else if Z.even q then q else q + 1 in
  let e' := if m =? 2 ^ 53 then e + 1 else e in
  let m' := if m =? 2 ^ 53 then 2 ^ 52 else m in
  if 971 <? e' then Inf neg else Fin neg m' e'.

(** The value of the decimal [m * 10^e10] ([0 <= m]). *)
Definition of_decimal (neg : bool) (m e10 : Z) : number :=
  if m =? 0 then Fin neg 0 (-1074)
  else if 0 <=? e10 then binary64 neg (m * 10 ^ e10) 1
  else binary64 neg m (10 ^ (- e10)).

(** The numeric literal [m] followed by [k] decimals: [dec 123456 2] is 1234.56. *)
Definition dec (m : Z) (k : nat) : number := of_decimal false m (- Z.of_nat k).

(** *** parseFloat on a string *)

Definition digit_value (c : ascii) : Z := Z.of_N (code c) - 48.

(** The longest run of decimal digits at the head of [s]: its value, the
    number of digits, and the rest of the string. *)
Fixpoint span_digits (s : string) (acc : Z) (n : nat) : Z * nat * string :=
  match s with
  | String c r => if is_digit c then span_digits r (10 * acc + digit_value c) (S n) else (acc, n, s)
  | EmptyString => (acc, n, s)
  end.

(** ExponentPart: [e] or [E], an optional sign, at least one digit; 0 when the
    text does not continue with one. *)
Definition exponent_part (s : string) : Z :=
  match s with
  | String c r =>
      if is_char 101 c || is_char 69 c then
        let '(neg, r') :=
          match r with
          | String d r'' =>
              if is_char 45 d then (true, r'')
              else if is_char 43 d then (false, r'')
              else (false, r)
          | EmptyString => (false, r)
          end in
        let '(v, n, _) := span_digits r' 0 0 in
        match n with
        | O => 0
        | _ => if neg then - v else v
        end
      else 0
  | EmptyString => 0
  end.

(** [parseFloat(s)] for a string [s]: leading white space is skipped, the
    longest prefix that is a StrDecimalLiteral is read, and the rest ignored. *)
Definition parseFloat_string (s : string) : number :=
  let s0 := trimStart s in
  let '(neg, s1) :=
    match s0 with
    | String c r =>
        if is_char 45 c then (true, r)
        else if is_char 43 c then (false, r)
        else (false, s0)
    | EmptyString => (false, s0)
    end in
  if prefix "Infinity" s1 then Inf neg
  else
    let '(ip, ni, s2) := span_digits s1 0 0 in
    let '(fp, nf, s3) :=
      match s2 with
      | String c r => if is_char 46 c then span_digits r ip 0 else (ip, O, s2)
      | EmptyString => (ip, O, s2)
      end in
    match (ni + nf)%nat with
    | O => NaN
    | _ => of_decimal neg fp (exponent_part s3 - Z.of_nat nf)
    end.

(** *** Number::toString *)

(** The largest [p] with [d * 10^p <= n], counted up from [p], for [d <= n]. *)
Fixpoint log10_up (fuel : nat) (n d p : Z) : Z :=
  match fuel with
  | O => p
  | S f => if d * 10 <=? n then log10_up f n (d * 10) (p + 1) else p
  end.

(** The largest [p] with [10^p <= n / d], counted down from [p], for [n < d]. *)
Fixpoint log10_down (fuel : nat) (n d p : Z) : Z :=
  match fuel with
  | O => p
  | S f => if n <? d then log10_down f (n * 10) d (p - 1) else p
  end.

(** floor (log10 (n / d)); binary64 values lie between 10^-324 and 10^309. *)
Definition floor_log10_ratio (n d : Z) : Z :=
  if d <=? n then log10_up 400 n d 0 else log10_down 400 n d 0.

(** The integer [s] of [k] digits and the exponent [p] such that [s * 10^p]
    rounds to the value [Fin false m e], nearest to it, if there is one. *)
Definition digits_of_length (m e : Z) (k : Z) : option (Z * Z) :=
  let '(n, d) := ratio_of m e in
  let p := floor_log10_ratio n d - (k - 1) in
  let num := if 0 <=? p then n else n * 10 ^ (- p) in
  let den := if 0 <=? p then d * 10 ^ p else d in
  let lo := num / den in
  let r := num mod den in
  let hi := lo + 1 in
  let back s := number_eqb (of_decimal false s p) (Fin false m e) in
  let norm s := if s =? 10 ^ k then (10 ^ (k - 1), p + 1) else (s, p) in
  match back lo, back hi with
  | true, true =>
      Some (norm (if 2 * r <? den then lo
                  else if den <? 2 * r then hi
                  else if Z.even lo then lo else hi))
  | true, false => Some (norm lo)
  | false, true => Some (norm hi)
  | false, false => None
  end.

(** The shortest such digits: [k] from 1 upwards; 17 digits always suffice. *)
Fixpoint shortest_digits (fuel : nat) (m e : Z) (k : Z) : Z * Z * Z :=
  match fuel with
  | O => (m, e, k)
  | S f =>
      match digits_of_length m e k with
      | Some (s, p) => (s, p, k)
      | None => shortest_digits f m e (k + 1)
      end
  end.

Definition string_of_nat_dec (n : Z) : string :=
  NilZero.string_of_uint (N.to_uint (Z.to_N n)).

Fixpoint zeros (n : nat) : string :=
  match n with
  | O => ""
  | S n' => String "0" (zeros n')
  end.

(** [Number::toString(x)] in radix 10. *)
Definition Number_toString (x : number) : string :=
  match x with
  | NaN => "NaN"
  | Inf neg => if neg then "-Infinity" else "Infinity"
  | Fin neg m e =>
      if m =? 0 then "0"
      else
        let '(s, p, k) := shortest_digits 17 m e 1 in
        let n := p + k in
        let ds := string_of_nat_dec s in
        let body :=
          if (k <=? n) && (n <=? 21) then ds ++ zeros (Z.to_nat (n - k))
          else if (0 <? n) && (n <=? 21) then
            substring 0 (Z.to_nat n) ds ++ "." ++ substring (Z.to_nat n) (Z.to_nat (k - n)) ds
          else if (-6 <? n) && (n <=? 0) then "0." ++ zeros (Z.to_nat (- n)) ++ ds
          else
            let ex := (if 0 <=? n - 1 then "+" else "-") ++ string_of_nat_dec (Z.abs (n - 1)) in
            if k =? 1 then ds ++ "e" ++ ex
            else substring 0 1 ds ++ "." ++ substring 1 (Z.to_nat (k - 1)) ds ++ "e" ++ ex in
        if neg then "-" ++ body else body
  end.

(** ** Values *)

(** A JavaScript value as JSON.parse (or axios, for a JSON response) builds
    it, and [undefined].  The fields of an object are its own properties. *)
#[warning="-register-all"]
Inductive value :=
| VUndefined
| VNull
| VBool (b : bool)
| VNum (n : number)
| VStr (s : string)
| VArr (l : list value)
| VObj (fields : list (string * value)).

(** ToBoolean *)
Definition truthy (v : value) : bool :=
  match v with
  | VUndefined | VNull => false
  | VBool b => b
  | VNum n => number_truthy n
  | VStr s => negb (s =? "")%string
  | VArr _ | VObj _ => true
  end.

(** [a || b] *)
Definition or (a b : value) : value := if truthy a then a else b.

Notation "a ||| b" := (or a b) (at level 50, left associativity).

Fixpoint lookup (k : string) (fields : list (string * value)) : option value :=
  match fields with
  | [] => None
  | (k', v) :: rest => if (k' =? k)%string then Some v else lookup k rest
  end.

Definition nullish (v : value) : bool :=
  match v with
  | VUndefined | VNull => true
  | _ => false
  end.

(** [v.k] for a value that is neither [null] nor [undefined], and a key that
    no prototype defines: an own property of an object, [undefined] otherwise. *)
Definition prop (v : value) (k : string) : value :=
  match v with
  | VObj fields =>
      match lookup k fields with
      | Some x => x
      | None => VUndefined
      end
  | _ => VUndefined
  end.

(** [v.k]: reading a property of [null] or [undefined] throws. *)
Definition get (v : value) (k : string) : result value :=
  if nullish v
  then Throw (Exn TypeError ("Cannot read properties of " ++
                (match v with VNull => "null" | _ => "undefined" end) ++
                " (reading '" ++ k ++ "')"))
  else Ok (prop v k).

Definition cannot_convert : exn := Exn TypeError "Cannot convert object to primitive value".

(** ToString.  An array joins its elements with a comma, [null] and
    [undefined] elements as the empty string.  An object is "[object Object]"
    unless it has an own property [toString]: a JSON value is never callable,
    so the conversion finds no method that returns a primitive and throws. *)
Fixpoint ToString (v : value) : result string :=
  match v with
  | VUndefined => Ok "undefined"
  | VNull => Ok "null"
  | VBool b => Ok (if b then "true" else "false")
  | VNum n => Ok (Number_toString n)
  | VStr s => Ok s
  | VArr l =>
      (fix elements (l : list value) : result string :=
         match l with
         | [] => Ok ""
         | x :: l' =>
             s <- (if nullish x then Ok "" else ToString x) ;;
             match l' with
             | [] => Ok s
             | _ => r <- elements l' ;; Ok (s ++ "," ++ r)
             end
         end) l
  | VObj fields =>
      match lookup "toString" fields with
      | Some _ => Throw cannot_convert
      | None => Ok "[object Object]"
      end
  end.

(** [parseFloat(v)] *)
Definition parseFloat (v : value) : result number :=
  s <- ToString v ;; Ok (parseFloat_string s).

(** [x || null] for a number [x]: [None] is [null]. *)
Definition or_null (x : number) : option number :=
  if number_truthy x then Some x else None.

(** [v.toLowerCase()]: only a string has the method. *)
Definition call_toLowerCase (v : value) : result string :=
  match v with
  | VStr s => Ok (toLowerCase s)
  | VUndefined | VNull =>
      Throw (Exn TypeError "Cannot read properties of undefined (reading 'toLowerCase')")
  | _ => Throw (Exn TypeError "toLowerCase is not a function")
  end.

(** ['' + v] and [`${v}`] *)
Definition concat (s : string) (v : value) : result string :=
  t <- ToString v ;; Ok (s ++ t).

(** [[a, b].filter(Boolean).join(sep)] *)
Definition join_truthy (sep : string) (l : list value) : result string :=
  ss <- mapM ToString (filter truthy l) ;; Ok (join sep ss).

(** A string as a field of a record: [s || null]. *)
Definition str_or_null (s : string) : value :=
  if (s =? "")%string then VNull else VStr s.

(** [cols[k] || null] and [cols[k] || ''] on an array of strings. *)
Definition col (cols : list string) (k : nat) : string := nth k cols "".

Definition col_or_null (cols : list string) (k : nat) : value := str_or_null (col cols k).

End JS.

(* ================================================================== *)
(** * Part II. backend-server.js                                       *)
(* ================================================================== *)

Module Backend.
Import JS.

(** ** The record every adapter returns

    The object literal [{ acta, fecha, descripcion, lugar, importe, estado,
    jurisdiccion }].  [importe] is the value of [parseFloat(...) || null] and
    [estado] the value of a string expression in every adapter, the other
    fields are whatever value the upstream item holds. *)
Record infraccion := Infraccion {
  acta : value;
  fecha : value;
  descripcion : value;
  lugar : value;
  importe : option number;
  estado : string;
  jurisdiccion : value
}.

(** ** What cheerio gives

    An element of a loaded document: the text under it, the [value] attribute
    it carries, and the elements a selector finds below it, in document
    order. *)
#[warning="-register-all"]
Inductive element := Element {
  text : string;
  val : option string;
  find : string -> list element
}.

(** [$(sel).text()]: the texts of the selected elements, concatenated. *)
Definition text_of (sel : list element) : string := String.concat "" (map text sel).

(** [$(sel).first().text()] *)
Definition first_text (sel : list element) : string :=
  match sel with
  | [] => ""
  | e :: _ => text e
  end.

(** [$(sel).val() || ''] *)
Definition val_or_empty (sel : list element) : string :=
  match sel with
  | [] => ""
  | e :: _ => match val e with Some v => v | None => "" end
  end.

(** [$(row).find('td').map((_, td) => $(td).text().trim()).get()] *)
Definition cells (row : element) : list string := map (fun td => trim (text td)) (find row "td").

(** A response of axios: [res.status], [res.data], and what the libraries read
    in it: [doc] is [cheerio.load(String(res.data))] and [parsed] is
    [JSON.parse(String(res.data))], [None] when it throws a SyntaxError. *)
Record response := Response {
  status : Z;
  data : value;
  doc : element;
  parsed : option value
}.

(** ** The shared parsing expressions *)

(** [/[^0-9.]/g] removes what this keeps. *)
Definition digit_or_dot (c : ascii) : bool := is_digit c || is_char 46 c.

(** [/[^0-9.,]/g] removes what this keeps. *)
Definition digit_dot_or_comma (c : ascii) : bool := is_digit c || is_char 46 c || is_char 44 c.

(** [parseFloat(t.replace(/[^0-9.]/g,'')) || null] *)
Definition importe_punto (t : string) : option number :=
  or_null (parseFloat_string (filter_string digit_or_dot t)).

(** [parseFloat(t.replace(/[^0-9.,]/g,'').replace(',','.')) || null] *)
Definition importe_coma (t : string) : option number :=
  or_null (parseFloat_string (replace_first "," "." (filter_string digit_dot_or_comma t))).

(** [parseFloat(v) || null] *)
Definition importe_json (v : value) : result (option number) :=
  x <- parseFloat v ;; Ok (or_null x).

(** [t.toLowerCase().includes('pag') ? 'pagada' : 'pendiente'] *)
Definition pagada_si_pag (t : string) : string :=
  if includes "pag" (toLowerCase t) then "pagada" else "pendiente".

(** [v.toLowerCase().includes('pag') ? 'pagada' : 'pendiente'] on a value. *)
Definition estado_json (v : value) : result string :=
  s <- call_toLowerCase v ;; Ok (if includes "pag" s then "pagada" else "pendiente").

(** [t || fallback] on strings. *)
Definition or_else (t fallback : string) : string := if (t =? "")%string then fallback else t.

(** ** The record literals, adapter by adapter

    A literal built from the cells of a row cannot throw.  One built from an
    item [i] of a JSON list throws a TypeError when [i] is null or undefined,
    at its first property read ([get]); after that read no other can throw,
    and what is left to throw is [parseFloat] and [toLowerCase], in the order
    of the fields. *)

(** fetchANSV, a table row (lines 122-130). *)
Definition ansv_row (cols : list string) : infraccion :=
  {| acta := col_or_null cols 0;
     fecha := col_or_null cols 1;
     descripcion := col_or_null cols 2;
     lugar := col_or_null cols 3;
     importe := importe_punto (col cols 4);
     estado := pagada_si_pag (col cols 5);
     jurisdiccion := VStr (or_else (col cols 6) "Nacional") |}.

(** fetchANSV, an item of the JSON body (lines 139-147): [estado] is the
    status text in lower case, as it is. *)
Definition ansv_item (i : value) : result infraccion :=
  _ <- get i "nroActa" ;;
  imp <- importe_json (prop i "importe" ||| prop i "monto" ||| VNum zero) ;;
  est <- call_toLowerCase (prop i "estado" ||| VStr "pendiente") ;;
  Ok {| acta := prop i "nroActa" ||| prop i "acta" ||| VNull;
        fecha := prop i "fecha" ||| VNull;
        descripcion := prop i "descripcion" ||| prop i "motivo" ||| VNull;
        lugar := prop i "lugar" ||| prop i "direccion" ||| VNull;
        importe := imp;
        estado := est;
        jurisdiccion := prop i "jurisdiccion" ||| VStr "Nacional" |}.

(** fetchPBA (lines 193-201). *)
Definition pba_item (i : value) : result infraccion :=
  _ <- get i "nroActa" ;;
  imp <- importe_json (prop i "importe" ||| prop i "monto" ||| prop i "deuda" ||| VNum zero) ;;
  est <- estado_json (prop i "estado" ||| VStr "pendiente") ;;
  Ok {| acta := prop i "nroActa" ||| prop i "numeroCausa" ||| prop i "acta" ||| VNull;
        fecha := prop i "fechaInfraccion" ||| prop i "fecha" ||| VNull;
        descripcion := prop i "descripcionFalta" ||| prop i "descripcion" ||| prop i "articulo" ||| VNull;
        lugar := prop i "lugar" ||| prop i "juzgado" ||| VNull;
        importe := imp;
        estado := est;
        jurisdiccion := prop i "juzgado" ||| prop i "jurisdiccion" ||| VStr "Provincia de Buenos Aires" |}.

(** fetchCABA: [getText] of a card, and the record (lines 251-261). *)
Definition getText (card : element) (sel : string) : value :=
  str_or_null (trim (first_text (find card sel))).

Definition caba_card (card : element) : infraccion :=
  {| acta := getText card ".acta-number, [data-acta], h6.mb-1" ||| getText card "h6";
     fecha := getText card ".fecha, [data-fecha], small";
     descripcion := getText card ".descripcion, p.card-text, .infraccion-desc";
     lugar := getText card ".lugar, .address";
     importe := importe_coma (trim (first_text (find card ".importe, .monto, .total")));
     estado := pagada_si_pag (text card);
     jurisdiccion := VStr "CABA" |}.

(** fetchSantaFe (lines 280-288). *)
Definition santafe_row (cols : list string) : infraccion :=
  {| acta := col_or_null cols 0;
     fecha := col_or_null cols 1;
     descripcion := col_or_null cols 2;
     lugar := col_or_null cols 3;
     importe := importe_punto (col cols 4);
     estado := "pendiente";
     jurisdiccion := VStr "Santa Fe" |}.

(** fetchPosadas (lines 319-327): the status is read in the text of the page. *)
Definition posadas_row (bodyText : string) (cols : list string) : infraccion :=
  {| acta := col_or_null cols 0;
     fecha := col_or_null cols 1;
     descripcion := col_or_null cols 2;
     lugar := col_or_null cols 3;
     importe := importe_punto (col cols 4);
     estado := pagada_si_pag bodyText;
     jurisdiccion := VStr "Municipio de Posadas" |}.

(** fetchCorrientes (lines 378-386). *)
Definition corrientes_row (cols : list string) : infraccion :=
  {| acta := col_or_null cols 0;
     fecha := col_or_null cols 1;
     descripcion := col_or_null cols 2;
     lugar := col_or_null cols 3;
     importe := importe_punto (col cols 4);
     estado := pagada_si_pag (col cols 5);
     jurisdiccion := VStr "Corrientes" |}.

(** fetchEntreRios (lines 424-432). *)
Definition entrerios_item (i : value) : result infraccion :=
  _ <- get i "nroActa" ;;
  imp <- importe_json (prop i "importe" ||| prop i "monto" ||| prop i "deuda" ||| VNum zero) ;;
  est <- estado_json (prop i "estado" ||| VStr "pendiente") ;;
  Ok {| acta := prop i "nroActa" ||| prop i "acta" ||| prop i "numero" ||| VNull;
        fecha := prop i "fecha" ||| prop i "fechaInfraccion" ||| VNull;
        descripcion := prop i "descripcion" ||| prop i "motivo" ||| prop i "articulo" ||| VNull;
        lugar := prop i "lugar" ||| prop i "direccion" ||| VNull;
        importe := imp;
        estado := est;
        jurisdiccion := prop i "jurisdiccion" ||| VStr "Entre Ríos" |}.

(** fetchMisiones (lines 467-475). *)
Definition misiones_item (i : value) : result infraccion :=
  _ <- get i "nroActa" ;;
  imp <- importe_json (prop i "importe" ||| prop i "monto" ||| prop i "deuda" ||| VNum zero) ;;
  est <- estado_json (prop i "estado" ||| VStr "pendiente") ;;
  Ok {| acta := prop i "nroActa" ||| prop i "acta" ||| prop i "numero" ||| VNull;
        fecha := prop i "fecha" ||| prop i "fechaInfraccion" ||| VNull;
        descripcion := prop i "descripcion" ||| prop i "motivo" ||| prop i "articulo" ||| VNull;
        lugar := prop i "lugar" ||| prop i "direccion" ||| VNull;
        importe := imp;
        estado := est;
        jurisdiccion := prop i "jurisdiccion" ||| VStr "Misiones" |}.

(** fetchChaco, the two lists (lines 492-510). *)
Definition chaco_fotomulta (i : value) : result infraccion :=
  _ <- get i "nroActa" ;;
  imp <- importe_json (prop i "importe" ||| prop i "importe_1vto" ||| VNum zero) ;;
  est <- estado_json (prop i "estado" ||| VStr "pendiente") ;;
  Ok {| acta := prop i "nroActa" ||| prop i "id" ||| VNull;
        fecha := prop i "fechaInfraccion" ||| prop i "fechaGeneracion" ||| VNull;
        descripcion := prop i "descripcionLey" ||| prop i "articulo" ||| prop i "tipo" ||| VNull;
        lugar := prop i "lugar" ||| prop i "juzgado" ||| VNull;
        importe := imp;
        estado := est;
        jurisdiccion := VStr "Chaco (Fotomulta)" |}.

Definition chaco_caminera (i : value) : result infraccion :=
  _ <- get i "nroActa" ;;
  imp <- importe_json (prop i "importe_1vto" ||| VNum zero) ;;
  est <- estado_json (prop i "estado" ||| VStr "pendiente") ;;
  Ok {| acta := prop i "nroActa" ||| VNull;
        fecha := prop i "fecha_1vto" ||| VNull;
        descripcion := prop i "tipo" ||| VNull;
        lugar := VNull;
        importe := imp;
        estado := est;
        jurisdiccion := VStr "Chaco (Caminera)" |}.

(** fetchRosario (lines 576-584). *)
Definition rosario_row (cols : list string) : infraccion :=
  {| acta := col_or_null cols 0;
     fecha := col_or_null cols 1;
     descripcion := col_or_null cols 2;
     lugar := col_or_null cols 3;
     importe := importe_coma (col cols 4);
     estado := pagada_si_pag (col cols 5);
     jurisdiccion := VStr "Rosario" |}.

(** fetchNeuquen (lines 619-627). *)
Definition neuquen_item (i : value) : result infraccion :=
  _ <- get i "nro_acta" ;;
  imp <- importe_json (prop i "importe" ||| prop i "monto" ||| VNum zero) ;;
  est <- estado_json (prop i "estado" ||| VStr "pendiente") ;;
  Ok {| acta := prop i "nro_acta" ||| prop i "acta" ||| prop i "id" ||| VNull;
        fecha := prop i "fecha" ||| prop i "fecha_infraccion" ||| VNull;
        descripcion := prop i "descripcion" ||| prop i "motivo" ||| prop i "tipo" ||| VNull;
        lugar := prop i "lugar" ||| prop i "direccion" ||| VNull;
        importe := imp;
        estado := est;
        jurisdiccion := VStr "Neuquén Capital" |}.

(** fetchSantaRosa (lines 667-675). *)
Definition santarosa_row (cols : list string) : infraccion :=
  {| acta := col_or_null cols 0;
     fecha := col_or_null cols 1;
     descripcion := col_or_null cols 2;
     lugar := col_or_null cols 3;
     importe := importe_coma (col cols 4);
     estado := pagada_si_pag (or_else (col cols 5) (col cols 3));
     jurisdiccion := VStr "Santa Rosa (La Pampa)" |}.

(** fetchMendoza (lines 771-780). *)
Definition mendoza_row (cols : list string) : infraccion :=
  {| acta := str_or_null (or_else (col cols 9) (col cols 3));
     fecha := col_or_null cols 1;
     descripcion := col_or_null cols 11;
     lugar := VNull;
     importe := importe_coma (or_else (col cols 8) (col cols 7));
     estado := pagada_si_pag (col cols 14);
     jurisdiccion := VStr "Ciudad de Mendoza" |}.

(** fetchMendozaCaminera, an item of the structured grid (lines 895-903);
    [titular] is [ctx.AV9Titular || '']. *)
Definition con_titular (label : string) (titular : value) : result value :=
  if truthy titular
  then t <- concat " · " titular ;; Ok (VStr (label ++ t))
  else Ok (VStr label).

Definition caminera_sdt (titular item : value) : result infraccion :=
  _ <- get item "obnId" ;;
  des <- join_truthy " - " [prop item "concepto"; prop item "subConcepto"] ;;
  imp <- importe_json (prop item "importeTotal" ||| VNum zero) ;;
  est <- estado_json (prop item "tipo" ||| VStr "pendiente") ;;
  jur <- con_titular "Mendoza Caminera" titular ;;
  Ok {| acta := prop item "obnId" ||| prop item "concepto" ||| VNull;
        fecha := prop item "vencimiento" ||| VNull;
        descripcion := str_or_null des;
        lugar := VNull;
        importe := imp;
        estado := est;
        jurisdiccion := jur |}.

(** fetchMendozaCaminera, an item of the AV14objetos string (lines 910-918). *)
Definition caminera_objeto (titular item : value) : result infraccion :=
  _ <- get item "ObnId" ;;
  des <- join_truthy " - " [prop item "concepto"; prop item "subconcepto"] ;;
  imp <- importe_json (prop item "cuotaDeudaTotal" ||| prop item "saldoCap" ||| VNum zero) ;;
  jur <- (if truthy (prop item "persona")
          then t <- concat " · " (prop item "persona") ;; Ok (VStr ("Mendoza Caminera" ++ t))
          else con_titular "Mendoza Caminera" titular) ;;
  Ok {| acta := prop item "ObnId" ||| prop item "tasa" ||| VNull;
        fecha := prop item "ocvfechavto" ||| VNull;
        descripcion := VStr des ||| prop item "tasa" ||| VNull;
        lugar := VNull;
        importe := imp;
        estado := "pendiente";
        jurisdiccion := jur |}.

(** fetchMendozaCaminera, an item of the hidden W0077vOBJETOS string
    (lines 928-936). *)
Definition caminera_hidden (item : value) : result infraccion :=
  _ <- get item "ObnId" ;;
  des <- join_truthy " - " [prop item "concepto"; prop item "subconcepto"] ;;
  imp <- importe_json (prop item "cuotaDeudaTotal" ||| prop item "saldoCap" ||| VNum zero) ;;
  Ok {| acta := prop item "ObnId" ||| prop item "tasa" ||| VNull;
        fecha := prop item "ocvfechavto" ||| VNull;
        descripcion := VStr des ||| prop item "tasa" ||| VNull;
        lugar := VNull;
        importe := imp;
        estado := "pendiente";
        jurisdiccion := VStr "Mendoza Caminera" |}.

(** fetchSalta (lines 976-984).  [toISOString v] is
    [new Date(v).toISOString()], which throws a RangeError on an invalid date. *)
Definition salta_item (toISOString : value -> result string) (i : value) : result infraccion :=
  _ <- get i "numeroObligacionImpuesto" ;;
  act <- ToString (prop i "numeroObligacionImpuesto" ||| prop i "acta" ||| VStr "") ;;
  fec <- (if truthy (prop i "fechaInfraccion")
          then d <- toISOString (prop i "fechaInfraccion") ;; Ok (VStr (slice 0 10 d))
          else Ok VNull) ;;
  des <- join_truthy " – " [prop i "descripcion"; prop i "articulo"] ;;
  alt <- (if truthy (prop i "altura")
          then t <- concat "N° " (prop i "altura") ;; Ok (VStr t)
          else Ok VNull) ;;
  lug <- join_truthy " " [prop i "calle"; alt] ;;
  imp <- importe_json (prop i "importe" ||| prop i "monto" ||| VNum zero) ;;
  est <- estado_json (prop i "estadoPlanPago" ||| prop i "estado" ||| VStr "pendiente") ;;
  jur <- con_titular "Salta Capital" (prop i "titular") ;;
  Ok {| acta := VStr act;
        fecha := fec;
        descripcion := str_or_null des;
        lugar := str_or_null lug;
        importe := imp;
        estado := est;
        jurisdiccion := jur |}.

(** fetchCordoba (lines 1002-1013): the name of the taxpayer, and the record
    of one obligation of one of the taxpayer's objects. *)
Definition cordoba_titular (contribuyente : value) : result string :=
  _ <- get contribuyente "nombre" ;;
  n <- ToString (prop contribuyente "nombre" ||| VStr "") ;;
  a <- ToString (prop contribuyente "apellido" ||| VStr "") ;;
  Ok (trim (n ++ " " ++ a)).

Definition cordoba_obligacion (titular : string) (objeto ob : value) : result infraccion :=
  _ <- get objeto "referencia1" ;;
  _ <- get ob "fechaLabrado" ;;
  imp <- importe_json (prop ob "saldoTotal" ||| VNum zero) ;;
  est <- estado_json (prop ob "estado" ||| VStr "") ;;
  Ok {| acta := prop objeto "referencia1" ||| VNull;
        fecha := prop ob "fechaLabrado" ||| VNull;
        descripcion := prop ob "descripcion" ||| VNull;
        lugar := VNull;
        importe := imp;
        estado := est;
        jurisdiccion := VStr (if (titular =? "")%string then "Córdoba Caminera"
                              else "Córdoba Caminera" ++ " · " ++ titular) |}.

(** ** Reading a response: the last stage of an adapter *)

(** A case-insensitive test of a literal pattern of lower case ASCII letters
    and spaces, as in [/no registra/i.test(t)]. *)
Definition test_i (pattern t : string) : bool := includes pattern (toLowerCase t).

(** The rows a selector finds, as the arrays [cols] of their cells. *)
Definition rows_of (d : element) (sel : string) : list (list string) :=
  map cells (find d sel).

(** [.each((i, row) => { if (i === 0) return; ... })]: the first selected row
    is skipped. *)
Definition skip_first {A} (l : list A) : list A := tl l.

(** [if (cols.length < n) return;] *)
Definition at_least (n : nat) (cols : list string) : bool := (n <=? List.length cols)%nat.

(** [l.forEach(x => infracciones.push(f x))]: the records pushed before an
    item throws stay in the array. *)
Fixpoint forEach_push {A} (f : A -> result infraccion) (l : list A)
    (infracciones : list infraccion) : result unit * list infraccion :=
  match l with
  | [] => (Ok tt, infracciones)
  | x :: l' =>
      match f x with
      | Ok r => forEach_push f l' (infracciones ++ [r])%list
      | Throw e => (Throw e, infracciones)
      end
  end.

Definition not_a_function (name : string) : exn :=
  Exn TypeError (name ++ " is not a function").

(** fetchANSV, the body of the [try] of the JSON fallback (lines 137-147),
    run on the array [infracciones]: what it throws, if it does, and the
    array as it leaves it.  [JSON.parse] throws a SyntaxError on a text that
    is not JSON; reading a property of a parsed [null] and calling [forEach]
    on what is not an array throw a TypeError. *)
Definition ansv_json_attempt (res : response) (infracciones : list infraccion)
    : result unit * list infraccion :=
  match parsed res with
  | None => (Throw (Exn SyntaxError "Unexpected token in JSON"), infracciones)
  | Some json =>
      match get json "infracciones" with
      | Throw e => (Throw e, infracciones)
      | Ok _ =>
          match prop json "infracciones" ||| prop json "data" ||| prop json "items" ||| VArr [] with
          | VArr list => forEach_push ansv_item list infracciones
          | _ => (Throw (not_a_function "list.forEach"), infracciones)
          end
      end
  end.

(** fetchANSV from the response of the POST on (lines 116-151).  The [catch]
    of the fallback is empty: whatever the attempt throws is dropped. *)
Definition ansv_parse (res : response) : result (list infraccion) :=
  resText <- ToString (data res) ;;
  let infracciones :=
    map ansv_row (filter (at_least 3)
      (rows_of (doc res) "table.table-infracciones tbody tr, table tbody tr")) in
  if (List.length infracciones =? 0)%nat && includes "{" resText
  then Ok (snd (ansv_json_attempt res infracciones))
  else Ok infracciones.

(** A value that can be given a property: an object or an array. *)
Definition is_object (v : value) : bool :=
  match v with
  | VArr _ | VObj _ => true
  | _ => false
  end.

(** [cheerio.load(res.data)], the data given as it is and not as
    [String(res.data)] (lines 241 and 273; lines 59, 148 and 175 of
    server.js).  Data that is a string is read as the text of a page, which
    is [doc res].  Any other value is not converted.  cheerio refuses [null]
    and [undefined], and takes what is left for a node, or an array of nodes,
    of a tree built elsewhere: it links each node to its neighbours, which in
    strict mode throws a TypeError on a node that is a string, a number, a
    boolean, [null] or [undefined].  What it makes of objects, a page or an
    exception, is the argument [load]. *)
Definition load_data (load : value -> result element) (res : response) : result element :=
  match data res with
  | VStr _ => Ok (doc res)
  | VUndefined | VNull => Throw (Exn Error "cheerio.load() expects a string")
  | VBool _ | VNum _ => Throw (Exn TypeError "Cannot create property 'prev' on the value")
  | VArr nodes =>
      if forallb is_object nodes then load (data res)
      else Throw (Exn TypeError "Cannot create property 'prev' on the value")
  | VObj _ => load (data res)
  end.

(** fetchCABA from the response on (lines 237-264). *)
Definition caba_parse (load : value -> result element) (res : response)
    : result (list infraccion) :=
  if negb (truthy (data res))
  then Throw (Exn Error "CABA devolvió una respuesta vacía (captcha inválido).")
  else
    t <- ToString (data res) ;;
    if (trim t =? "")%string
    then Throw (Exn Error "CABA devolvió una respuesta vacía (captcha inválido).")
    else
      page <- load_data load res ;;
      if includes "No registrás infracciones" (text_of (find page "h6"))
      then Ok []
      else Ok (map caba_card (find page ".card-access")).

(** fetchPosadas from the response on (lines 307-330). *)
Definition posadas_parse (res : response) : result (list infraccion) :=
  _ <- ToString (data res) ;;
  let bodyText := text_of (find (doc res) "body") in
  if test_i "no registra" bodyText then Ok []
  else Ok (map (posadas_row bodyText)
             (filter (at_least 2) (skip_first (rows_of (doc res) "table tbody tr, table tr")))).

(** fetchCorrientes from the response on (lines 368-389). *)
Definition corrientes_parse (res : response) : result (list infraccion) :=
  _ <- ToString (data res) ;;
  let bodyText := text_of (find (doc res) "body") in
  if test_i "no posee infracciones" bodyText || test_i "sin infracciones" bodyText
     || test_i "no registra" bodyText
  then Ok []
  else Ok (map corrientes_row
             (filter (at_least 2) (skip_first (rows_of (doc res) "table tbody tr, table tr")))).

(** fetchRosario from the response on (lines 561-591): the error banner is
    looked at first, the rows are read next, and the sentence of the page that
    says there is nothing is looked for last, with the rows already read. *)
Definition rosario_parse (res : response) : result (list infraccion) :=
  _ <- ToString (data res) ;;
  match find (doc res) ".govuk-error-summary" with
  | (_ :: _) as summary =>
      Throw (Exn Error ("Rosario devolvió error: " ++ trim (text_of summary)))
  | [] =>
      let infracciones :=
        map rosario_row
          (filter (at_least 2) (skip_first (rows_of (doc res) "table tbody tr, table tr"))) in
      let bodyText := text_of (find (doc res) "body") in
      if (test_i "no registra" bodyText || test_i "sin infracciones" bodyText
          || test_i "no pose" bodyText)
         && (List.length infracciones =? 0)%nat
      then Ok []
      else Ok infracciones
  end.

(** fetchSantaRosa from the response on (lines 655-678). *)
Definition santarosa_parse (res : response) : result (list infraccion) :=
  _ <- ToString (data res) ;;
  if includes "No se encontraron infracciones" (text_of (find (doc res) "body"))
  then Ok []
  else
    let errText := trim (first_text (find (doc res) "article.red li, .red li")) in
    if negb (errText =? "")%string
    then Throw (Exn Error ("Santa Rosa: " ++ errText))
    else Ok (map santarosa_row (filter (at_least 2) (rows_of (doc res) "table tbody tr"))).

(** ** Requests

    What an adapter asks of the outside: a GET, a POST of a form, and the
    solving of a reCAPTCHA by 2captcha.  Headers and cookies are not modelled.
    The outside is a function from the requests already made and the request
    at hand to a response or a failure (a timeout, a status axios rejects, an
    error of the solving service). *)
Inductive request :=
| GET (url : string)
| POST (url : string) (form : list (string * string))
| Recaptcha (siteKey pageUrl : string).

Definition network := list request -> request -> result response.

(** An adapter step: it reads the network, appends to the log of the
    requests made, and returns or throws. *)
Definition M (A : Type) : Type := network -> list request -> result A * list request.

Definition ret {A} (a : A) : M A := fun _ log => (Ok a, log).

Definition throw {A} (e : exn) : M A := fun _ log => (Throw e, log).

Definition lift {A} (r : result A) : M A := fun _ log => (r, log).

Definition bindM {A B} (m : M A) (k : A -> M B) : M B :=
  fun net log =>
    match m net log with
    | (Ok a, log') => k a net log'
    | (Throw e, log') => (Throw e, log')
    end.

Notation "x <-- e ;; k" := (bindM e (fun x => k))
  (at level 61, e at next level, right associativity).

(** [await http.get(...)], [await http.post(...)], [await solver.recaptcha(...)] *)
Definition send (r : request) : M response :=
  fun net log => (net log r, (log ++ [r])%list).

(** ** fetchANSV *)

(** [/^[A-Z]{3}\d{3}$/.test(dominio)] *)
Definition formato_antiguo (dominio : string) : bool :=
  match dominio with
  | String a (String b (String c (String d (String e (String f EmptyString))))) =>
      is_upper a && is_upper b && is_upper c && is_digit d && is_digit e && is_digit f
  | _ => false
  end.

(** [/^[A-Z]{2}\d{3}[A-Z]{2}$/.test(dominio)] *)
Definition formato_mercosur (dominio : string) : bool :=
  match dominio with
  | String a (String b (String c (String d (String e (String f (String g EmptyString)))))) =>
      is_upper a && is_upper b && is_digit c && is_digit d && is_digit e
      && is_upper f && is_upper g
  | _ => false
  end.

Definition BASE : string := "https://consultainfracciones.seguridadvial.gob.ar".

Definition PAGE_URL : string := BASE ++ "/".

Definition solo_formato_antiguo : exn :=
  Exn Error "El portal ANSV/SINAI solo admite patentes en formato antiguo (ABC123). El formato Mercosur (AB123CD) no está soportado.".

Definition sin_site_key : exn :=
  Exn Error "No se encontró el site key de reCAPTCHA en el portal ANSV/SINAI.".

(** The selector that names the input elements whose name attribute is [n]. *)
Definition input_named (n : string) : string :=
  "input[name=" ++ dquote ++ n ++ dquote ++ "]".

(** The longest run of characters other than the double quote at the head of
    [s], and the rest. *)
Fixpoint span_unquoted (s : string) : string * string :=
  match s with
  | String c r =>
      if is_char 34 c then ("", s)
      else let '(k, rest) := span_unquoted r in (String c k, rest)
  | EmptyString => ("", s)
  end.

Definition after_prefix (p s : string) : option string :=
  if prefix p s then Some (drop (String.length p) s) else None.

(** [html.match] of the regular expression that reads the data-sitekey
    attribute: the text data-sitekey= and a double quote, then one or more
    characters other than the double quote (the group), then a double quote.
    The result is the group of the leftmost match, if there is a match. *)
Fixpoint siteKeyMatch (html : string) : option string :=
  match html with
  | EmptyString => None
  | String _ r =>
      match after_prefix ("data-sitekey=" ++ dquote) html with
      | Some rest =>
          let '(k, rest') := span_unquoted rest in
          if negb (k =? "")%string && prefix dquote rest' then Some k else siteKeyMatch r
      | None => siteKeyMatch r
      end
  end.

(** The form of the UpdatePanel postback (lines 86-101). *)
Definition ansv_form (viewState viewStateGenerator eventValidation dominio captchaToken : string)
    : list (string * string) :=
  [ ("ctl00$ScriptManager",
     "ctl00$ContentPlaceHolder1$updtFormulario|ctl00$ContentPlaceHolder1$btnBuscar");
    ("__EVENTTARGET", "");
    ("__EVENTARGUMENT", "");
    ("__ASYNCPOST", "true");
    ("__VIEWSTATE", viewState);
    ("__VIEWSTATEGENERATOR", viewStateGenerator);
    ("__EVENTVALIDATION", eventValidation);
    ("ctl00$ContentPlaceHolder1$hiddenSeleccion", "dominio");
    ("ctl00$ContentPlaceHolder1$hiddenBusqueda", "dominio");
    ("ctl00$ContentPlaceHolder1$hiddenFirstLoad", "false");
    ("ctl00$ContentPlaceHolder1$version", "2.3");
    ("ctl00$ContentPlaceHolder1$txDominio", dominio);
    ("ctl00$ContentPlaceHolder1$btnBuscar", "Consultar infracciones");
    ("g-recaptcha-response", captchaToken) ].

(** fetchANSV (lines 53-152). *)
Definition fetchANSV (dominio : string) : M (list infraccion) :=
  if negb (formato_antiguo dominio) then throw solo_formato_antiguo
  else
    home <-- send (GET PAGE_URL) ;;
    html <-- lift (ToString (data home)) ;;
    let viewState := val_or_empty (find (doc home) (input_named "__VIEWSTATE")) in
    let viewStateGenerator := val_or_empty (find (doc home) (input_named "__VIEWSTATEGENERATOR")) in
    let eventValidation := val_or_empty (find (doc home) (input_named "__EVENTVALIDATION")) in
    match siteKeyMatch html with
    | None => throw sin_site_key
    | Some siteKey =>
        captchaResult <-- send (Recaptcha siteKey PAGE_URL) ;;
        captchaToken <-- lift (ToString (data captchaResult)) ;;
        res <-- send (POST PAGE_URL
                  (ansv_form viewState viewStateGenerator eventValidation dominio captchaToken)) ;;
        lift (ansv_parse res)
    end.

(** ** gxEncrypt (fetchMendozaCaminera, lines 800-808) *)

Definition hex_digit (c : ascii) : option N :=
  if is_digit c then Some (code c - 48)%N
  else if in_range 97 102 c then Some (code c - 87)%N
  else if in_range 65 70 c then Some (code c - 55)%N
  else None.

(** [Buffer.from(hexKey, 'hex')]: pairs of hexadecimal digits, up to the first
    pair that is not one. *)
Fixpoint from_hex (s : string) : list N :=
  match s with
  | String a (String b r) =>
      match hex_digit a, hex_digit b with
      | Some h, Some l => (16 * h + l)%N :: from_hex r
      | _, _ => []
      end
  | _ => []
  end.

Definition hex_char (n : N) : ascii :=
  if (n <? 10)%N then chr (48 + n) else chr (87 + n).

(** [buffer.toString('hex')] *)
Fixpoint to_hex (l : list N) : string :=
  match l with
  | [] => ""
  | b :: l' => String (hex_char (b / 16)) (String (hex_char (b mod 16)) (to_hex l'))
  end.

(** [Buffer.from(plaintext, 'ascii')]: one byte for each code unit, its low
    eight bits. *)
Definition ascii_bytes (plaintext : string) : list N :=
  map (fun u => N.land u 255) (code_units plaintext).

(** [Math.ceil(n / 16) * 16] *)
Definition ceil16 (n : nat) : nat := ((n + 15) / 16 * 16)%nat.

(** [Buffer.alloc(n, 0)] *)
Definition alloc (n : nat) : list N := repeat 0%N n.

(** [src.copy(dst)]: the bytes of [src] that fit are written at the start of
    [dst]. *)
Definition copy (src dst : list N) : list N :=
  (firstn (List.length dst) src ++ skipn (List.length src) dst)%list.

(** The 16-byte blocks of a buffer, in order. *)
Fixpoint blocks (fuel : nat) (l : list N) : list (list N) :=
  match fuel, l with
  | S f, _ :: _ => firstn 16 l :: blocks f (skipn 16 l)
  | _, _ => []
  end.

Definition padded_of (plaintext : string) : list N :=
  let bytes := ascii_bytes plaintext in
  copy bytes (alloc (ceil16 (List.length bytes))).

(** [aes] is the AES-128 block function of the crypto library: a key and a
    block of 16 bytes to a block.  In ECB mode with no automatic padding the
    cipher text is the blocks of the input, each through [aes key]; a key
    that is not 16 bytes long is refused when the cipher is created. *)
Definition ecb (aes : list N -> list N -> list N) (key data : list N) : list N :=
  flat_map (aes key) (blocks (List.length data) data).

Definition gxEncrypt (aes : list N -> list N -> list N) (plaintext hexKey : string)
    : result string :=
  let key := from_hex hexKey in
  let padded := padded_of plaintext in
  if (List.length key =? 16)%nat
  then Ok (to_hex (ecb aes key padded))
  else Throw (Exn RangeError "Invalid key length").

(** ** The route GET /multas (lines 1022-1057) *)

Inductive adapter :=
| FetchANSV | FetchPBA | FetchCABA | FetchSantaFe | FetchPosadas | FetchCorrientes
| FetchEntreRios | FetchMisiones | FetchChaco | FetchRosario | FetchNeuquen
| FetchSantaRosa | FetchMendoza | FetchCordoba | FetchMendozaCaminera | FetchSalta.

(** The [switch (fuente)] of the route. *)
Definition select (fuente : string) : adapter :=
  if (fuente =? "pba")%string then FetchPBA
  else if (fuente =? "caba")%string then FetchCABA
  else if (fuente =? "santafe")%string then FetchSantaFe
  else if (fuente =? "posadas")%string then FetchPosadas
  else if (fuente =? "corrientes")%string then FetchCorrientes
  else if (fuente =? "entrerios")%string then FetchEntreRios
  else if (fuente =? "misiones")%string then FetchMisiones
  else if (fuente =? "chaco")%string then FetchChaco
  else if (fuente =? "rosario")%string then FetchRosario
  else if (fuente =? "neuquen")%string then FetchNeuquen
  else if (fuente =? "santarosa")%string then FetchSantaRosa
  else if (fuente =? "mendoza")%string then FetchMendoza
  else if (fuente =? "cordoba")%string then FetchCordoba
  else if (fuente =? "mendozacaminera")%string then FetchMendozaCaminera
  else if (fuente =? "salta")%string then FetchSalta
  else FetchANSV.

(** The identifiers the switch names. *)
Definition fuentes : list string :=
  [ "pba"; "caba"; "santafe"; "posadas"; "corrientes"; "entrerios"; "misiones"; "chaco";
    "rosario"; "neuquen"; "santarosa"; "mendoza"; "cordoba"; "mendozacaminera"; "salta";
    "ansv" ].


(** [const { fuente = 'ansv' } = req.query]: the default stands for
    [undefined] only. *)
Definition fuente_or_default (fuente : value) : value :=
  match fuente with
  | VUndefined => VStr "ansv"
  | f => f
  end.

(** [switch (fuente)] on a parameter: the cases are compared with [===], so
    a parameter that is not a string takes the default. *)
Definition switch (fuente : value) : adapter :=
  match fuente with
  | VStr f => select f
  | _ => FetchANSV
  end.

(** What the route answers: [res.status(s).json(body)]. *)
Inductive body :=
| ErrorBody (error : string)
| Infracciones (dominio : string) (fuente : value) (infracciones : list infraccion).

Record reply := Reply { code : Z; json : body }.

(** [dominio.replace(/\s/g, '').toUpperCase()] *)
Definition clean_of (dominio : string) : string := toUpperCase (strip_ws dominio).

(** [res.status(502).json({ error: `Error al consultar ${fuente}: ${err.message}` })] *)
Definition envelope (fuente : string) (err : exn) : reply :=
  Reply 502 (ErrorBody ("Error al consultar " ++ fuente ++ ": " ++ message err)).

(** The [try] and its [catch]: the selected adapter is awaited, and what it
    throws becomes the 502 reply.  The message of the reply is a template
    with [fuente] in it, which converts the parameter to a string. *)
Definition dispatch (run : adapter -> string -> M (list infraccion))
    (fuente : value) (clean : string) : M reply :=
  fun net log =>
    match run (switch fuente) clean net log with
    | (Ok infracciones, log') => (Ok (Reply 200 (Infracciones clean fuente infracciones)), log')
    | (Throw err, log') => (f <- ToString fuente ;; Ok (envelope f err), log')
    end.

(** The handler, on the query parameters [dominio] and [fuente].  A
    [dominio] that is not falsy is cleaned with [dominio.replace], before the
    [try]: only a string has the method, so on any other value the call
    throws, and the handler with it. *)
Definition multas (run : adapter -> string -> M (list infraccion))
    (dominio fuente : value) : M reply :=
  let fuente := fuente_or_default fuente in
  if negb (truthy dominio)
  then ret (Reply 400 (ErrorBody "Falta el parámetro dominio"))
  else
    match dominio with
    | VStr d =>
        let clean := clean_of d in
        if negb (formato_antiguo clean) && negb (formato_mercosur clean)
        then ret (Reply 400 (ErrorBody "Dominio inválido. Usar ABC123 o AB123CD"))
        else dispatch run fuente clean
    | _ => throw (not_a_function "dominio.replace")
    end.

(** The adapters of the file: fetchANSV as modelled above, the others as
    given. *)
Definition adapters (others : adapter -> string -> M (list infraccion))
    (a : adapter) : string -> M (list infraccion) :=
  match a with
  | FetchANSV => fetchANSV
  | _ => others a
  end.

End Backend.

(* ================================================================== *)
(** * Part III. server.js                                              *)
(* ================================================================== *)

Module Server.
Import JS.
Import Backend.

(** The record literals of fetchANSV (lines 66-74 and 82-90), fetchPBA
    (lines 114-122) and fetchSantaFe (lines 182-190) are made of the same
    expressions as those of backend-server.js. *)
Definition ansv_row : list string -> infraccion := Backend.ansv_row.

Definition ansv_item : value -> result infraccion := Backend.ansv_item.

Definition pba_item : value -> result infraccion := Backend.pba_item.

Definition santafe_row : list string -> infraccion := Backend.santafe_row.

(** fetchCABA, a table row (lines 155-163). *)
Definition caba_row (cols : list string) : infraccion :=
  {| acta := col_or_null cols 0;
     fecha := col_or_null cols 1;
     descripcion := col_or_null cols 2;
     lugar := col_or_null cols 3;
     importe := importe_punto (col cols 4);
     estado := "pendiente";
     jurisdiccion := VStr "CABA" |}.

Definition requiere_recaptcha : exn :=
  Exn Error "El portal ANSV/SINAI requiere reCAPTCHA; no se puede consultar automáticamente desde este backend. Probá con fuente=pba/caba/santafe.".

(** Line 78 reads [res.data], and neither fetchANSV nor the module declares a
    [res]: evaluating the name throws. *)
Definition res : result response := Throw (Exn ReferenceError "res is not defined").

(** The body of the [try] of lines 79-91, had [res] a value. *)
Definition ansv_json_attempt (res : response) (infracciones : list infraccion)
    : result unit * list infraccion :=
  Backend.ansv_json_attempt res infracciones.

(** fetchANSV (lines 44-95).  The identifier is not looked at; the home page
    is requested first, and the rows are read in it. *)
Definition fetchANSV (load : value -> result element) (dominio : string)
    : M (list infraccion) :=
  home <-- send (GET (BASE ++ "/")) ;;
  html <-- lift (ToString (data home)) ;;
  if includes "g-recaptcha" html || includes "recaptcha" (toLowerCase html)
  then throw requiere_recaptcha
  else
    page <-- lift (load_data load home) ;;
    let infracciones :=
      map ansv_row (filter (at_least 3)
        (rows_of page "table.table-infracciones tbody tr, table tbody tr")) in
    if (List.length infracciones =? 0)%nat
    then
      r <-- lift res ;;
      t <-- lift (ToString (data r)) ;;
      if includes "{" t
      then ret (snd (ansv_json_attempt r infracciones))
      else ret infracciones
    else ret infracciones.

Inductive adapter := FetchANSV | FetchPBA | FetchCABA | FetchSantaFe.

(** The [switch (fuente)] of the route (lines 208-214). *)
Definition select (fuente : string) : adapter :=
  if (fuente =? "pba")%string then FetchPBA
  else if (fuente =? "caba")%string then FetchCABA
  else if (fuente =? "santafe")%string then FetchSantaFe
  else FetchANSV.

Definition fuentes : list string := [ "pba"; "caba"; "santafe"; "ansv" ].

(** [switch (fuente)] on a parameter: one that is not a string takes the
    default. *)
Definition switch (fuente : value) : adapter :=
  match fuente with
  | VStr f => select f
  | _ => FetchANSV
  end.

(** The [try] and its [catch] (lines 206-219). *)
Definition dispatch (run : adapter -> string -> M (list infraccion))
    (fuente : value) (clean : string) : M reply :=
  fun net log =>
    match run (switch fuente) clean net log with
    | (Ok infracciones, log') => (Ok (Reply 200 (Infracciones clean fuente infracciones)), log')
    | (Throw err, log') => (f <- ToString fuente ;; Ok (envelope f err), log')
    end.

(** The handler (lines 197-220), on the query parameters as express gives
    them; [dominio.replace] is called before the [try]. *)
Definition multas (run : adapter -> string -> M (list infraccion))
    (dominio fuente : value) : M reply :=
  let fuente := fuente_or_default fuente in
  if negb (truthy dominio)
  then ret (Reply 400 (ErrorBody "Falta el parámetro dominio"))
  else
    match dominio with
    | VStr d =>
        let clean := clean_of d in
        if negb (formato_antiguo clean) && negb (formato_mercosur clean)
        then ret (Reply 400 (ErrorBody "Dominio inválido. Usar ABC123 o AB123CD"))
        else dispatch run fuente clean
    | _ => throw (not_a_function "dominio.replace")
    end.

Definition adapters (load : value -> result element)
    (others : adapter -> string -> M (list infraccion))
    (a : adapter) : string -> M (list infraccion) :=
  match a with
  | FetchANSV => fetchANSV load
  | _ => others a
  end.

End Server.

(* ================================================================== *)
(** * Part III-b. The reading stage of the other adapters              *)
(* ================================================================== *)

Module Adapters.
Import JS.
Import Backend.

(** [a && b] *)
Definition and (a b : value) : value := if truthy a then b else a.

(** [Array.isArray(v)] *)
Definition isArray (v : value) : bool :=
  match v with
  | VArr _ => true
  | _ => false
  end.

(** [v === 'literal'] *)
Definition is_string (t : string) (v : value) : bool :=
  match v with
  | VStr u => (u =? t)%string
  | _ => false
  end.

(** [list.map(f)] and [list.forEach(x => infracciones.push(f x))] with
    nothing after them: a value that is not an array has neither method, and
    an item that throws ends the adapter. *)
Definition map_items (method : string) (f : value -> result infraccion) (v : value)
    : result (list infraccion) :=
  match v with
  | VArr items => mapM f items
  | _ => Throw (not_a_function method)
  end.

(** The length in bytes of the character that starts with the byte [c]. *)
Definition width (c : ascii) : nat :=
  if in_range 192 223 c then 2%nat
  else if in_range 224 239 c then 3%nat
  else if in_range 240 247 c then 4%nat
  else 1%nat.

(** The characters of a string, one string each, as [for ... of] yields
    them. *)
Fixpoint chars_fuel (fuel : nat) (s : string) : list string :=
  match fuel, s with
  | S f, String c _ => substring 0 (width c) s :: chars_fuel f (drop (width c) s)
  | _, _ => []
  end.

Definition chars (s : string) : list string := chars_fuel (String.length s) s.

(** [for (const x of v)]: an array yields its items and a string its
    characters; no other JSON value is iterable. *)
Definition iterate (v : value) : result (list value) :=
  match v with
  | VArr items => Ok items
  | VStr s => Ok (map VStr (chars s))
  | _ => Throw (Exn TypeError "value is not iterable")
  end.

(** The lists of the steps of a loop, one after the other; the first step
    that throws ends the loop. *)
Fixpoint flatM {A B} (f : A -> result (list B)) (l : list A) : result (list B) :=
  match l with
  | [] => Ok []
  | a :: l' => bs <- f a ;; rest <- flatM f l' ;; Ok (bs ++ rest)%list
  end.

(** fetchPBA from the response on (lines 189-201). *)
Definition pba_error : exn :=
  Exn Error "El portal PBA devolvió un error (posiblemente captcha inválido).".

Definition pba_parse (res : response) : result (list infraccion) :=
  _ <- get (data res) "error" ;;
  if truthy (prop (data res) "error") then Throw pba_error
  else map_items "list.map" pba_item (prop (data res) "infracciones" ||| VArr []).

(** fetchSantaFe from the response on (lines 273-291). *)
Definition santafe_parse (load : value -> result element) (res : response)
    : result (list infraccion) :=
  page <- load_data load res ;;
  Ok (map santafe_row
        (filter (at_least 2)
           (skip_first (rows_of page "table.grilla tbody tr, table.listado tr")))).

(** fetchEntreRios from the response on (lines 420-432): the list of line
    421, for data that is neither [null] nor [undefined], and the adapter;
    reading [data.infracciones] throws on the two. *)
Definition entrerios_list (data : value) : value :=
  prop data "infracciones" ||| prop data "data" ||| prop data "items" ||| data ||| VArr [].

Definition entrerios_parse (res : response) : result (list infraccion) :=
  _ <- get (data res) "infracciones" ;;
  let list := entrerios_list (data res) in
  if negb (isArray list) then Ok []
  else map_items "list.map" entrerios_item list.

(** fetchMisiones from the response on (lines 463-475): the list of line
    464, and the adapter; [data.infracciones] is read, and throws on [null]
    and [undefined], only when [data.datos.infracciones] gave no list. *)
Definition misiones_datos (data : value) : value :=
  and (and data (prop data "datos")) (prop (prop data "datos") "infracciones").

Definition misiones_list (data : value) : value :=
  misiones_datos data ||| prop data "infracciones" ||| prop data "data"
  ||| prop data "items" ||| VArr [].

Definition misiones_parse (res : response) : result (list infraccion) :=
  _ <- (if truthy (misiones_datos (data res)) then Ok VUndefined
        else get (data res) "infracciones") ;;
  let list := misiones_list (data res) in
  if negb (isArray list) then Ok []
  else map_items "list.map" misiones_item list.

(** fetchChaco from the response on (lines 487-512). *)
Definition chaco_parse (res : response) : result (list infraccion) :=
  let data := data res ||| VObj [] in
  let fotomultas := prop data "fotomultas" ||| VArr [] in
  let caminera := prop data "caminera" ||| VArr [] in
  fs <- map_items "fotomultas.forEach" chaco_fotomulta fotomultas ;;
  cs <- map_items "caminera.forEach" chaco_caminera caminera ;;
  Ok (fs ++ cs)%list.

(** fetchNeuquen from the response on (lines 610-627). *)
Definition neuquen_mantenimiento : exn :=
  Exn Error "El portal de Neuquén está en mantenimiento. Intente más tarde.".

Definition neuquen_formato : exn :=
  Exn Error "Formato de dominio incorrecto para Neuquén.".

Definition sin_infracciones : string := "No se encontraron infracciones".

Definition neuquen_parse (res : response) : result (list infraccion) :=
  let body := data res ||| VObj [] in
  let data := prop body "data" in
  let error := prop body "error" in
  if status res =? 503 then Throw neuquen_mantenimiento
  else if (status res =? 404) || is_string sin_infracciones error then Ok []
  else if status res =? 422 then Throw neuquen_formato
  else if negb (truthy data) || negb (isArray data) then
    Throw (Exn Error
             (match error with
              | VStr e => e
              | _ => "Portal Neuquén no disponible (HTTP "
                     ++ string_of_nat_dec (status res) ++ ")."
              end))
  else map_items "data.map" neuquen_item data.

(** fetchSalta from the response on (lines 969-985).  The phrase is the
    regular expression no pos, one or two of e and e with an acute accent,
    a space and multas, in any letter case. *)
Definition no_posee_multas (t : string) : bool :=
  existsb (fun mid => includes ("no pos" ++ mid ++ " multas") (toLowerCase t))
    [ "e"; "é"; "ee"; "eé"; "ée"; "éé" ].

Definition salta_parse (toISOString : value -> result string) (res : response)
    : result (list infraccion) :=
  if status res =? 404 then Ok []
  else
    frase <- (if truthy (data res)
              then m <- ToString (prop (data res) "message" ||| VStr "") ;;
                   Ok (no_posee_multas m)
              else Ok false) ;;
    if frase then Ok []
    else if status res =? 400 then
      m <- ToString (prop (data res) "message" ||| VStr "Dominio inválido.") ;;
      Throw (Exn Error ("Salta: " ++ m))
    else
      let list := prop (data res) "multas" ||| VArr [] in
      if negb (isArray list) then Ok []
      else map_items "list.map" (salta_item toISOString) list.

(** fetchCordoba from the response on (lines 994-1018). *)
Definition cordoba_error : exn :=
  Exn Error "El portal de Córdoba devolvió un error inesperado.".

Definition cordoba_objeto (titular : string) (objeto : value) : result (list infraccion) :=
  _ <- get objeto "obligaciones" ;;
  obligaciones <- iterate (prop objeto "obligaciones" ||| VArr []) ;;
  mapM (cordoba_obligacion titular objeto) obligaciones.

Definition cordoba_contribuyente (contribuyente : value) : result (list infraccion) :=
  titular <- cordoba_titular contribuyente ;;
  objetos <- iterate (prop contribuyente "objetos" ||| VArr []) ;;
  flatM (cordoba_objeto titular) objetos.

Definition cordoba_parse (res : response) : result (list infraccion) :=
  let body := data res in
  let success :=
    if nullish (prop body "status") then VUndefined
    else prop (prop body "status") "success" in
  if negb (truthy body) || negb (is_string "TRUE" success) then Throw cordoba_error
  else if negb (truthy (prop body "data")) then Ok []
  else
    contribuyentes <- iterate (prop (prop body "data") "contribuyentes" ||| VArr []) ;;
    flatM cordoba_contribuyente contribuyentes.

(** fetchMendoza, the plate as the portal wants it (lines 698-721): the
    names and the values of the items written into the session, and the
    fields of the form. *)
Definition itemNames (dominio : string) : string :=
  if formato_mercosur dominio
  then "P4000_MZA_PRIMER_LETRA,P4000_MZA_NUM_INTER,P4000_MZA_ULT_LETRA"
  else "P4000_MZA_LETRAS,P4000_MZA_NUMEROS".

Definition itemValues (dominio : string) : string :=
  if formato_mercosur dominio
  then slice 0 2 dominio ++ "," ++ slice 2 5 dominio ++ "," ++ slice 5 7 dominio
  else slice 0 3 dominio ++ "," ++ slice 3 6 dominio.

Definition plateFields (dominio : string) : list (string * string) :=
  if formato_mercosur dominio
  then [ ("P4000_MZA_LETRAS", ""); ("P4000_MZA_NUMEROS", "");
         ("P4000_MZA_PRIMER_LETRA", slice 0 2 dominio);
         ("P4000_MZA_NUM_INTER", slice 2 5 dominio);
         ("P4000_MZA_ULT_LETRA", slice 5 7 dominio) ]
  else [ ("P4000_MZA_LETRAS", slice 0 3 dominio);
         ("P4000_MZA_NUMEROS", slice 3 6 dominio);
         ("P4000_MZA_PRIMER_LETRA", ""); ("P4000_MZA_NUM_INTER", "");
         ("P4000_MZA_ULT_LETRA", "") ].

(** The value of a field of a form. *)
Fixpoint field (k : string) (form : list (string * string)) : string :=
  match form with
  | [] => ""
  | (k', v) :: rest => if (k' =? k)%string then v else field k rest
  end.

(** server.js, fetchPBA from the response on (lines 111-122). *)
Definition server_pba_parse (res : response) : result (list infraccion) :=
  list <- (if isArray (data res) then Ok (data res)
           else
             _ <- get (data res) "infracciones" ;;
             Ok (prop (data res) "infracciones" ||| prop (data res) "data"
                 ||| prop (data res) "causas" ||| VArr [])) ;;
  map_items "list.map" Server.pba_item list.

(** server.js, fetchCABA from the response on (lines 148-166). *)
Definition server_caba_parse (load : value -> result element) (res : response)
    : result (list infraccion) :=
  page <- load_data load res ;;
  Ok (map Server.caba_row (filter (at_least 2) (skip_first (rows_of page "table tr")))).

(** server.js, fetchSantaFe from the response on (lines 175-193). *)
Definition server_santafe_parse (load : value -> result element) (res : response)
    : result (list infraccion) :=
  page <- load_data load res ;;
  Ok (map Server.santafe_row
        (filter (at_least 2)
           (skip_first (rows_of page "table.grilla tbody tr, table.listado tr")))).

End Adapters.

(* ================================================================== *)
(** * Part IV. The records the adapters produce                        *)
(* ================================================================== *)

Module Records.
Import JS.
Import Backend.

(** The places of the two files where a record is built. *)
Inductive site :=
| ANSV_row | ANSV_item | PBA_item | CABA_card | SantaFe_row | Posadas_row
| Corrientes_row | EntreRios_item | Misiones_item | Chaco_fotomulta | Chaco_caminera
| Rosario_row | Neuquen_item | SantaRosa_row | Mendoza_row
| Caminera_sdt | Caminera_objeto | Caminera_hidden | Salta_item | Cordoba_obligacion
| Server_ANSV_row | Server_ANSV_item | Server_PBA_item | Server_CABA_row | Server_SantaFe_row.

(** [Produced s r]: the record literal at [s] evaluates to [r] on some
    upstream item that passes the guards in front of the literal. *)
Inductive Produced : site -> infraccion -> Prop :=
| P_ansv_row cols :
    at_least 3 cols = true -> Produced ANSV_row (ansv_row cols)
| P_ansv_item i r :
    ansv_item i = Ok r -> Produced ANSV_item r
| P_pba_item i r :
    pba_item i = Ok r -> Produced PBA_item r
| P_caba_card card :
    Produced CABA_card (caba_card card)
| P_santafe_row cols :
    at_least 2 cols = true -> Produced SantaFe_row (santafe_row cols)
| P_posadas_row bodyText cols :
    at_least 2 cols = true -> Produced Posadas_row (posadas_row bodyText cols)
| P_corrientes_row cols :
    at_least 2 cols = true -> Produced Corrientes_row (corrientes_row cols)
| P_entrerios_item i r :
    entrerios_item i = Ok r -> Produced EntreRios_item r
| P_misiones_item i r :
    misiones_item i = Ok r -> Produced Misiones_item r
| P_chaco_fotomulta i r :
    chaco_fotomulta i = Ok r -> Produced Chaco_fotomulta r
| P_chaco_caminera i r :
    chaco_caminera i = Ok r -> Produced Chaco_caminera r
| P_rosario_row cols :
    at_least 2 cols = true -> Produced Rosario_row (rosario_row cols)
| P_neuquen_item i r :
    neuquen_item i = Ok r -> Produced Neuquen_item r
| P_santarosa_row cols :
    at_least 2 cols = true -> Produced SantaRosa_row (santarosa_row cols)
| P_mendoza_row cols :
    at_least 10 cols = true -> col cols 1 <> "" -> Produced Mendoza_row (mendoza_row cols)
| P_caminera_sdt titular item r :
    caminera_sdt titular item = Ok r -> Produced Caminera_sdt r
| P_caminera_objeto titular item r :
    caminera_objeto titular item = Ok r -> Produced Caminera_objeto r
| P_caminera_hidden item r :
    caminera_hidden item = Ok r -> Produced Caminera_hidden r
| P_salta_item toISOString i r :
    salta_item toISOString i = Ok r -> Produced Salta_item r
| P_cordoba_obligacion titular objeto ob r :
    cordoba_obligacion titular objeto ob = Ok r -> Produced Cordoba_obligacion r
| P_server_ansv_row cols :
    at_least 3 cols = true -> Produced Server_ANSV_row (Server.ansv_row cols)
| P_server_ansv_item i r :
    Server.ansv_item i = Ok r -> Produced Server_ANSV_item r
| P_server_pba_item i r :
    Server.pba_item i = Ok r -> Produced Server_PBA_item r
| P_server_caba_row cols :
    at_least 2 cols = true -> Produced Server_CABA_row (Server.caba_row cols)
| P_server_santafe_row cols :
    at_least 2 cols = true -> Produced Server_SantaFe_row (Server.santafe_row cols).

(** A field holds [null] or a value that is not falsy: never the empty
    string, [undefined], 0 or [false]. *)
Definition null_or_truthy (v : value) : Prop := v = VNull \/ truthy v = true.

(** [importe] is [null] or a number that is neither zero nor NaN. *)
Definition null_or_nonzero (o : option number) : Prop :=
  o = None \/ exists x, o = Some x /\ number_truthy x = true.

(** The two values of the enum. *)
Definition pagada_o_pendiente (s : string) : Prop := s = "pagada" \/ s = "pendiente".

(** A character other than the comma: a text made of such has no comma for
    the second policy to replace. *)
Definition sin_coma (c : ascii) : bool := negb (is_char 44 c).

(** The number a run of decimal digits denotes, continuing from [acc]. *)
Fixpoint digits_value (d : string) (acc : Z) : Z :=
  match d with
  | String c r => digits_value r (10 * acc + digit_value c)
  | EmptyString => acc
  end.

(** A text that does not go on with a digit. *)
Definition no_digit_ahead (t : string) : Prop :=
  match t with
  | String c _ => is_digit c = false
  | EmptyString => True
  end.

(** A dot or a comma: what the filters leave of a text with no digit. *)
Definition dot_or_comma (c : ascii) : bool := is_char 46 c || is_char 44 c.

End Records.

(* ================================================================== *)
(** * Part V. Pages and responses used as examples                     *)
(* ================================================================== *)

Module Fixtures.
Import JS.
Import Backend.

(** An element with text and nothing below it. *)
Definition leaf (t : string) : element := Element t None (fun _ => []).

(** A table row with the given cells. *)
Definition tr (tds : list string) : element :=
  Element (String.concat "" tds) None
    (fun sel => if (sel =? "td")%string then map leaf tds else []).

(** A hidden input with a value. *)
Definition input (v : string) : element := Element "" (Some v) (fun _ => []).

(** A page: the text of its body, and what each selector finds in it. *)
Definition page (bodyText : string) (found : list (string * list element)) : element :=
  Element bodyText None
    (fun sel =>
       if (sel =? "body")%string then [leaf bodyText]
       else
         (fix assoc (l : list (string * list element)) : list element :=
            match l with
            | [] => []
            | (k, v) :: l' => if (k =? sel)%string then v else assoc l'
            end) found).

Definition html_response (html : string) (d : element) : response :=
  Response 200 (VStr html) d None.

Definition q (t : string) : string := dquote ++ t ++ dquote.

(** The home page of the ANSV portal, reduced to what fetchANSV reads in it. *)
Definition ansv_home_html : string :=
  "<form><input name=" ++ q "__VIEWSTATE" ++ " value=" ++ q "vs1" ++ ">"
  ++ "<div class=" ++ q "g-recaptcha" ++ " data-sitekey=" ++ q "6Lc-site" ++ "></div></form>".

Definition ansv_home : response :=
  html_response ansv_home_html
    (page "" [ (input_named "__VIEWSTATE", [input "vs1"]) ]).

Definition token : response := Response 200 (VStr "03AGdBq2") (leaf "") None.

(** A body that is JSON, with one item whose status is neither paid nor
    pending. *)
Definition cuerpo_json : string :=
  "{" ++ q "infracciones" ++ ":[{" ++ q "nroActa" ++ ":" ++ q "A-1" ++ ","
  ++ q "estado" ++ ":" ++ q "ANULADA" ++ "}]}".

Definition respuesta_json : response :=
  Response 200 (VStr cuerpo_json) (page cuerpo_json [])
    (Some (VObj [ ("infracciones",
                   VArr [ VObj [ ("nroActa", VStr "A-1"); ("estado", VStr "ANULADA") ] ]) ])).

(** The portal answering the three requests of fetchANSV in turn. *)
Definition portal_json : network :=
  fun _ r =>
    match r with
    | GET _ => Ok ansv_home
    | Recaptcha _ _ => Ok token
    | POST _ _ => Ok respuesta_json
    end.

(** A network on which every request fails. *)
Definition sin_red : network :=
  fun _ _ => Throw (Exn Error "timeout of 15000ms exceeded").




(** A page of the ANSV portal with no reCAPTCHA and no table; its style sheet
    holds a brace. *)
Definition home_sin_tabla : response :=
  html_response
    "<html><head><style>body{margin:0}</style></head><body><h1>Sitio en mantenimiento</h1></body></html>"
    (page "Sitio en mantenimiento" []).

Definition portal_sin_tabla : network := fun _ _ => Ok home_sin_tabla.

(** An item of the Salta service with an amount and no number. *)
Definition salta_sin_acta : value := VObj [ ("importe", VNum (dec 1500 0)) ].

(** A row whose amount is written with a dot for the thousands and a comma
    for the decimals. *)
Definition fila_miles : list string :=
  [ "A-1"; "01/02/2024"; "Semaforo"; "Av. Mitre"; "$1.234,56"; "Pendiente" ].

(** A row of the ANSV table whose amount is zero. *)
Definition fila_importe_cero : list string :=
  [ "A-1"; "01/02/2024"; "Semaforo"; ""; "$ 0,00" ].

(** Adapters that all fail with the same message. *)
Definition todos_fallan {A : Type} (msg : string) : A -> string -> M (list infraccion) :=
  fun _ _ => throw (Exn Error msg).

(** A cheerio that makes a page of no object: it throws on every one. *)
Definition no_es_pagina (v : value) : result element :=
  Throw (Exn TypeError "Cannot read properties of undefined (reading 'length')").



(** A home page of the ANSV portal that does not name the reCAPTCHA and lists
    one infraction. *)
Definition home_con_fila : response :=
  html_response
    "<table><tbody><tr><td>N-9</td><td>01/02/2024</td><td>Semaforo</td></tr></tbody></table>"
    (page "N-901/02/2024Semaforo"
       [ ("table.table-infracciones tbody tr, table tbody tr",
          [ tr [ "N-9"; "01/02/2024"; "Semaforo" ] ]) ]).

Definition portal_con_fila : network := fun _ _ => Ok home_con_fila.

(** Adapters of backend-server.js and of server.js of which only fetchANSV
    answers, with a record that carries the plate it was given; the others
    fail. *)
Definition solo_ansv (a : adapter) (clean : string) : M (list infraccion) :=
  match a with
  | FetchANSV => ret [ ansv_row [ clean; ""; "" ] ]
  | _ => throw (Exn Error "otro adaptador")
  end.

Definition solo_ansv_server (a : Server.adapter) (clean : string) : M (list infraccion) :=
  match a with
  | Server.FetchANSV => ret [ ansv_row [ clean; ""; "" ] ]
  | _ => throw (Exn Error "otro adaptador")
  end.

(** A block function that leaves the block as it is: it stands for AES where
    only the lengths matter. *)
Definition identidad (key block : list N) : list N := block.

End Fixtures.

(* ================================================================== *)
(** * Part V-b. More examples, and the predicates of Part VII          *)
(* ================================================================== *)

Module Samples.
Import JS.
Import Backend.
Import Adapters.
Import Fixtures.

(** A response whose body is the JSON value [v]. *)
Definition json_response (s : Z) (v : value) : response := Response s v (leaf "") (Some v).

(** An item with a number and an amount, and one with a status that says it
    was paid. *)
Definition multa_1 : value :=
  VObj [ ("nroActa", VStr "A-1"); ("importe", VNum (dec 1500 0)) ].

Definition multa_2 : value :=
  VObj [ ("nroActa", VStr "A-2"); ("estado", VStr "PAGADA") ].

(** The answer of the Salta service for a vehicle without fines, under the
    status 400. *)
Definition salta_sin_multas : response :=
  json_response 400 (VObj [ ("message", VStr "El dominio NO POSÉE multas pendientes") ]).

(** A date conversion that answers the same day for every date. *)
Definition un_dia (v : value) : result string := Ok "2024-02-01T00:00:00.000Z".

(** The answer of the Córdoba service: one taxpayer, one vehicle, two
    obligations. *)
Definition cordoba_dos : value :=
  VObj [ ("status", VObj [ ("success", VStr "TRUE") ]);
         ("data",
          VObj [ ("contribuyentes",
                  VArr [ VObj [ ("nombre", VStr "ANA"); ("apellido", VStr "PAZ");
                                ("objetos",
                                 VArr [ VObj [ ("referencia1", VStr "AB123CD");
                                               ("obligaciones",
                                                VArr [ VObj [ ("saldoTotal", VNum (dec 1500 0)) ];
                                                       VObj [ ("estado", VStr "Pagado") ] ]) ] ]) ] ]) ]) ].

(** A character of a plate as the route accepts it: [A-Z] or a digit. *)
Definition plate_char (c : ascii) : bool := is_upper c || is_digit c.

(** The lower case of a character of a plate. *)
Definition lower (c : ascii) : ascii := if is_upper c then chr (JS.code c + 32) else c.

(** Adapters that answer with the identifier they were given, as the number
    of one record. *)
Definition eco {A : Type} : A -> string -> M (list infraccion) :=
  fun _ clean => ret [ ansv_row [ clean; ""; "" ] ].

(** A byte. *)
Definition byte (b : N) : Prop := (b < 256)%N.

(** A hexadecimal digit, of either case. *)
Definition is_hex (c : ascii) : bool := is_digit c || in_range 97 102 c || in_range 65 70 c.

(** A key of thirty-two hexadecimal digits. *)
Definition clave : string := "000102030405060708090A0B0C0D0E0F".

(** A block function that adds the key to the block, byte by byte: it stands
    for AES where only the shape of the cipher text matters. *)
Definition suma (key block : list N) : list N :=
  map (fun p => ((fst p + snd p) mod 256)%N) (combine key block).

(** A body that is JSON: a list of three items, the second of which is
    [null]. *)
Definition lista_con_null : value :=
  VObj [ ("infracciones", VArr [ multa_1; VNull; multa_2 ]) ].

Definition cuerpo_con_null : string :=
  "{" ++ q "infracciones" ++ ":[{" ++ q "nroActa" ++ ":" ++ q "A-1" ++ ","
  ++ q "importe" ++ ":1500},null,{" ++ q "nroActa" ++ ":" ++ q "A-2" ++ ","
  ++ q "estado" ++ ":" ++ q "PAGADA" ++ "}]}".

Definition respuesta_con_null : response :=
  Response 200 (VStr cuerpo_con_null) (page cuerpo_con_null []) (Some lista_con_null).

(** A number below zero. *)
Definition negative (x : number) : bool :=
  match x with
  | NaN => false
  | Inf neg => neg
  | Fin neg _ _ => neg
  end.

End Samples.

(* ================================================================== *)
(** * Part VI. Properties                                              *)
(* ================================================================== *)

Module Facts.
Import JS.
Import Backend.
Import Records.
Import Fixtures.

(** ** Fallible computations *)

Lemma bind_Ok {A B} (r : result A) (k : A -> result B) (b : B) :
  bind r k = Ok b -> exists a, r = Ok a /\ k a = Ok b.
Proof.
  destruct r as [a | e]; simpl; intros H.
  - exists a. split; [reflexivity | exact H].
  - discriminate H.
Qed.

Lemma Ok_inj {A} (a b : A) : Ok a = Ok b -> a = b.
Proof. intros H. injection H as H. exact H. Qed.

(** Takes a hypothesis [e = Ok r], where [e] is a chain of binds that ends in
    [Ok _], apart: every step returned. *)
Ltac returned H :=
  repeat match type of H with
         | bind _ _ = Ok _ =>
             let a := fresh "a" in
             let Ha := fresh "Ha" in
             apply bind_Ok in H; destruct H as (a & Ha & H)
         end;
  apply Ok_inj in H.

(** ** What the string functions compute *)

Lemma prefix_app (a b : string) : prefix a (a ++ b) = true.
Proof.
  induction a as [| c a IH]; simpl; [destruct b; reflexivity | ].
  destruct (ascii_dec c c) as [_ | N]; [exact IH | contradiction].
Qed.

Lemma prefix_split (a t : string) : prefix a t = true -> exists b, t = a ++ b.
Proof.
  revert t. induction a as [| c a IH]; intros t H.
  - exists t. reflexivity.
  - destruct t as [| d t]; [discriminate H | ]. simpl in H.
    destruct (ascii_dec c d) as [<- | _]; [ | discriminate H].
    destruct (IH t H) as (b & ->). exists b. reflexivity.
Qed.

(** [includes sub t] says that [sub] occurs in [t]. *)
Lemma includes_spec (sub t : string) :
  includes sub t = true <-> exists pre post, t = pre ++ sub ++ post.
Proof.
  split.
  - induction t as [| c t IH]; intros H.
    + unfold includes in H. rewrite orb_false_r in H.
      destruct (prefix_split _ _ H) as (b & E). exists "", b. exact E.
    + cbn [includes] in H. apply orb_prop in H. destruct H as [H | H].
      * destruct (prefix_split _ _ H) as (b & E). exists "", b. exact E.
      * destruct (IH H) as (pre & post & ->). exists (String c pre), post. reflexivity.
  - intros (pre & post & ->). induction pre as [| c pre IH].
    + change ("" ++ sub ++ post) with (sub ++ post).
      destruct (sub ++ post) eqn:E.
      * destruct sub; [reflexivity | discriminate E].
      * cbn [includes]. rewrite <- E. rewrite prefix_app. reflexivity.
    + change (String c pre ++ sub ++ post) with (String c (pre ++ sub ++ post)).
      cbn [includes]. rewrite IH. apply orb_true_r.
Qed.

Lemma length_append (a b : string) :
  String.length (a ++ b) = (String.length a + String.length b)%nat.
Proof.
  induction a as [| c a IH]; simpl; [reflexivity | rewrite IH; reflexivity].
Qed.

Lemma prefix_length (a t : string) :
  prefix a t = true -> (String.length a <= String.length t)%nat.
Proof.
  intros H. destruct (prefix_split _ _ H) as (b & ->).
  rewrite length_append. lia.
Qed.

Lemma ws_head_bound (t : string) : (ws_head t <= String.length t)%nat.
Proof.
  destruct t as [| a r]; [reflexivity | ].
  unfold ws_head.
  repeat match goal with
         | |- context [if prefix ?p r then _ else _] =>
             let E := fresh "E" in
             destruct (prefix p r) eqn:E;
             [apply prefix_length in E; simpl in E |-*; lia | ]
         | |- context [if ?x then _ else _] => destruct x
         | |- context [match r with _ => _ end] => destruct r as [| ? [| ? ?]]
         end;
    simpl; lia.
Qed.

Lemma drop_length (k : nat) (t : string) :
  String.length (drop k t) = (String.length t - k)%nat.
Proof.
  revert t. induction k as [| k IH]; intros t; simpl.
  - lia.
  - destruct t as [| c t]; simpl; [reflexivity | apply IH].
Qed.

(** The length of the string is fuel enough for [trimStart]: what it returns
    starts with no white space. *)
Lemma trimStart_fuel_done (fuel : nat) (t : string) :
  (String.length t <= fuel)%nat -> ws_head (trimStart_fuel fuel t) = 0%nat.
Proof.
  revert t. induction fuel as [| f IH]; intros t H.
  - destruct t; [reflexivity | simpl in H; lia].
  - cbn [trimStart_fuel]. destruct (ws_head t) as [| k] eqn:E; [exact E | ].
    apply IH. rewrite drop_length.
    pose proof (ws_head_bound t). simpl in H. lia.
Qed.

Lemma trimStart_done (t : string) : ws_head (trimStart t) = 0%nat.
Proof. apply trimStart_fuel_done. lia. Qed.

(** ** The amount is null or a number that is not zero *)

Lemma or_null_spec (x : number) : null_or_nonzero (or_null x).
Proof.
  unfold null_or_nonzero, or_null.
  destruct (number_truthy x) eqn:E.
  - right. exists x. split; [reflexivity | exact E].
  - left. reflexivity.
Qed.

Lemma or_null_zero (neg : bool) (e : Z) : or_null (Fin neg 0 e) = None.
Proof. reflexivity. Qed.

Lemma or_null_NaN : or_null NaN = None.
Proof. reflexivity. Qed.

Lemma importe_punto_spec (t : string) : null_or_nonzero (importe_punto t).
Proof. apply or_null_spec. Qed.

Lemma importe_coma_spec (t : string) : null_or_nonzero (importe_coma t).
Proof. apply or_null_spec. Qed.

Lemma importe_json_spec (v : value) (o : option number) :
  importe_json v = Ok o -> null_or_nonzero o.
Proof.
  unfold importe_json. intros H. returned H. subst o. apply or_null_spec.
Qed.

Create HintDb importe.

#[local] Hint Resolve importe_punto_spec importe_coma_spec or_null_spec : importe.

Lemma produced_importe (s : site) (r : infraccion) :
  Produced s r -> null_or_nonzero (importe r).
Proof.
  intros H.
  destruct H;
    try (cbn [importe ansv_row santafe_row posadas_row corrientes_row rosario_row
              santarosa_row mendoza_row caba_card Server.caba_row Server.ansv_row
              Server.santafe_row];
         auto with importe; fail);
    match goal with
    | H : _ = Ok ?r |- _ =>
        unfold Server.ansv_item, Server.pba_item, ansv_item, pba_item, entrerios_item,
          misiones_item, chaco_fotomulta, chaco_caminera, neuquen_item, caminera_sdt,
          caminera_objeto, caminera_hidden, salta_item, cordoba_obligacion in H;
        returned H; subst r; cbn [importe];
        eapply importe_json_spec; eassumption
    end.
Qed.

(** ** The status is one of the two values, the JSON fallback of fetchANSV apart *)

Lemma pagada_si_pag_enum (t : string) : pagada_o_pendiente (pagada_si_pag t).
Proof.
  unfold pagada_o_pendiente, pagada_si_pag.
  destruct (includes "pag" (toLowerCase t)); [left | right]; reflexivity.
Qed.

Lemma pagada_si_pag_iff (t : string) :
  pagada_si_pag t = "pagada" <-> includes "pag" (toLowerCase t) = true.
Proof.
  unfold pagada_si_pag.
  destruct (includes "pag" (toLowerCase t)); split; intros H;
    try reflexivity; discriminate H.
Qed.

Lemma estado_json_enum (v : value) (s : string) :
  estado_json v = Ok s -> pagada_o_pendiente s.
Proof.
  unfold estado_json. intros H. returned H. subst s.
  unfold pagada_o_pendiente.
  destruct (includes "pag" a); [left | right]; reflexivity.
Qed.

(** On a status that is a string, the value is decided by the letters pag. *)
Lemma estado_json_iff (t : string) :
  exists s, estado_json (VStr t) = Ok s
            /\ (s = "pagada" <-> includes "pag" (toLowerCase t) = true)
            /\ pagada_o_pendiente s.
Proof.
  exists (pagada_si_pag t). split; [reflexivity | split].
  - apply pagada_si_pag_iff.
  - apply pagada_si_pag_enum.
Qed.

Lemma pendiente_enum : pagada_o_pendiente "pendiente".
Proof. right. reflexivity. Qed.

Create HintDb estado.

#[local] Hint Resolve pagada_si_pag_enum pendiente_enum : estado.

Lemma produced_estado (s : site) (r : infraccion) :
  Produced s r -> s <> ANSV_item -> s <> Server_ANSV_item ->
  pagada_o_pendiente (estado r).
Proof.
  intros H N1 N2.
  destruct H; try congruence;
    try (cbn [estado ansv_row santafe_row posadas_row corrientes_row rosario_row
              santarosa_row mendoza_row caba_card Server.caba_row Server.ansv_row
              Server.santafe_row];
         auto with estado; fail);
    match goal with
    | H : _ = Ok ?r |- _ =>
        unfold Server.pba_item, pba_item, entrerios_item,
          misiones_item, chaco_fotomulta, chaco_caminera, neuquen_item, caminera_sdt,
          caminera_objeto, caminera_hidden, salta_item, cordoba_obligacion in H;
        returned H; subst r; cbn [estado];
        first [ apply pendiente_enum | eapply estado_json_enum; eassumption ]
    end.
Qed.

(** ** A field is null, never the empty string *)

Lemma null_or_truthy_null : null_or_truthy VNull.
Proof. left. reflexivity. Qed.

Lemma null_or_truthy_or (a b : value) : null_or_truthy b -> null_or_truthy (a ||| b).
Proof.
  unfold null_or_truthy, or. intros H.
  destruct (truthy a) eqn:E; [right; exact E | exact H].
Qed.

Lemma null_or_truthy_str (t : string) : null_or_truthy (str_or_null t).
Proof.
  unfold null_or_truthy, str_or_null.
  destruct (t =? "")%string eqn:E; [left; reflexivity | right].
  simpl. rewrite E. reflexivity.
Qed.

Lemma null_or_truthy_not_empty (v : value) : null_or_truthy v -> v <> VStr "".
Proof.
  intros [H | H] E; rewrite E in H; cbv in H; discriminate H.
Qed.

Lemma truthy_or (a b : value) : truthy b = true -> truthy (a ||| b) = true.
Proof.
  unfold or. intros H. destruct (truthy a) eqn:E; [exact E | exact H].
Qed.

Lemma or_else_not_empty (t fallback : string) :
  fallback <> "" -> or_else t fallback <> "".
Proof.
  unfold or_else. intros H.
  destruct (t =? "")%string eqn:E; [exact H | ].
  apply String.eqb_neq. exact E.
Qed.

Lemma truthy_VStr (t : string) : t <> "" -> truthy (VStr t) = true.
Proof.
  intros H. simpl. apply String.eqb_neq in H. rewrite H. reflexivity.
Qed.

Lemma con_titular_truthy (c : ascii) (label : string) (titular v : value) :
  con_titular (String c label) titular = Ok v -> truthy v = true.
Proof.
  unfold con_titular. intros H.
  destruct (truthy titular).
  - unfold concat in H. returned H. subst v. reflexivity.
  - apply Ok_inj in H. subst v. reflexivity.
Qed.

Lemma persona_or_titular_truthy (item titular v : value) :
  (if truthy (prop item "persona")
   then t <- concat " · " (prop item "persona") ;; Ok (VStr ("Mendoza Caminera" ++ t))
   else con_titular "Mendoza Caminera" titular) = Ok v ->
  truthy v = true.
Proof.
  destruct (truthy (prop item "persona")); intros H.
  - unfold concat in H. returned H. subst v. reflexivity.
  - eapply con_titular_truthy; eassumption.
Qed.

Lemma null_or_truthy_col (cols : list string) (k : nat) :
  null_or_truthy (col_or_null cols k).
Proof. apply null_or_truthy_str. Qed.

Lemma null_or_truthy_getText (card : element) (sel : string) :
  null_or_truthy (getText card sel).
Proof. apply null_or_truthy_str. Qed.

Create HintDb campos.

#[local] Hint Resolve null_or_truthy_null null_or_truthy_or null_or_truthy_str
  null_or_truthy_col null_or_truthy_getText truthy_or : campos.

(** [descripcion] and [lugar] at every place, [acta] and [fecha] at every
    place but the record of fetchSalta, hold null or a value that is not
    falsy; [jurisdiccion] is never falsy. *)
Lemma produced_campos (s : site) (r : infraccion) :
  Produced s r ->
  null_or_truthy (descripcion r) /\ null_or_truthy (lugar r)
  /\ truthy (jurisdiccion r) = true
  /\ (s <> Salta_item -> null_or_truthy (acta r) /\ null_or_truthy (fecha r)).
Proof.
  intros H.
  destruct H;
    try (cbn [acta fecha descripcion lugar jurisdiccion ansv_row santafe_row posadas_row
              corrientes_row rosario_row santarosa_row mendoza_row caba_card
              Server.caba_row Server.ansv_row Server.santafe_row];
         repeat split; intros; auto with campos;
         try (apply truthy_VStr, or_else_not_empty; discriminate); fail);
    match goal with
    | H : _ = Ok ?r |- _ =>
        unfold Server.ansv_item, Server.pba_item, ansv_item, pba_item, entrerios_item,
          misiones_item, chaco_fotomulta, chaco_caminera, neuquen_item, caminera_sdt,
          caminera_objeto, caminera_hidden, salta_item, cordoba_obligacion in H;
        returned H; subst r; cbn [acta fecha descripcion lugar jurisdiccion];
        repeat split; intros; auto with campos; try congruence;
        try (eapply con_titular_truthy; eassumption);
        try (eapply persona_or_titular_truthy; eassumption);
        try (destruct (_ =? _)%string; reflexivity)
    end.
Qed.

(** ** Characters and the two filters *)

Lemma is_char_eq (n : N) (c : ascii) : is_char n c = true -> c = chr n.
Proof.
  unfold is_char, code, chr. intros H.
  apply N.eqb_eq in H. rewrite <- H. symmetry. apply ascii_N_embedding.
Qed.

Lemma is_char_comma (c : ascii) : is_char 44 c = Ascii.eqb c ",".
Proof.
  destruct (is_char 44 c) eqn:E.
  - apply is_char_eq in E. subst c. reflexivity.
  - symmetry. apply Ascii.eqb_neq. intros F. subst c. discriminate E.
Qed.

Lemma filter_string_forallb (p : ascii -> bool) (t : string) :
  forallb_string p (filter_string p t) = true.
Proof.
  induction t as [| c r IH]; simpl; [reflexivity | ].
  destruct (p c) eqn:E; simpl; [rewrite E | ]; exact IH.
Qed.

Lemma filter_string_id (p : ascii -> bool) (t : string) :
  forallb_string p t = true -> filter_string p t = t.
Proof.
  induction t as [| c r IH]; simpl; [reflexivity | ].
  intros H. apply andb_prop in H. destruct H as [Hc Hr].
  rewrite Hc, (IH Hr). reflexivity.
Qed.

Lemma forallb_string_impl (p q : ascii -> bool) (t : string) :
  (forall c, p c = true -> q c = true) ->
  forallb_string p t = true -> forallb_string q t = true.
Proof.
  intros I. induction t as [| c r IH]; simpl; [reflexivity | ].
  intros H. apply andb_prop in H. destruct H as [Hc Hr].
  rewrite (I c Hc), (IH Hr). reflexivity.
Qed.

Lemma filters_agree_without_comma (t : string) :
  forallb_string sin_coma t = true ->
  filter_string digit_dot_or_comma t = filter_string digit_or_dot t.
Proof.
  induction t as [| c r IH]; simpl; [reflexivity | ].
  intros H. apply andb_prop in H. destruct H as [Hc Hr].
  unfold sin_coma in Hc. apply negb_true_iff in Hc.
  unfold digit_dot_or_comma, digit_or_dot in *. rewrite Hc, orb_false_r.
  rewrite (IH Hr). reflexivity.
Qed.

Lemma replace_first_without (from to : ascii) (t : string) :
  forallb_string (fun c => negb (Ascii.eqb c from)) t = true ->
  replace_first from to t = t.
Proof.
  induction t as [| c r IH]; simpl; [reflexivity | ].
  intros H. apply andb_prop in H. destruct H as [Hc Hr].
  apply negb_true_iff in Hc. rewrite Hc, (IH Hr). reflexivity.
Qed.

Lemma filter_keeps_sin_coma (t : string) :
  forallb_string sin_coma t = true ->
  forallb_string (fun c => negb (Ascii.eqb c ",")) (filter_string digit_or_dot t) = true.
Proof.
  induction t as [| c r IH]; simpl; [reflexivity | ].
  intros H. apply andb_prop in H. destruct H as [Hc Hr].
  destruct (digit_or_dot c); simpl; [ | exact (IH Hr)].
  unfold sin_coma in Hc. rewrite is_char_comma in Hc. rewrite Hc. exact (IH Hr).
Qed.

Lemma importe_coma_without_comma (t : string) :
  forallb_string sin_coma t = true -> importe_coma t = importe_punto t.
Proof.
  intros H. unfold importe_coma, importe_punto.
  rewrite (filters_agree_without_comma t H).
  rewrite replace_first_without; [reflexivity | ].
  apply filter_keeps_sin_coma. exact H.
Qed.

(** ** A text with no digit does not parse *)

Lemma dot_or_comma_cases (c : ascii) : dot_or_comma c = true -> c = "."%char \/ c = ","%char.
Proof.
  unfold dot_or_comma. intros H. apply orb_prop in H.
  destruct H as [H | H]; apply is_char_eq in H; [left | right]; exact H.
Qed.

Lemma parseFloat_dots_and_commas (t : string) :
  forallb_string dot_or_comma t = true -> parseFloat_string t = NaN.
Proof.
  destruct t as [| c r]; [reflexivity | ].
  simpl. intros H. apply andb_prop in H. destruct H as [Hc Hr].
  destruct (dot_or_comma_cases c Hc) as [-> | ->].
  - destruct r as [| d r']; [reflexivity | ].
    simpl in Hr. apply andb_prop in Hr. destruct Hr as [Hd _].
    destruct (dot_or_comma_cases d Hd) as [-> | ->]; reflexivity.
  - reflexivity.
Qed.

Lemma no_digit_filter_punto (t : string) :
  filter_string is_digit t = "" ->
  forallb_string dot_or_comma (filter_string digit_or_dot t) = true.
Proof.
  induction t as [| c r IH]; simpl; [reflexivity | ].
  unfold digit_or_dot at 1. destruct (is_digit c) eqn:D; [discriminate | ].
  intros H. simpl. destruct (is_char 46 c) eqn:P; simpl; [ | exact (IH H)].
  unfold dot_or_comma at 1. rewrite P. exact (IH H).
Qed.

Lemma no_digit_filter_coma (t : string) :
  filter_string is_digit t = "" ->
  forallb_string dot_or_comma (filter_string digit_dot_or_comma t) = true.
Proof.
  induction t as [| c r IH]; simpl; [reflexivity | ].
  unfold digit_dot_or_comma at 1. destruct (is_digit c) eqn:D; [discriminate | ].
  intros H. simpl. fold (dot_or_comma c).
  destruct (dot_or_comma c) eqn:P; simpl; [rewrite P | ]; exact (IH H).
Qed.

Lemma replace_first_dot_or_comma (t : string) :
  forallb_string dot_or_comma t = true ->
  forallb_string dot_or_comma (replace_first "," "." t) = true.
Proof.
  induction t as [| c r IH]; simpl; [reflexivity | ].
  intros H. apply andb_prop in H. destruct H as [Hc Hr].
  destruct (Ascii.eqb c ","); simpl; [exact Hr | ].
  rewrite Hc. exact (IH Hr).
Qed.

Lemma importe_without_digits (t : string) :
  filter_string is_digit t = "" -> importe_punto t = None /\ importe_coma t = None.
Proof.
  intros H. unfold importe_punto, importe_coma. split.
  - rewrite parseFloat_dots_and_commas; [reflexivity | ].
    apply no_digit_filter_punto. exact H.
  - rewrite parseFloat_dots_and_commas; [reflexivity | ].
    apply replace_first_dot_or_comma, no_digit_filter_coma. exact H.
Qed.

(** ** The records of a response are records of the places above *)

Lemma in_rows (f : list string -> infraccion) (n : nat) (rows : list (list string))
    (r : infraccion) :
  In r (map f (filter (at_least n) rows)) ->
  exists cols, at_least n cols = true /\ r = f cols.
Proof.
  intros H. apply in_map_iff in H. destruct H as (cols & E & I).
  apply filter_In in I. exists cols. split; [apply I | symmetry; exact E].
Qed.

Lemma forEach_push_In (f : value -> result infraccion) (l : list value)
    (acc : list infraccion) (r : infraccion) :
  In r (snd (forEach_push f l acc)) -> In r acc \/ exists x, In x l /\ f x = Ok r.
Proof.
  revert acc. induction l as [| x l IH]; intros acc H; simpl in H.
  - left. exact H.
  - destruct (f x) as [r' | e] eqn:E.
    + destruct (IH _ H) as [I | (y & I & F)].
      * apply in_app_or in I. destruct I as [I | [<- | []]]; [left; exact I | ].
        right. exists x. split; [left; reflexivity | exact E].
      * right. exists y. split; [right; exact I | exact F].
    + left. exact H.
Qed.

Lemma ansv_json_attempt_In (res : response) (acc : list infraccion) (r : infraccion) :
  In r (snd (ansv_json_attempt res acc)) -> In r acc \/ exists i, ansv_item i = Ok r.
Proof.
  unfold ansv_json_attempt.
  destruct (parsed res) as [json | ]; [ | left; assumption].
  destruct (get json "infracciones"); [ | left; assumption].
  destruct (_ ||| _ ||| _ ||| _); try (left; assumption).
  intros H. apply forEach_push_In in H. destruct H as [H | (x & _ & H)].
  - left. exact H.
  - right. exists x. exact H.
Qed.

Lemma ansv_parse_produces (res : response) (l : list infraccion) (r : infraccion) :
  ansv_parse res = Ok l -> In r l -> Produced ANSV_row r \/ Produced ANSV_item r.
Proof.
  unfold ansv_parse. intros H I. apply bind_Ok in H. destruct H as (t & _ & H).
  assert (R : forall x, In x (map ansv_row (filter (at_least 3)
                (rows_of (doc res) "table.table-infracciones tbody tr, table tbody tr"))) ->
              Produced ANSV_row x).
  { intros x Hx. apply in_rows in Hx. destruct Hx as (cols & G & ->).
    apply P_ansv_row. exact G. }
  destruct (_ && _); apply Ok_inj in H; subst l.
  - apply ansv_json_attempt_In in I. destruct I as [I | (i & I)].
    + left. apply R. exact I.
    + right. apply (P_ansv_item i). exact I.
  - left. apply R. exact I.
Qed.

Lemma posadas_parse_produces (res : response) (l : list infraccion) (r : infraccion) :
  posadas_parse res = Ok l -> In r l -> Produced Posadas_row r.
Proof.
  unfold posadas_parse. intros H I. apply bind_Ok in H. destruct H as (t & _ & H).
  destruct (test_i _ _); apply Ok_inj in H; subst l; [destruct I | ].
  apply in_rows in I. destruct I as (cols & G & ->). apply P_posadas_row. exact G.
Qed.

Lemma corrientes_parse_produces (res : response) (l : list infraccion) (r : infraccion) :
  corrientes_parse res = Ok l -> In r l -> Produced Corrientes_row r.
Proof.
  unfold corrientes_parse. intros H I. apply bind_Ok in H. destruct H as (t & _ & H).
  destruct (_ || _ || _); apply Ok_inj in H; subst l; [destruct I | ].
  apply in_rows in I. destruct I as (cols & G & ->). apply P_corrientes_row. exact G.
Qed.

Lemma rosario_parse_produces (res : response) (l : list infraccion) (r : infraccion) :
  rosario_parse res = Ok l -> In r l -> Produced Rosario_row r.
Proof.
  unfold rosario_parse. intros H I. apply bind_Ok in H. destruct H as (t & _ & H).
  destruct (find (doc res) ".govuk-error-summary"); [ | discriminate H].
  destruct (_ && _); apply Ok_inj in H; subst l; [destruct I | ].
  apply in_rows in I. destruct I as (cols & G & ->). apply P_rosario_row. exact G.
Qed.

Lemma santarosa_parse_produces (res : response) (l : list infraccion) (r : infraccion) :
  santarosa_parse res = Ok l -> In r l -> Produced SantaRosa_row r.
Proof.
  unfold santarosa_parse. intros H I. apply bind_Ok in H. destruct H as (t & _ & H).
  destruct (includes _ _); [apply Ok_inj in H; subst l; destruct I | ].
  destruct (negb _); [discriminate H | ]. apply Ok_inj in H. subst l.
  apply in_rows in I. destruct I as (cols & G & ->). apply P_santarosa_row. exact G.
Qed.

Lemma caba_parse_produces (load : value -> result element) (res : response)
    (l : list infraccion) (r : infraccion) :
  caba_parse load res = Ok l -> In r l -> Produced CABA_card r.
Proof.
  unfold caba_parse. intros H I.
  destruct (negb _); [discriminate H | ].
  apply bind_Ok in H. destruct H as (t & _ & H).
  destruct (_ =? _)%string; [discriminate H | ].
  apply bind_Ok in H. destruct H as (page & _ & H).
  destruct (includes _ _); apply Ok_inj in H; subst l; [destruct I | ].
  apply in_map_iff in I. destruct I as (card & <- & _). apply P_caba_card.
Qed.

(** What fetchANSV of backend-server.js returns, on any network, holds only
    records of its two literals. *)
Lemma fetchANSV_produces (dominio : string) (net : network) (log log' : list request)
    (l : list infraccion) (r : infraccion) :
  fetchANSV dominio net log = (Ok l, log') -> In r l ->
  Produced ANSV_row r \/ Produced ANSV_item r.
Proof.
  unfold fetchANSV, bindM, send, lift, throw.
  destruct (negb _); [discriminate | ].
  destruct (net log (GET PAGE_URL)) as [home | e]; [ | discriminate].
  destruct (ToString (data home)) as [html | e]; [ | discriminate].
  destruct (siteKeyMatch html) as [siteKey | ]; [ | discriminate].
  destruct (net _ (Recaptcha _ _)) as [captcha | e]; [ | discriminate].
  destruct (ToString (data captcha)) as [tok | e]; [ | discriminate].
  destruct (net _ (POST _ _)) as [res | e]; [ | discriminate].
  intros H. injection H as H _. apply (ansv_parse_produces res l r H).
Qed.

(** ** What parseFloat reads in a text of digits and dots *)

Lemma digit_cases (c : ascii) :
  is_digit c = true ->
  In c ["0"; "1"; "2"; "3"; "4"; "5"; "6"; "7"; "8"; "9"]%char.
Proof.
  destruct c as [[] [] [] [] [] [] [] []]; intros H; try discriminate H; simpl; tauto.
Qed.

Lemma trimStart_id (t : string) : ws_head t = 0%nat -> trimStart t = t.
Proof.
  intros H. unfold trimStart. destruct (String.length t); [reflexivity | ].
  cbn [trimStart_fuel]. rewrite H. reflexivity.
Qed.

Lemma span_digits_run (d rest : string) (acc : Z) (n : nat) :
  forallb_string is_digit d = true -> no_digit_ahead rest ->
  span_digits (d ++ rest) acc n = (digits_value d acc, (n + String.length d)%nat, rest).
Proof.
  revert acc n. induction d as [| c d IH]; intros acc n Hd Hr.
  - cbn [append digits_value String.length]. rewrite Nat.add_0_r.
    destruct rest as [| c r]; [reflexivity | ].
    cbn [span_digits]. simpl in Hr. rewrite Hr. reflexivity.
  - simpl in Hd. apply andb_prop in Hd. destruct Hd as [Hc Hd].
    change (String c d ++ rest) with (String c (d ++ rest)).
    cbn [span_digits digits_value String.length]. rewrite Hc.
    rewrite (IH _ _ Hd Hr). f_equal. f_equal. lia.
Qed.

(** On a text that starts with a run of digits, a dot, and a run of digits,
    and then ends or goes on with another dot, parseFloat reads the two runs
    and nothing of what follows. *)
Lemma parseFloat_reads_decimal (c : ascii) (d1 d2 rest : string) :
  forallb_string is_digit (String c d1) = true ->
  forallb_string is_digit d2 = true ->
  rest = "" \/ (exists r, rest = String "." r) ->
  parseFloat_string (String c d1 ++ "." ++ d2 ++ rest)
  = of_decimal false (digits_value d2 (digits_value (String c d1) 0))
      (- Z.of_nat (String.length d2)).
Proof.
  intros H1 H2 Hr.
  assert (Hc : is_digit c = true) by (simpl in H1; apply andb_prop in H1; apply H1).
  assert (R : no_digit_ahead rest /\ exponent_part rest = 0).
  { destruct Hr as [-> | (r & ->)]; split; reflexivity. }
  destruct R as (Rn & Re).
  unfold parseFloat_string.
  change (String c d1 ++ "." ++ d2 ++ rest) with (String c (d1 ++ "." ++ d2 ++ rest)).
  rewrite trimStart_id.
  2: { apply digit_cases in Hc. simpl in Hc.
       repeat (destruct Hc as [<- | Hc]; [reflexivity | ]). destruct Hc. }
  assert (S1 : is_char 45 c = false /\ is_char 43 c = false
               /\ prefix "Infinity" (String c (d1 ++ "." ++ d2 ++ rest)) = false).
  { apply digit_cases in Hc. simpl in Hc.
    repeat (destruct Hc as [<- | Hc]; [repeat split; reflexivity | ]). destruct Hc. }
  destruct S1 as (Sa & Sb & Sc). rewrite Sa, Sb, Sc.
  change (String c (d1 ++ "." ++ d2 ++ rest)) with (String c d1 ++ String "." (d2 ++ rest)).
  rewrite (span_digits_run (String c d1) (String "." (d2 ++ rest)) 0 0 H1 eq_refl).
  cbn [is_char code N_of_ascii]. change (is_char 46 ".") with true. cbv iota.
  rewrite (span_digits_run d2 rest _ 0 H2 Rn).
  cbn [String.length Nat.add]. rewrite Re. reflexivity.
Qed.

(** So a second dot ends the reading: what follows it changes nothing. *)
Lemma parseFloat_stops_at_second_dot (c : ascii) (d1 d2 r : string) :
  forallb_string is_digit (String c d1) = true ->
  forallb_string is_digit d2 = true ->
  parseFloat_string (String c d1 ++ "." ++ d2 ++ String "." r)
  = parseFloat_string (String c d1 ++ "." ++ d2).
Proof.
  intros H1 H2.
  rewrite (parseFloat_reads_decimal c d1 d2 (String "." r) H1 H2) by (right; eexists; reflexivity).
  replace (String c d1 ++ "." ++ d2) with (String c d1 ++ "." ++ d2 ++ "").
  - rewrite (parseFloat_reads_decimal c d1 d2 "" H1 H2) by (left; reflexivity). reflexivity.
  - f_equal. f_equal. induction d2 as [| x d2 IH]; [reflexivity | ].
    simpl in H2. apply andb_prop in H2. simpl. rewrite (IH (proj2 H2)). reflexivity.
Qed.

(** ** C1 *)

(** C1, as the claim states it, fails: no adapter removes the dots when a
    comma is there.  For the amount $1.234,56 fetchANSV drops the comma and
    reads 1.23456, fetchRosario turns the comma into a second dot and reads
    1.234; neither is 1234.56. *)
Lemma importe_keeps_the_dots :
  importe (ansv_row fila_miles) = Some (dec 123456 5)
  /\ importe (rosario_row fila_miles) = Some (dec 1234 3)
  /\ importe (ansv_row fila_miles) <> Some (dec 123456 2)
  /\ importe (rosario_row fila_miles) <> Some (dec 123456 2)
  /\ importe (ansv_row fila_miles) <> importe (rosario_row fila_miles).
Proof.
  repeat split; try (vm_compute; reflexivity); vm_compute; discriminate.
Qed.

(** A text with no digit, as parseFloat reads it: there is no number in it,
    unless it starts, after the white space and the sign, with Infinity. *)
Lemma filter_drop (p : ascii -> bool) (k : nat) (t : string) :
  filter_string p t = "" -> filter_string p (drop k t) = "".
Proof.
  revert t. induction k as [| k IH]; intros t H; [destruct t; exact H | ].
  destruct t as [| c r]; [exact H | ].
  simpl in H. destruct (p c); [discriminate H | ]. exact (IH r H).
Qed.

Lemma trimStart_fuel_filter (p : ascii -> bool) (fuel : nat) (t : string) :
  filter_string p t = "" -> filter_string p (trimStart_fuel fuel t) = "".
Proof.
  revert t. induction fuel as [| fuel IH]; intros t H; [exact H | ].
  cbn [trimStart_fuel]. destruct (ws_head t); [exact H | ].
  apply IH, filter_drop, H.
Qed.

Lemma span_digits_none (s : string) (acc : Z) (n : nat) :
  filter_string is_digit s = "" -> span_digits s acc n = (acc, n, s).
Proof.
  destruct s as [| c r]; [reflexivity | ].
  simpl. destruct (is_digit c); [discriminate | reflexivity].
Qed.

Lemma parseFloat_after_sign (s1 : string) (neg : bool) :
  filter_string is_digit s1 = "" ->
  (if prefix "Infinity" s1 then Inf neg
   else
     let '(ip, ni, s2) := span_digits s1 0 0 in
     let '(fp, nf, s3) :=
       match s2 with
       | String c r => if is_char 46 c then span_digits r ip 0 else (ip, O, s2)
       | EmptyString => (ip, O, s2)
       end in
     match (ni + nf)%nat with
     | O => NaN
     | _ => of_decimal neg fp (exponent_part s3 - Z.of_nat nf)
     end) = NaN
  \/ (if prefix "Infinity" s1 then Inf neg
      else
        let '(ip, ni, s2) := span_digits s1 0 0 in
        let '(fp, nf, s3) :=
          match s2 with
          | String c r => if is_char 46 c then span_digits r ip 0 else (ip, O, s2)
          | EmptyString => (ip, O, s2)
          end in
        match (ni + nf)%nat with
        | O => NaN
        | _ => of_decimal neg fp (exponent_part s3 - Z.of_nat nf)
        end) = Inf neg.
Proof.
  intros H. destruct (prefix "Infinity" s1); [right; reflexivity | left].
  rewrite (span_digits_none s1 0 0 H).
  destruct s1 as [| c r]; [reflexivity | ].
  destruct (is_char 46 c); [ | reflexivity].
  rewrite (span_digits_none r 0 0); [reflexivity | ].
  simpl in H. destruct (is_digit c); [discriminate H | exact H].
Qed.

Lemma parseFloat_without_digits (t : string) :
  filter_string is_digit t = "" ->
  parseFloat_string t = NaN \/ exists neg, parseFloat_string t = Inf neg.
Proof.
  intros H. unfold parseFloat_string.
  pose proof (trimStart_fuel_filter is_digit (String.length t) t H) as H0.
  fold (trimStart t) in H0.
  destruct (trimStart t) as [| c r] eqn:E.
  - left. reflexivity.
  - assert (Hr : filter_string is_digit r = "").
    { simpl in H0. destruct (is_digit c); [discriminate H0 | exact H0]. }
    destruct (is_char 45 c).
    { destruct (parseFloat_after_sign r true Hr) as [K | K];
        [left; exact K | right; exists true; exact K]. }
    destruct (is_char 43 c).
    { destruct (parseFloat_after_sign r false Hr) as [K | K];
        [left; exact K | right; exists false; exact K]. }
    destruct (parseFloat_after_sign (String c r) false H0) as [K | K];
      [left; exact K | right; exists false; exact K].
Qed.

(** The amount of a record built from a JSON item is [parseFloat] of the
    value of the item, with nothing removed from it, or null. *)
Lemma importe_of_the_items (i : value) (r : infraccion) :
  (ansv_item i = Ok r ->
   importe_json (prop i "importe" ||| prop i "monto" ||| VNum zero) = Ok (importe r))
  /\ (pba_item i = Ok r ->
      importe_json (prop i "importe" ||| prop i "monto" ||| prop i "deuda" ||| VNum zero)
      = Ok (importe r))
  /\ (entrerios_item i = Ok r ->
      importe_json (prop i "importe" ||| prop i "monto" ||| prop i "deuda" ||| VNum zero)
      = Ok (importe r))
  /\ (misiones_item i = Ok r ->
      importe_json (prop i "importe" ||| prop i "monto" ||| prop i "deuda" ||| VNum zero)
      = Ok (importe r))
  /\ (chaco_fotomulta i = Ok r ->
      importe_json (prop i "importe" ||| prop i "importe_1vto" ||| VNum zero) = Ok (importe r))
  /\ (chaco_caminera i = Ok r ->
      importe_json (prop i "importe_1vto" ||| VNum zero) = Ok (importe r))
  /\ (neuquen_item i = Ok r ->
      importe_json (prop i "importe" ||| prop i "monto" ||| VNum zero) = Ok (importe r))
  /\ (forall titular, caminera_sdt titular i = Ok r ->
      importe_json (prop i "importeTotal" ||| VNum zero) = Ok (importe r))
  /\ (forall titular, caminera_objeto titular i = Ok r ->
      importe_json (prop i "cuotaDeudaTotal" ||| prop i "saldoCap" ||| VNum zero)
      = Ok (importe r))
  /\ (caminera_hidden i = Ok r ->
      importe_json (prop i "cuotaDeudaTotal" ||| prop i "saldoCap" ||| VNum zero)
      = Ok (importe r))
  /\ (forall toISOString, salta_item toISOString i = Ok r ->
      importe_json (prop i "importe" ||| prop i "monto" ||| VNum zero) = Ok (importe r))
  /\ (forall titular objeto, cordoba_obligacion titular objeto i = Ok r ->
      importe_json (prop i "saldoTotal" ||| VNum zero) = Ok (importe r))
  /\ (Server.ansv_item i = Ok r ->
      importe_json (prop i "importe" ||| prop i "monto" ||| VNum zero) = Ok (importe r))
  /\ (Server.pba_item i = Ok r ->
      importe_json (prop i "importe" ||| prop i "monto" ||| prop i "deuda" ||| VNum zero)
      = Ok (importe r)).
Proof.
  unfold Server.ansv_item, Server.pba_item.
  assert (A : ansv_item i = Ok r ->
              importe_json (prop i "importe" ||| prop i "monto" ||| VNum zero) = Ok (importe r)).
  { intros H. unfold ansv_item in H. returned H. subst r. assumption. }
  assert (P : pba_item i = Ok r ->
              importe_json (prop i "importe" ||| prop i "monto" ||| prop i "deuda" ||| VNum zero)
              = Ok (importe r)).
  { intros H. unfold pba_item in H. returned H. subst r. assumption. }
  split; [exact A | ]. split; [exact P | ].
  split; [intros H; unfold entrerios_item in H; returned H; subst r; assumption | ].
  split; [intros H; unfold misiones_item in H; returned H; subst r; assumption | ].
  split; [intros H; unfold chaco_fotomulta in H; returned H; subst r; assumption | ].
  split; [intros H; unfold chaco_caminera in H; returned H; subst r; assumption | ].
  split; [intros H; unfold neuquen_item in H; returned H; subst r; assumption | ].
  split; [intros t H; unfold caminera_sdt in H; returned H; subst r; assumption | ].
  split; [intros t H; unfold caminera_objeto in H; returned H; subst r; assumption | ].
  split; [intros H; unfold caminera_hidden in H; returned H; subst r; assumption | ].
  split; [intros f H; unfold salta_item in H; returned H; subst r; assumption | ].
  split; [intros t o H; unfold cordoba_obligacion in H; returned H; subst r; assumption | ].
  split; [exact A | exact P].
Qed.

(** C1, amended.  An amount text [t] read in a page goes through one of two
    policies.  fetchANSV, fetchSantaFe, fetchPosadas, fetchCorrientes and the
    table rows of server.js keep the digits and the dots of [t] and parse the
    result ([importe_punto]); fetchCABA, fetchRosario, fetchSantaRosa and
    fetchMendoza keep the digits, the dots and the commas, turn the first
    comma into a dot, and parse the result ([importe_coma]).  Dots are never
    removed.  A text made of digits and dots is parsed as it is by both, a
    text with no comma gives the same amount under both, and a text with no
    digit gives null under both.  1234.56 reads 1234.56 under both; the empty
    text and N/A read null; $1.234,56 reads 1.23456 under the first and 1.234
    under the second; 1234,56 reads 123456 under the first and 1234.56 under
    the second.  The adapters that read JSON items keep every character: at
    each of their record literals the amount is parseFloat of the upstream
    value as it is, or null, so $1.234,56 reads null and 1.234,56 reads
    1.234; a text with no digit reads null there too, unless parseFloat reads
    Infinity in it, which is kept.  In a text of digits and dots parseFloat
    stops at the second dot. *)
Theorem importe_two_policies (t : string) (cols : list string) (card : element)
    (bodyText : string) :
  (forallb_string digit_or_dot (filter_string digit_or_dot t) = true
   /\ forallb_string digit_dot_or_comma (filter_string digit_dot_or_comma t) = true)
  /\ (forallb_string digit_or_dot t = true ->
      importe_punto t = or_null (parseFloat_string t)
      /\ importe_coma t = or_null (parseFloat_string t))
  /\ (forallb_string sin_coma t = true -> importe_coma t = importe_punto t)
  /\ (filter_string is_digit t = "" -> importe_punto t = None /\ importe_coma t = None)
  /\ (importe (ansv_row cols) = importe_punto (col cols 4)
      /\ importe (santafe_row cols) = importe_punto (col cols 4)
      /\ importe (posadas_row bodyText cols) = importe_punto (col cols 4)
      /\ importe (corrientes_row cols) = importe_punto (col cols 4)
      /\ importe (Server.ansv_row cols) = importe_punto (col cols 4)
      /\ importe (Server.caba_row cols) = importe_punto (col cols 4)
      /\ importe (Server.santafe_row cols) = importe_punto (col cols 4))
  /\ (importe (rosario_row cols) = importe_coma (col cols 4)
      /\ importe (santarosa_row cols) = importe_coma (col cols 4)
      /\ importe (mendoza_row cols) = importe_coma (or_else (col cols 8) (col cols 7))
      /\ importe (caba_card card)
         = importe_coma (trim (first_text (find card ".importe, .monto, .total"))))
  /\ (importe_punto "1234.56" = Some (dec 123456 2)
      /\ importe_coma "1234.56" = Some (dec 123456 2)
      /\ importe_punto "" = None /\ importe_coma "" = None
      /\ importe_punto "N/A" = None /\ importe_coma "N/A" = None
      /\ importe_punto "$1.234,56" = Some (dec 123456 5)
      /\ importe_coma "$1.234,56" = Some (dec 1234 3)
      /\ importe_punto "1234,56" = Some (dec 123456 0)
      /\ importe_coma "1234,56" = Some (dec 123456 2))
  /\ (importe_json (VStr t) = Ok (or_null (parseFloat_string t))
      /\ importe_json (VStr "1234.56") = Ok (Some (dec 123456 2))
      /\ importe_json (VNum (dec 123456 2)) = Ok (Some (dec 123456 2))
      /\ importe_json (VStr "$1.234,56") = Ok None
      /\ importe_json (VStr "1.234,56") = Ok (Some (dec 1234 3))
      /\ importe_json (VStr "") = Ok None
      /\ importe_json (VStr "N/A") = Ok None
      /\ importe_json (VStr "Infinity") = Ok (Some (Inf false)))
  /\ (filter_string is_digit t = "" ->
      importe_json (VStr t) = Ok None
      \/ exists neg, importe_json (VStr t) = Ok (Some (Inf neg)))
  /\ (forall (i : value) (r : infraccion),
       (ansv_item i = Ok r ->
        importe_json (prop i "importe" ||| prop i "monto" ||| VNum zero) = Ok (importe r))
       /\ (pba_item i = Ok r ->
           importe_json (prop i "importe" ||| prop i "monto" ||| prop i "deuda" ||| VNum zero)
           = Ok (importe r))
       /\ (entrerios_item i = Ok r ->
           importe_json (prop i "importe" ||| prop i "monto" ||| prop i "deuda" ||| VNum zero)
           = Ok (importe r))
       /\ (misiones_item i = Ok r ->
           importe_json (prop i "importe" ||| prop i "monto" ||| prop i "deuda" ||| VNum zero)
           = Ok (importe r))
       /\ (chaco_fotomulta i = Ok r ->
           importe_json (prop i "importe" ||| prop i "importe_1vto" ||| VNum zero) = Ok (importe r))
       /\ (chaco_caminera i = Ok r ->
           importe_json (prop i "importe_1vto" ||| VNum zero) = Ok (importe r))
       /\ (neuquen_item i = Ok r ->
           importe_json (prop i "importe" ||| prop i "monto" ||| VNum zero) = Ok (importe r))
       /\ (forall titular, caminera_sdt titular i = Ok r ->
           importe_json (prop i "importeTotal" ||| VNum zero) = Ok (importe r))
       /\ (forall titular, caminera_objeto titular i = Ok r ->
           importe_json (prop i "cuotaDeudaTotal" ||| prop i "saldoCap" ||| VNum zero)
           = Ok (importe r))
       /\ (caminera_hidden i = Ok r ->
           importe_json (prop i "cuotaDeudaTotal" ||| prop i "saldoCap" ||| VNum zero)
           = Ok (importe r))
       /\ (forall toISOString, salta_item toISOString i = Ok r ->
           importe_json (prop i "importe" ||| prop i "monto" ||| VNum zero) = Ok (importe r))
       /\ (forall titular objeto, cordoba_obligacion titular objeto i = Ok r ->
           importe_json (prop i "saldoTotal" ||| VNum zero) = Ok (importe r))
       /\ (Server.ansv_item i = Ok r ->
           importe_json (prop i "importe" ||| prop i "monto" ||| VNum zero) = Ok (importe r))
       /\ (Server.pba_item i = Ok r ->
           importe_json (prop i "importe" ||| prop i "monto" ||| prop i "deuda" ||| VNum zero)
           = Ok (importe r)))
  /\ (forall c d1 d2 r,
        forallb_string is_digit (String c d1) = true ->
        forallb_string is_digit d2 = true ->
        parseFloat_string (String c d1 ++ "." ++ d2 ++ String "." r)
        = parseFloat_string (String c d1 ++ "." ++ d2)).
Proof.
  split; [split; apply filter_string_forallb | ].
  split.
  { intros H. unfold importe_punto, importe_coma.
    assert (C : forallb_string digit_dot_or_comma t = true).
    { revert H. apply forallb_string_impl. intros c Hc.
      unfold digit_dot_or_comma. fold (digit_or_dot c). rewrite Hc. reflexivity. }
    assert (S : forallb_string sin_coma t = true).
    { revert H. apply forallb_string_impl. intros c Hc.
      unfold sin_coma. destruct (is_char 44 c) eqn:E; [ | reflexivity].
      apply is_char_eq in E. subst c. discriminate Hc. }
    rewrite (filter_string_id _ _ H), (filter_string_id _ _ C).
    split; [reflexivity | ].
    rewrite replace_first_without; [reflexivity | ].
    rewrite <- (filter_string_id _ _ H). apply filter_keeps_sin_coma. exact S. }
  split; [apply importe_coma_without_comma | ].
  split; [apply importe_without_digits | ].
  split; [repeat split | ].
  split; [repeat split | ].
  split; [repeat split; vm_compute; reflexivity | ].
  split.
  { split; [reflexivity | ]. repeat split; vm_compute; reflexivity. }
  split.
  { intros H. unfold importe_json, parseFloat. cbn [ToString bind].
    destruct (parseFloat_without_digits t H) as [-> | (neg & ->)];
      [left | right; exists neg]; reflexivity. }
  split; [exact importe_of_the_items | apply parseFloat_stops_at_second_dot].
Qed.

(** The theorem at the text 1234.56, which is made of digits and a dot and has
    no comma, at the text N/A, which has no digit, in a page and in a JSON
    item, and at the text 1.234.56 with its two dots. *)
Lemma importe_two_policies_witness :
  (importe_punto "1234.56" = or_null (parseFloat_string "1234.56")
   /\ importe_coma "1234.56" = or_null (parseFloat_string "1234.56"))
  /\ importe_coma "1234.56" = importe_punto "1234.56"
  /\ (importe_punto "N/A" = None /\ importe_coma "N/A" = None)
  /\ (importe_json (VStr "N/A") = Ok None
      \/ exists neg, importe_json (VStr "N/A") = Ok (Some (Inf neg)))
  /\ parseFloat_string "1.234.56" = parseFloat_string "1.234".
Proof.
  pose proof (importe_two_policies "1234.56" fila_miles (leaf "") "") as (_ & A & B & _).
  pose proof (importe_two_policies "N/A" fila_miles (leaf "") "")
    as (_ & _ & _ & C & _ & _ & _ & _ & J & _ & D).
  split; [exact (A eq_refl) | ].
  split; [exact (B eq_refl) | ].
  split; [exact (C eq_refl) | ].
  split; [exact (J eq_refl) | exact (D "1"%char "" "234" "56" eq_refl eq_refl)].
Defined.

(** ** C2 *)

(** C2 (the code departs from it).  The JSON fallback of fetchANSV copies the
    status text in lower case instead of mapping it to one of the two values:
    for a response whose body is JSON with an item of status ANULADA, the
    adapter, run against a portal that answers its three requests, returns a
    record whose [estado] is anulada, and the route answers 200 with it. *)
Theorem ansv_json_estado_is_copied :
  exists r,
    fetchANSV "ABC123" portal_json [] =
      (Ok [r],
       [ GET PAGE_URL; Recaptcha "6Lc-site" PAGE_URL;
         POST PAGE_URL (ansv_form "vs1" "" "" "ABC123" "03AGdBq2") ])
    /\ ansv_parse respuesta_json = Ok [r]
    /\ acta r = VStr "A-1"
    /\ estado r = "anulada"
    /\ ~ pagada_o_pendiente (estado r).
Proof.
  eexists. split; [vm_compute; reflexivity | ].
  split; [vm_compute; reflexivity | ].
  split; [reflexivity | ].
  split; [reflexivity | ].
  intros [H | H]; discriminate H.
Qed.

(** ** C3 *)





(** ** C4 *)

Lemma mercosur_is_not_antiguo (dominio : string) :
  formato_mercosur dominio = true -> formato_antiguo dominio = false.
Proof.
  destruct dominio as [| a [| b [| c [| d [| e [| f [| g [| h r]]]]]]]];
    simpl; intros H; try discriminate H; reflexivity.
Qed.

Lemma log_snoc2 (log : list request) (a b : request) :
  ((log ++ [a]) ++ [b] = log ++ a :: [b])%list.
Proof. rewrite <- app_assoc. reflexivity. Qed.

Lemma log_snoc3 (log : list request) (a b c : request) :
  (((log ++ [a]) ++ [b]) ++ [c] = log ++ a :: [b; c])%list.
Proof. rewrite <- !app_assoc. reflexivity. Qed.

(** C4, as the claim states it, fails for the fetchANSV of server.js, which
    has no check of the identifier: for the Mercosur plate AB123CD it requests
    the home page, and what it throws is about reCAPTCHA (or whatever the
    request throws), after one request. *)
Lemma server_ansv_requests_first :
  formato_mercosur "AB123CD" = true
  /\ Server.fetchANSV no_es_pagina "AB123CD" portal_json []
     = (Throw Server.requiere_recaptcha, [GET PAGE_URL])
  /\ Server.fetchANSV no_es_pagina "AB123CD" sin_red []
     = (Throw (Exn Error "timeout of 15000ms exceeded"), [GET PAGE_URL])
  /\ List.length (snd (Server.fetchANSV no_es_pagina "AB123CD" portal_json [])) <> 0%nat.
Proof.
  split; [reflexivity | ].
  split; [vm_compute; reflexivity | ].
  split; [vm_compute; reflexivity | ].
  vm_compute. discriminate.
Qed.

(** What the fetchANSV of server.js does with the home page. *)
Lemma server_ansv_outcomes (load : value -> result element) (dominio : string)
    (net : network) (log : list request) (home : response) (html : string) :
  net log (GET PAGE_URL) = Ok home ->
  ToString (data home) = Ok html ->
  (includes "g-recaptcha" html || includes "recaptcha" (toLowerCase html) = true ->
   Server.fetchANSV load dominio net log
   = (Throw Server.requiere_recaptcha, (log ++ [GET PAGE_URL])%list))
  /\ (includes "g-recaptcha" html || includes "recaptcha" (toLowerCase html) = false ->
      forall page row rows,
        load_data load home = Ok page ->
        filter (at_least 3)
          (rows_of page "table.table-infracciones tbody tr, table tbody tr") = row :: rows ->
        Server.fetchANSV load dominio net log
        = (Ok (map ansv_row (row :: rows)), (log ++ [GET PAGE_URL])%list)).
Proof.
  intros Hn Ht.
  unfold Server.fetchANSV, bindM, send, lift, throw, ret, Server.res.
  change (BASE ++ "/") with PAGE_URL. rewrite Hn, Ht. split.
  - intros Hc. rewrite Hc. reflexivity.
  - intros Hc page row rows Hp Hr. rewrite Hc, Hp. unfold Server.ansv_row. rewrite Hr.
    reflexivity.
Qed.

(** C4, amended.  The fetchANSV of backend-server.js tests the identifier
    first: one that is not of the six-character layout, so every one of the
    seven-character Mercosur layout, makes it throw the unsupported-format
    error with the log of requests as it was (no request made), and one of the
    six-character layout goes on to request the home page.  The fetchANSV of
    server.js has no such test: for every identifier it requests the home
    page, one request and no other whatever the outcome, and the outcome is
    the same for every identifier; it is the reCAPTCHA error when the page
    names reCAPTCHA, and the rows of the page when the page does not and has
    rows of three cells or more. *)
Theorem backend_ansv_rejects_before_any_request
    (load : value -> result element) (dominio : string) (net : network)
    (log : list request) :
  (formato_mercosur dominio = true -> formato_antiguo dominio = false)
  /\ (formato_antiguo dominio = false ->
      fetchANSV dominio net log = (Throw solo_formato_antiguo, log))
  /\ (formato_antiguo dominio = true ->
      exists r rest, fetchANSV dominio net log = (r, log ++ GET PAGE_URL :: rest)%list)
  /\ (exists r, Server.fetchANSV load dominio net log = (r, log ++ [GET PAGE_URL])%list)
  /\ (forall otro, Server.fetchANSV load otro net log = Server.fetchANSV load dominio net log)
  /\ (forall home html,
        net log (GET PAGE_URL) = Ok home ->
        ToString (data home) = Ok html ->
        (includes "g-recaptcha" html || includes "recaptcha" (toLowerCase html) = true ->
         Server.fetchANSV load dominio net log
         = (Throw Server.requiere_recaptcha, (log ++ [GET PAGE_URL])%list))
        /\ (includes "g-recaptcha" html || includes "recaptcha" (toLowerCase html) = false ->
            forall page row rows,
              load_data load home = Ok page ->
              filter (at_least 3)
                (rows_of page "table.table-infracciones tbody tr, table tbody tr")
              = row :: rows ->
              Server.fetchANSV load dominio net log
              = (Ok (map ansv_row (row :: rows)), (log ++ [GET PAGE_URL])%list))).
Proof.
  split; [apply mercosur_is_not_antiguo | ].
  split.
  { intros H. unfold fetchANSV. rewrite H. reflexivity. }
  split.
  { intros H. unfold fetchANSV. rewrite H. simpl.
    unfold bindM, send, lift, throw.
    destruct (net log (GET PAGE_URL)) as [home | e]; [ | eexists; exists []; reflexivity].
    destruct (ToString (data home)) as [html | e]; [ | eexists; exists []; reflexivity].
    destruct (siteKeyMatch html) as [siteKey | ]; [ | eexists; exists []; reflexivity].
    destruct (net (log ++ [GET PAGE_URL])%list (Recaptcha siteKey PAGE_URL)) as [captcha | e];
      [ | eexists; eexists; rewrite log_snoc2; reflexivity].
    destruct (ToString (data captcha)) as [tok | e];
      [ | eexists; eexists; rewrite log_snoc2; reflexivity].
    destruct (net _ (POST _ _)) as [res | e];
      eexists; eexists; rewrite log_snoc3; reflexivity. }
  split.
  { unfold Server.fetchANSV, bindM, send, lift, throw, ret, Server.res.
    change (BASE ++ "/") with PAGE_URL.
    destruct (net log (GET PAGE_URL)) as [home | e]; [ | eexists; reflexivity].
    destruct (ToString (data home)) as [html | e]; [ | eexists; reflexivity].
    destruct (_ || _); [eexists; reflexivity | ].
    destruct (load_data load home) as [page | e]; [ | eexists; reflexivity].
    destruct (_ =? _)%nat; eexists; reflexivity. }
  split; [intros otro; reflexivity | ].
  intros home html. apply server_ansv_outcomes.
Qed.

(** The theorem at the Mercosur plate AB123CD, against a portal that would
    answer, with requests already in the log: the adapter throws and the log
    is unchanged.  The adapter of server.js, given the same plate and a home
    page that lists an infraction and does not name reCAPTCHA, returns the
    record of the row. *)
Lemma backend_ansv_rejects_before_any_request_witness :
  formato_antiguo "AB123CD" = false
  /\ fetchANSV "AB123CD" portal_json [] = (Throw solo_formato_antiguo, [])
  /\ (exists r rest, fetchANSV "ABC123" portal_json [] = (r, [] ++ GET PAGE_URL :: rest)%list)
  /\ Server.fetchANSV no_es_pagina "AB123CD" portal_con_fila []
     = (Ok [ ansv_row [ "N-9"; "01/02/2024"; "Semaforo" ] ], [ GET PAGE_URL ]).
Proof.
  pose proof (backend_ansv_rejects_before_any_request no_es_pagina "AB123CD" portal_json [])
    as (A & B & _).
  pose proof (backend_ansv_rejects_before_any_request no_es_pagina "ABC123" portal_json [])
    as (_ & _ & C & _).
  pose proof (backend_ansv_rejects_before_any_request no_es_pagina "AB123CD" portal_con_fila [])
    as (_ & _ & _ & _ & _ & D).
  split; [exact (A eq_refl) | ].
  split; [exact (B (A eq_refl)) | ].
  split; [exact (C eq_refl) | ].
  exact (proj2 (D home_con_fila _ eq_refl eq_refl) eq_refl _ _ _ eq_refl eq_refl).
Defined.

(** ** C5 *)

Section Dispatch.

Variable run : adapter -> string -> M (list infraccion).
Variable run' : Server.adapter -> string -> M (list infraccion).
Variables (fuente clean : string) (net : network) (log : list request).

Lemma dispatch_cases :
  (forall err log', run (select fuente) clean net log = (Throw err, log') ->
     dispatch run (VStr fuente) clean net log = (Ok (envelope fuente err), log'))
  /\ (forall l log', run (select fuente) clean net log = (Ok l, log') ->
     dispatch run (VStr fuente) clean net log
     = (Ok (Reply 200 (Infracciones clean (VStr fuente) l)), log')).
Proof.
  unfold dispatch. cbn [switch]. split; intros x log' H; rewrite H; reflexivity.
Qed.

Lemma server_dispatch_cases :
  (forall err log', run' (Server.select fuente) clean net log = (Throw err, log') ->
     Server.dispatch run' (VStr fuente) clean net log = (Ok (envelope fuente err), log'))
  /\ (forall l log', run' (Server.select fuente) clean net log = (Ok l, log') ->
     Server.dispatch run' (VStr fuente) clean net log
     = (Ok (Reply 200 (Infracciones clean (VStr fuente) l)), log')).
Proof.
  unfold Server.dispatch. cbn [Server.switch]. split; intros x log' H; rewrite H; reflexivity.
Qed.



(** The dispatch calls the selected adapter and no other: adapters that
    agree on that call give the same reply. *)
Lemma dispatch_calls_the_selected (run2 : adapter -> string -> M (list infraccion)) :
  run2 (select fuente) clean net log = run (select fuente) clean net log ->
  dispatch run2 (VStr fuente) clean net log = dispatch run (VStr fuente) clean net log.
Proof. unfold dispatch. cbn [switch]. intros ->. reflexivity. Qed.

Lemma server_dispatch_calls_the_selected
    (run2 : Server.adapter -> string -> M (list infraccion)) :
  run2 (Server.select fuente) clean net log = run' (Server.select fuente) clean net log ->
  Server.dispatch run2 (VStr fuente) clean net log
  = Server.dispatch run' (VStr fuente) clean net log.
Proof. unfold Server.dispatch. cbn [Server.switch]. intros ->. reflexivity. Qed.

End Dispatch.






Example mercosur_through_the_route :
  multas (adapters (todos_fallan "boom")) (VStr "ab 123 cd") (VStr "ansv") portal_json []
  = (Ok (Reply 502 (ErrorBody
      "Error al consultar ansv: El portal ANSV/SINAI solo admite patentes en formato antiguo (ABC123). El formato Mercosur (AB123CD) no está soportado.")),
     []).
Proof. vm_compute. reflexivity. Qed.

(** ** C6 *)

Lemma unknown_selects_ansv (fuente : string) :
  ~ In fuente fuentes -> select fuente = FetchANSV.
Proof.
  unfold fuentes. simpl. intros H. unfold select.
  repeat match goal with
         | |- context [(fuente =? ?k)%string] =>
             let E := fresh "E" in
             destruct (fuente =? k)%string eqn:E;
             [apply String.eqb_eq in E; exfalso; apply H; rewrite E; tauto | ]
         end.
  reflexivity.
Qed.

Lemma server_unknown_selects_ansv (fuente : string) :
  ~ In fuente Server.fuentes -> Server.select fuente = Server.FetchANSV.
Proof.
  unfold Server.fuentes. simpl. intros H. unfold Server.select.
  repeat match goal with
         | |- context [(fuente =? ?k)%string] =>
             let E := fresh "E" in
             destruct (fuente =? k)%string eqn:E;
             [apply String.eqb_eq in E; exfalso; apply H; rewrite E; tauto | ]
         end.
  reflexivity.
Qed.

Lemma select_injective (a b : string) :
  In a fuentes -> In b fuentes -> select a = select b -> a = b.
Proof.
  unfold fuentes. simpl. intros Ha Hb.
  repeat (destruct Ha as [<- | Ha]; [ | ]);
    try contradiction;
    repeat (destruct Hb as [<- | Hb]; [ | ]);
    try contradiction;
    intros E; try reflexivity; discriminate E.
Qed.

Lemma server_select_injective (a b : string) :
  In a Server.fuentes -> In b Server.fuentes -> Server.select a = Server.select b -> a = b.
Proof.
  unfold Server.fuentes. simpl. intros Ha Hb.
  repeat (destruct Ha as [<- | Ha]; [ | ]);
    try contradiction;
    repeat (destruct Hb as [<- | Hb]; [ | ]);
    try contradiction;
    intros E; try reflexivity; discriminate E.
Qed.

(** C6.  The switch of the route maps every source identifier to one
    adapter, and the dispatch calls that adapter and no other: its reply is
    made of what the call returns or throws, with the requests the call made.
    An identifier that is none of the known ones, __unknown__ for one, selects
    fetchANSV, as does the literal ansv, which is also the value of a missing
    parameter: the dispatch then calls fetchANSV, the same call as for ansv,
    and replies with its outcome.  A parameter that is not a string takes the
    default too.  Two different known identifiers never select the same
    adapter.  The same holds of server.js and its four identifiers. *)
Theorem unknown_fuente_selects_ansv (fuente : string) :
  (~ In fuente fuentes -> select fuente = FetchANSV)
  /\ select "ansv" = FetchANSV
  /\ select "__unknown__" = select "ansv"
  /\ (forall (run : adapter -> string -> M (list infraccion)) clean net log,
        (forall l log', run (select fuente) clean net log = (Ok l, log') ->
           dispatch run (VStr fuente) clean net log
           = (Ok (Reply 200 (Infracciones clean (VStr fuente) l)), log'))
        /\ (forall err log', run (select fuente) clean net log = (Throw err, log') ->
              dispatch run (VStr fuente) clean net log = (Ok (envelope fuente err), log'))
        /\ (forall run2, run2 (select fuente) clean net log = run (select fuente) clean net log ->
              dispatch run2 (VStr fuente) clean net log
              = dispatch run (VStr fuente) clean net log))
  /\ (~ In fuente fuentes ->
      forall (run : adapter -> string -> M (list infraccion)) clean net log,
        (forall l log', run FetchANSV clean net log = (Ok l, log') ->
           dispatch run (VStr fuente) clean net log
           = (Ok (Reply 200 (Infracciones clean (VStr fuente) l)), log')
           /\ dispatch run (VStr "ansv") clean net log
              = (Ok (Reply 200 (Infracciones clean (VStr "ansv") l)), log'))
        /\ (forall err log', run FetchANSV clean net log = (Throw err, log') ->
              dispatch run (VStr fuente) clean net log = (Ok (envelope fuente err), log')
              /\ dispatch run (VStr "ansv") clean net log = (Ok (envelope "ansv" err), log'))
        /\ (forall run2, run2 FetchANSV clean net log = run FetchANSV clean net log ->
              dispatch run2 (VStr fuente) clean net log
              = dispatch run (VStr fuente) clean net log))
  /\ (forall v, (forall f, v <> VStr f) -> switch v = FetchANSV /\ Server.switch v = Server.FetchANSV)
  /\ (forall run dominio, multas run dominio VUndefined = multas run dominio (VStr "ansv"))
  /\ (forall a b, In a fuentes -> In b fuentes -> select a = select b -> a = b)
  /\ (~ In fuente Server.fuentes -> Server.select fuente = Server.FetchANSV)
  /\ Server.select "__unknown__" = Server.select "ansv"
  /\ (forall (run : Server.adapter -> string -> M (list infraccion)) clean net log,
        (forall l log', run (Server.select fuente) clean net log = (Ok l, log') ->
           Server.dispatch run (VStr fuente) clean net log
           = (Ok (Reply 200 (Infracciones clean (VStr fuente) l)), log'))
        /\ (forall err log', run (Server.select fuente) clean net log = (Throw err, log') ->
              Server.dispatch run (VStr fuente) clean net log
              = (Ok (envelope fuente err), log'))
        /\ (forall run2,
              run2 (Server.select fuente) clean net log
              = run (Server.select fuente) clean net log ->
              Server.dispatch run2 (VStr fuente) clean net log
              = Server.dispatch run (VStr fuente) clean net log))
  /\ (~ In fuente Server.fuentes ->
      forall (run : Server.adapter -> string -> M (list infraccion)) clean net log,
        (forall l log', run Server.FetchANSV clean net log = (Ok l, log') ->
           Server.dispatch run (VStr fuente) clean net log
           = (Ok (Reply 200 (Infracciones clean (VStr fuente) l)), log')
           /\ Server.dispatch run (VStr "ansv") clean net log
              = (Ok (Reply 200 (Infracciones clean (VStr "ansv") l)), log'))
        /\ (forall err log', run Server.FetchANSV clean net log = (Throw err, log') ->
              Server.dispatch run (VStr fuente) clean net log
              = (Ok (envelope fuente err), log')
              /\ Server.dispatch run (VStr "ansv") clean net log
                 = (Ok (envelope "ansv" err), log')))
  /\ (forall run dominio,
        Server.multas run dominio VUndefined = Server.multas run dominio (VStr "ansv"))
  /\ (forall a b, In a Server.fuentes -> In b Server.fuentes ->
                  Server.select a = Server.select b -> a = b).
Proof.
  split; [apply unknown_selects_ansv | ].
  split; [reflexivity | ].
  split; [reflexivity | ].
  split.
  { intros run clean net log.
    destruct (dispatch_cases run fuente clean net log) as (T & O).
    split; [exact O | ]. split; [exact T | ].
    intros run2. apply dispatch_calls_the_selected. }
  split.
  { intros H run clean net log.
    destruct (dispatch_cases run fuente clean net log) as (T & O).
    destruct (dispatch_cases run "ansv" clean net log) as (T' & O').
    pose proof (dispatch_calls_the_selected run fuente clean net log) as C.
    rewrite (unknown_selects_ansv fuente H) in T, O, C.
    change (select "ansv") with FetchANSV in T', O'.
    split; [intros l log' E; split; [exact (O l log' E) | exact (O' l log' E)] | ].
    split; [intros err log' E; split; [exact (T err log' E) | exact (T' err log' E)] | ].
    exact C. }
  split.
  { intros v H. destruct v; try (split; reflexivity). exfalso. exact (H s eq_refl). }
  split; [reflexivity | ].
  split; [apply select_injective | ].
  split; [apply server_unknown_selects_ansv | ].
  split; [reflexivity | ].
  split.
  { intros run clean net log.
    destruct (server_dispatch_cases run fuente clean net log) as (T & O).
    split; [exact O | ]. split; [exact T | ].
    intros run2. apply server_dispatch_calls_the_selected. }
  split.
  { intros H run clean net log.
    destruct (server_dispatch_cases run fuente clean net log) as (T & O).
    destruct (server_dispatch_cases run "ansv" clean net log) as (T' & O').
    rewrite (server_unknown_selects_ansv fuente H) in T, O.
    change (Server.select "ansv") with Server.FetchANSV in T', O'.
    split; [intros l log' E; split; [exact (O l log' E) | exact (O' l log' E)] | ].
    intros err log' E; split; [exact (T err log' E) | exact (T' err log' E)]. }
  split; [reflexivity | apply server_select_injective].
Qed.

Lemma not_in_fuentes_unknown : ~ In "__unknown__" fuentes.
Proof.
  unfold fuentes. simpl. intros H.
  repeat (destruct H as [H | H]; [discriminate H | ]). exact H.
Qed.

(** The theorem at the identifier __unknown__, with adapters of which
    fetchANSV alone answers: the reply carries the record of fetchANSV. *)
Lemma unknown_fuente_selects_ansv_witness :
  select "__unknown__" = FetchANSV
  /\ dispatch solo_ansv (VStr "__unknown__") "ABC123" sin_red []
     = (Ok (Reply 200 (Infracciones "ABC123" (VStr "__unknown__")
                         [ ansv_row [ "ABC123"; ""; "" ] ])), [])
  /\ dispatch solo_ansv (VStr "ansv") "ABC123" sin_red []
     = (Ok (Reply 200 (Infracciones "ABC123" (VStr "ansv")
                         [ ansv_row [ "ABC123"; ""; "" ] ])), [])
  /\ dispatch solo_ansv (VStr "chaco") "ABC123" sin_red []
     = (Ok (Reply 502 (ErrorBody "Error al consultar chaco: otro adaptador")), []).
Proof.
  pose proof (unknown_fuente_selects_ansv "__unknown__") as (A & _ & _ & _ & B & _).
  pose proof (unknown_fuente_selects_ansv "chaco") as (_ & _ & _ & C & _).
  destruct (B not_in_fuentes_unknown solo_ansv "ABC123" sin_red []) as (O & _).
  destruct (C solo_ansv "ABC123" sin_red []) as (_ & T & _).
  split; [exact (A not_in_fuentes_unknown) | ].
  split; [exact (proj1 (O _ _ eq_refl)) | ].
  split; [exact (proj2 (O _ _ eq_refl)) | exact (T _ _ eq_refl)].
Defined.

(** ** C7 *)

Lemma ceil16_bounds (n : nat) :
  (ceil16 n mod 16 = 0 /\ n <= ceil16 n < n + 16)%nat.
Proof.
  unfold ceil16.
  pose proof (Nat.div_mod_eq (n + 15) 16) as D.
  pose proof (Nat.mod_upper_bound (n + 15) 16 ltac:(discriminate)) as U.
  split; [apply Nat.Div0.mod_mul | lia].
Qed.

Lemma ceil16_multiple (n : nat) : (n mod 16 = 0 -> ceil16 n = n)%nat.
Proof.
  intros H. unfold ceil16.
  pose proof (Nat.div_mod_eq n 16) as D. rewrite H in D.
  pose proof (Nat.div_mod_eq (n + 15) 16) as D'.
  pose proof (Nat.mod_upper_bound (n + 15) 16 ltac:(discriminate)) as U.
  assert ((n + 15) / 16 = n / 16)%nat; [ | lia].
  symmetry. apply (Nat.div_unique (n + 15) 16 (n / 16) 15); lia.
Qed.

Lemma ceil16_short (n : nat) : (1 <= n <= 16 -> ceil16 n = 16)%nat.
Proof.
  intros H. unfold ceil16.
  assert ((n + 15) / 16 = 1)%nat as ->; [ | reflexivity].
  symmetry. apply (Nat.div_unique (n + 15) 16 1 (n - 1)); lia.
Qed.

Lemma copy_alloc (bytes : list N) (n : nat) :
  (List.length bytes <= n)%nat ->
  copy bytes (alloc n) = (bytes ++ repeat 0%N (n - List.length bytes))%list.
Proof.
  intros H. unfold copy, alloc. rewrite repeat_length.
  rewrite firstn_all2 by exact H. f_equal.
  replace n with (List.length bytes + (n - List.length bytes))%nat at 1 by lia.
  rewrite repeat_app, skipn_app, repeat_length, Nat.sub_diag.
  rewrite skipn_all2 by (rewrite repeat_length; lia). reflexivity.
Qed.

Lemma padded_of_spec (plaintext : string) :
  let bytes := ascii_bytes plaintext in
  padded_of plaintext
  = (bytes ++ repeat 0%N (ceil16 (List.length bytes) - List.length bytes))%list
  /\ List.length (padded_of plaintext) = ceil16 (List.length bytes).
Proof.
  intros bytes. unfold padded_of. fold bytes.
  pose proof (ceil16_bounds (List.length bytes)) as (_ & B & _).
  rewrite (copy_alloc bytes _ B). split; [reflexivity | ].
  rewrite length_app, repeat_length. lia.
Qed.

Lemma to_hex_length (l : list N) : String.length (to_hex l) = (2 * List.length l)%nat.
Proof.
  induction l as [| b l IH]; simpl; [reflexivity | rewrite IH; lia].
Qed.

Lemma blocks_fuel (fuel1 fuel2 : nat) (l : list N) :
  (List.length l <= fuel1)%nat -> (List.length l <= fuel2)%nat ->
  blocks fuel1 l = blocks fuel2 l.
Proof.
  revert fuel2 l. induction fuel1 as [| f1 IH]; intros fuel2 l H1 H2.
  - destruct l; [ | simpl in H1; lia]. destruct fuel2; reflexivity.
  - destruct l as [| x l']; [destruct fuel2; reflexivity | ].
    destruct fuel2 as [| f2]; [simpl in H2; lia | ].
    cbn [blocks]. f_equal.
    assert (L : (List.length (skipn 16 (x :: l')) <= List.length l')%nat).
    { rewrite length_skipn. simpl. lia. }
    simpl in H1, H2. apply IH; lia.
Qed.

Section Cipher.

Variable aes : list N -> list N -> list N.

(** Electronic codebook: the first block of the input is encrypted on its
    own, and the rest as if it came alone.  Nothing is carried from a block to
    the next, and there is no initial value. *)
Lemma ecb_block (key b rest : list N) :
  List.length b = 16%nat ->
  ecb aes key (b ++ rest) = (aes key b ++ ecb aes key rest)%list.
Proof.
  intros H. unfold ecb.
  destruct b as [| x b']; [discriminate H | ].
  rewrite length_app. rewrite H.
  change (16 + List.length rest)%nat with (S (15 + List.length rest)).
  change ((x :: b') ++ rest)%list with (x :: (b' ++ rest))%list.
  cbn [blocks]. change (x :: (b' ++ rest))%list with ((x :: b') ++ rest)%list.
  rewrite firstn_app, H, Nat.sub_diag, firstn_O, app_nil_r.
  rewrite firstn_all2 by lia.
  rewrite skipn_app, H, Nat.sub_diag, skipn_O.
  rewrite skipn_all2 by lia. cbn [app flat_map]. f_equal. f_equal.
  apply blocks_fuel; lia.
Qed.

Hypothesis aes_block :
  forall key block, List.length block = 16%nat -> List.length (aes key block) = 16%nat.

Lemma ecb_length (key : list N) (m : nat) :
  forall data, List.length data = (16 * m)%nat ->
               List.length (ecb aes key data) = (16 * m)%nat.
Proof.
  induction m as [| m IH]; intros data H.
  - destruct data; [reflexivity | discriminate H].
  - rewrite <- (firstn_skipn 16 data).
    assert (F : List.length (firstn 16 data) = 16%nat).
    { rewrite length_firstn. lia. }
    rewrite (ecb_block key _ _ F), length_app, (aes_block _ _ F).
    rewrite IH; [lia | ]. rewrite length_skipn. lia.
Qed.

Lemma gxEncrypt_spec (plaintext hexKey : string) :
  let n := List.length (ascii_bytes plaintext) in
  (List.length (from_hex hexKey) = 16%nat ->
   gxEncrypt aes plaintext hexKey = Ok (to_hex (ecb aes (from_hex hexKey) (padded_of plaintext)))
   /\ exists hex, gxEncrypt aes plaintext hexKey = Ok hex
                  /\ String.length hex = (2 * ceil16 n)%nat)
  /\ (List.length (from_hex hexKey) <> 16%nat ->
      gxEncrypt aes plaintext hexKey = Throw (Exn RangeError "Invalid key length")).
Proof.
  intros n. unfold gxEncrypt. split; intros H.
  - apply Nat.eqb_eq in H. rewrite H. split; [reflexivity | ].
    eexists. split; [reflexivity | ].
    rewrite to_hex_length. f_equal.
    destruct (padded_of_spec plaintext) as (_ & L).
    pose proof (ceil16_bounds n) as (M & _).
    apply Nat.Div0.div_exact in M.
    rewrite (ecb_length _ (ceil16 n / 16)); [lia | ].
    rewrite L. fold n. lia.
  - apply Nat.eqb_neq in H. rewrite H. reflexivity.
Qed.

End Cipher.

(** C7, as the claim states it, fails at the empty plaintext: it is shorter
    than one block, and it is padded to no byte at all, not to 16; the cipher
    text is empty. *)
Lemma empty_plaintext_is_not_padded :
  (List.length (ascii_bytes "") < 16)%nat
  /\ padded_of "" = []
  /\ List.length (padded_of "") <> 16%nat
  /\ gxEncrypt identidad "" "000102030405060708090a0b0c0d0e0f" = Ok "".
Proof.
  split; [vm_compute; lia | ].
  split; [reflexivity | ].
  split; [vm_compute; discriminate | reflexivity].
Qed.

(** C7, amended.  gxEncrypt writes the bytes of the plaintext (one for each
    code unit) and then zero bytes up to the next multiple of 16: the padded
    buffer is the bytes followed by zeros, its length is the least multiple of
    16 that is not below the number of bytes, nothing is added to a plaintext
    whose length is already a multiple of 16.  A plaintext of 1 to 15 bytes is
    padded to exactly 16 bytes, one of 20 bytes to 32, and the empty plaintext
    to none.  With a key of 16 bytes, and a block function that returns
    16-byte blocks, the result is the hexadecimal text of the blocks, each
    encrypted on its own with nothing chained and no initial value, so the
    cipher text has as many bytes as the padded buffer, a multiple of 16; any
    other key is refused. *)
Theorem gxEncrypt_pads_with_zeros
    (aes : list N -> list N -> list N) (plaintext hexKey : string) :
  (forall key block, List.length block = 16%nat -> List.length (aes key block) = 16%nat) ->
  let bytes := ascii_bytes plaintext in
  let n := List.length bytes in
  padded_of plaintext = (bytes ++ repeat 0%N (ceil16 n - n))%list
  /\ List.length (padded_of plaintext) = ceil16 n
  /\ (ceil16 n mod 16 = 0 /\ n <= ceil16 n < n + 16)%nat
  /\ (n mod 16 = 0 -> List.length (padded_of plaintext) = n)%nat
  /\ (1 <= n <= 15 -> List.length (padded_of plaintext) = 16)%nat
  /\ (n = 20 -> List.length (padded_of plaintext) = 32)%nat
  /\ (n = 0 -> List.length (padded_of plaintext) = 0)%nat
  /\ (List.length (from_hex hexKey) = 16%nat ->
      gxEncrypt aes plaintext hexKey
      = Ok (to_hex (ecb aes (from_hex hexKey) (padded_of plaintext)))
      /\ exists hex, gxEncrypt aes plaintext hexKey = Ok hex
                     /\ String.length hex = (2 * ceil16 n)%nat)
  /\ (List.length (from_hex hexKey) <> 16%nat ->
      gxEncrypt aes plaintext hexKey = Throw (Exn RangeError "Invalid key length"))
  /\ (forall key b rest, List.length b = 16%nat ->
        ecb aes key (b ++ rest) = (aes key b ++ ecb aes key rest)%list).
Proof.
  intros Haes bytes n.
  destruct (padded_of_spec plaintext) as (P & L). fold bytes in P, L. fold n in P, L.
  split; [exact P | ].
  split; [exact L | ].
  split; [apply ceil16_bounds | ].
  split; [intros H; rewrite L; apply ceil16_multiple; exact H | ].
  split; [intros H; rewrite L; apply ceil16_short; lia | ].
  split; [intros H; rewrite L, H; reflexivity | ].
  split; [intros H; rewrite L, H; reflexivity | ].
  destruct (gxEncrypt_spec aes Haes plaintext hexKey) as (A & B).
  split; [exact A | ].
  split; [exact B | ].
  intros key b rest. apply ecb_block.
Qed.

Lemma identidad_block (key block : list N) :
  List.length block = 16%nat -> List.length (identidad key block) = 16%nat.
Proof. intros H. exact H. Qed.

(** The theorem at the plaintext the adapter encrypts, gxfullajaxEvt, of 13
    bytes, and at a plaintext of 20 bytes. *)
Lemma gxEncrypt_pads_with_zeros_witness :
  List.length (padded_of "gxfullajaxEvt") = 16%nat
  /\ List.length (padded_of "12345678901234567890") = 32%nat
  /\ exists hex,
       gxEncrypt identidad "gxfullajaxEvt" "000102030405060708090a0b0c0d0e0f" = Ok hex
       /\ String.length hex = 32%nat.
Proof.
  pose proof (gxEncrypt_pads_with_zeros identidad "gxfullajaxEvt"
                "000102030405060708090a0b0c0d0e0f" identidad_block)
    as (_ & _ & _ & _ & A & _ & _ & B & _).
  pose proof (gxEncrypt_pads_with_zeros identidad "12345678901234567890"
                "" identidad_block)
    as (_ & _ & _ & _ & _ & C & _).
  split; [apply A; vm_compute; lia | ].
  split; [apply C; reflexivity | ].
  exact (proj2 (B eq_refl)).
Defined.

Example gxEncrypt_of_the_event :
  padded_of "gxfullajaxEvt"
  = [103; 120; 102; 117; 108; 108; 97; 106; 97; 120; 69; 118; 116; 0; 0; 0]%N
  /\ gxEncrypt identidad "gxfullajaxEvt" "000102030405060708090a0b0c0d0e0f"
     = Ok "677866756c6c616a6178457674000000".
Proof. split; reflexivity. Qed.

(** ** C8 *)

(** C8 (the code departs from it).  fetchSalta builds [acta] with
    [String(... || '')]: an item with neither numeroObligacionImpuesto nor
    acta gives a record whose [acta] is the empty string, not null. *)
Theorem salta_acta_is_empty_string (toISOString : value -> result string) :
  exists r,
    salta_item toISOString salta_sin_acta = Ok r
    /\ Produced Salta_item r
    /\ acta r = VStr ""
    /\ ~ null_or_truthy (acta r).
Proof.
  eexists. split; [vm_compute; reflexivity | ].
  split; [eapply (P_salta_item toISOString salta_sin_acta); vm_compute; reflexivity | ].
  split; [reflexivity | ].
  intros [H | H]; discriminate H.
Qed.

(** ** C9 *)

Lemma forEach_push_all (f : value -> result infraccion) (l : list value)
    (rs acc : list infraccion) :
  mapM f l = Ok rs -> forEach_push f l acc = (Ok tt, (acc ++ rs)%list).
Proof.
  revert rs acc. induction l as [| x l IH]; intros rs acc H; simpl in H.
  - apply Ok_inj in H. subst rs. rewrite app_nil_r. reflexivity.
  - returned H. subst rs. simpl. rewrite Ha.
    rewrite (IH _ _ Ha0), <- app_assoc. reflexivity.
Qed.

Lemma forEach_push_keeps (f : value -> result infraccion) (l : list value)
    (acc : list infraccion) :
  exists rs, snd (forEach_push f l acc) = (acc ++ rs)%list.
Proof.
  revert acc. induction l as [| x l IH]; intros acc; simpl.
  - exists []. rewrite app_nil_r. reflexivity.
  - destruct (f x) as [r | e].
    + destruct (IH (acc ++ [r])%list) as (rs & E). exists (r :: rs).
      rewrite E, <- app_assoc. reflexivity.
    + exists []. rewrite app_nil_r. reflexivity.
Qed.

(** In backend-server.js the fallback is total: once the data of the response
    converts to a string, fetchANSV returns a list whatever the body holds.
    With no row read and an opening brace in the text the list is what the
    attempt left in the array; a body that does not parse, or that parses to
    something with no list, leaves it empty; a list whose items all convert
    gives their records. *)
Lemma backend_fallback_is_total (res : response) (t : string) :
  ToString (data res) = Ok t ->
  (exists l, ansv_parse res = Ok l)
  /\ (filter (at_least 3)
        (rows_of (doc res) "table.table-infracciones tbody tr, table tbody tr") = [] ->
      includes "{" t = true ->
      ansv_parse res = Ok (snd (ansv_json_attempt res []))
      /\ (parsed res = None -> ansv_parse res = Ok [])
      /\ (forall json items rs,
            parsed res = Some json -> nullish json = false ->
            prop json "infracciones" ||| prop json "data" ||| prop json "items" ||| VArr []
            = VArr items ->
            mapM ansv_item items = Ok rs ->
            ansv_parse res = Ok rs)).
Proof.
  intros Ht. unfold ansv_parse. rewrite Ht. cbn [bind]. split.
  - destruct (_ && _); eexists; reflexivity.
  - intros Hr Hb. rewrite Hr, Hb. cbn [map List.length Nat.eqb andb].
    split; [reflexivity | ]. split.
    + intros Hp. unfold ansv_json_attempt. rewrite Hp. reflexivity.
    + intros json items rs Hp Hn Hl Hm. unfold ansv_json_attempt, get.
      rewrite Hp, Hn, Hl. rewrite (forEach_push_all _ _ rs [] Hm). reflexivity.
Qed.

(** In server.js the fallback always throws: after a home page with no
    reCAPTCHA in it and no row of three cells, line 78 evaluates [res], which
    is bound nowhere. *)
Lemma server_fallback_throws (load : value -> result element) (dominio : string)
    (net : network) (log : list request) (home : response) (html : string)
    (page : element) :
  net log (GET PAGE_URL) = Ok home ->
  ToString (data home) = Ok html ->
  includes "g-recaptcha" html || includes "recaptcha" (toLowerCase html) = false ->
  load_data load home = Ok page ->
  filter (at_least 3)
    (rows_of page "table.table-infracciones tbody tr, table tbody tr") = [] ->
  Server.fetchANSV load dominio net log
  = (Throw (Exn ReferenceError "res is not defined"), (log ++ [GET PAGE_URL])%list).
Proof.
  intros Hn Ht Hc Hp Hr.
  unfold Server.fetchANSV, bindM, send, lift, throw, ret, Server.res.
  change (BASE ++ "/") with PAGE_URL.
  rewrite Hn, Ht, Hc, Hp. unfold Server.ansv_row. rewrite Hr. reflexivity.
Qed.

(** The fetchANSV of server.js never returns an empty list. *)
Lemma server_ansv_never_empty (load : value -> result element) (dominio : string)
    (net : network) (log : list request) :
  fst (Server.fetchANSV load dominio net log) <> Ok [].
Proof.
  unfold Server.fetchANSV, bindM, send, lift, throw, ret, Server.res.
  destruct (net log (GET (BASE ++ "/"))) as [home | e]; [ | discriminate].
  destruct (ToString (data home)) as [html | e]; [ | discriminate].
  destruct (_ || _); [discriminate | ].
  destruct (load_data load home) as [page | e]; [ | discriminate].
  destruct (map Server.ansv_row _) as [| r l]; simpl; discriminate.
Qed.

(** C9 (the code of server.js departs from it).  With a home page that has no
    reCAPTCHA and no table, and a brace in its text, the fetchANSV of
    server.js throws a ReferenceError at the test of the fallback, after its
    one request, and the route answers 502; the fetchANSV of
    backend-server.js, given the same response to its POST, tries the JSON
    shape, drops the SyntaxError, and returns the empty list. *)
Theorem server_ansv_fallback_raises (load : value -> result element) :
  Server.fetchANSV load "ABC123" portal_sin_tabla []
  = (Throw (Exn ReferenceError "res is not defined"), [GET PAGE_URL])
  /\ Server.multas (Server.adapters load (todos_fallan "boom")) (VStr "ABC123") (VStr "ansv")
       portal_sin_tabla []
     = (Ok (Reply 502 (ErrorBody "Error al consultar ansv: res is not defined")),
        [GET PAGE_URL])
  /\ (exists t, ToString (data home_sin_tabla) = Ok t /\ includes "{" t = true)
  /\ (exists e, fst (ansv_json_attempt home_sin_tabla []) = Throw e /\ kind e = SyntaxError)
  /\ ansv_parse home_sin_tabla = Ok [].
Proof.
  split; [ | split; [vm_compute; reflexivity | ]].
  2: { split; [eexists; split; vm_compute; reflexivity | ].
       split; [eexists; split; vm_compute; reflexivity | vm_compute; reflexivity]. }
  eapply (server_fallback_throws load "ABC123" portal_sin_tabla [] home_sin_tabla);
    reflexivity.
Qed.

(** ** C10 *)

(** C10.  In every record built at any place of the two files, [importe] is
    null or a number that is neither zero nor NaN: each place computes it as
    [parseFloat(...) || null], so an amount that parses to zero (of either
    sign, whatever its exponent) becomes null and is never kept as 0. *)
Theorem importe_is_null_or_nonzero (s : site) (r : infraccion) :
  Produced s r ->
  (importe r = None \/ exists x, importe r = Some x /\ number_truthy x = true)
  /\ (forall neg e, importe r <> Some (Fin neg 0 e))
  /\ importe r <> Some NaN.
Proof.
  intros H. pose proof (produced_importe s r H) as [E | (x & E & T)].
  - split; [left; exact E | ]. rewrite E. split; [intros neg e | ]; discriminate.
  - split; [right; exists x; split; assumption | ].
    rewrite E. split; [intros neg e | ]; intros F; injection F as F; subst x; discriminate T.
Qed.

(** An amount of zero in a table cell and in a JSON item, through the theorem. *)
Lemma importe_is_null_or_nonzero_witness :
  importe (ansv_row fila_importe_cero) = None
  /\ forall neg e, importe (ansv_row fila_importe_cero) <> Some (Fin neg 0 e).
Proof.
  split.
  - reflexivity.
  - apply (importe_is_null_or_nonzero ANSV_row _ (P_ansv_row fila_importe_cero eq_refl)).
Defined.

Example importe_cero_pba :
  exists r, pba_item (VObj [("nroActa", VStr "P-1"); ("importe", VNum zero)]) = Ok r
            /\ importe r = None.
Proof. eexists. split; reflexivity. Qed.

Example importe_cero_chaco :
  exists r, chaco_caminera (VObj [("importe_1vto", VStr "0.00")]) = Ok r /\ importe r = None.
Proof. eexists. split; reflexivity. Qed.

Example importe_positivo_pba :
  exists r, pba_item (VObj [("importe", VNum (dec 15005 1))]) = Ok r
            /\ importe r = Some (dec 15005 1).
Proof. eexists. split; vm_compute; reflexivity. Qed.

End Facts.

(* ================================================================== *)
(** * Part VII. More properties of the adapters and of the route       *)
(* ================================================================== *)

Module Coverage.
Import JS.
Import Backend.
Import Adapters.
Import Records.
Import Fixtures.
Import Samples.
Import Facts.

(** ** Lists of fallible steps *)

Lemma mapM_Forall2 {A B} (f : A -> result B) (l : list A) (rs : list B) :
  mapM f l = Ok rs -> Forall2 (fun a b => f a = Ok b) l rs.
Proof.
  revert rs. induction l as [| a l IH]; intros rs H; simpl in H.
  - apply Ok_inj in H. subst rs. constructor.
  - returned H. subst rs. constructor; [assumption | apply IH; assumption].
Qed.

Lemma mapM_In {A B} (f : A -> result B) (l : list A) (rs : list B) (b : B) :
  mapM f l = Ok rs -> In b rs -> exists a, In a l /\ f a = Ok b.
Proof.
  intros H. apply mapM_Forall2 in H. induction H as [| a b' l rs Hab _ IH]; intros Hin.
  - destruct Hin.
  - destruct Hin as [<- | Hin].
    + exists a. split; [left; reflexivity | exact Hab].
    + destruct (IH Hin) as (a' & Ha' & Hf). exists a'. split; [right; exact Ha' | exact Hf].
Qed.

Lemma mapM_Throw {A B} (f : A -> result B) (l : list A) (e : exn) :
  mapM f l = Throw e -> exists a, In a l /\ f a = Throw e.
Proof.
  induction l as [| a l IH]; simpl; intros H; [discriminate H | ].
  destruct (f a) as [b | e'] eqn:E; simpl in H.
  - destruct (mapM f l) as [bs | e'']; simpl in H; [discriminate H | ].
    destruct (IH H) as (a' & Ha' & Hf). exists a'. split; [right; exact Ha' | exact Hf].
  - exists a. split; [left; reflexivity | ]. injection H as <-. exact E.
Qed.

Lemma mapM_fails {A B} (f : A -> result B) (l : list A) (a : A) (e : exn) :
  In a l -> f a = Throw e -> exists e', mapM f l = Throw e'.
Proof.
  induction l as [| x l IH]; intros Hin Hf; [destruct Hin | ].
  simpl. destruct (f x) as [b | e'] eqn:E; simpl.
  - destruct Hin as [-> | Hin]; [congruence | ].
    destruct (IH Hin Hf) as (e'' & ->). exists e''. reflexivity.
  - exists e'. reflexivity.
Qed.

(** ** What an item of a JSON list can throw *)

Lemma get_kind (v : value) (k : string) (e : exn) : get v k = Throw e -> kind e = TypeError.
Proof. unfold get. destruct (nullish v); intros H; [ | discriminate H]. injection H as <-. reflexivity. Qed.

Lemma ToString_kind : forall (v : value) (e : exn), ToString v = Throw e -> kind e = TypeError.
Proof.
  fix IH 1. intros v e. destruct v as [ | | b | n | s | l | fields]; simpl; try discriminate.
  - induction l as [| x l IHl]; [discriminate | ].
    destruct (if nullish x then Ok "" else ToString x) as [s | e'] eqn:E; simpl.
    + destruct l as [| y l]; [discriminate | ].
      match goal with |- context [bind ?m _] => destruct m as [r | e''] eqn:E' end;
        simpl; [discriminate | ].
      intros H. injection H as <-. apply IHl. reflexivity.
    + intros H. injection H as <-. destruct (nullish x); [discriminate E | ].
      apply (IH x). exact E.
  - destruct (lookup "toString" fields); [ | discriminate].
    intros H. injection H as <-. reflexivity.
Qed.

Lemma importe_json_kind (v : value) (e : exn) :
  importe_json v = Throw e -> kind e = TypeError.
Proof.
  unfold importe_json, parseFloat. destruct (ToString v) as [s | e'] eqn:E; simpl; [discriminate | ].
  intros H. injection H as <-. exact (ToString_kind _ _ E).
Qed.

Lemma call_toLowerCase_kind (v : value) (e : exn) :
  call_toLowerCase v = Throw e -> kind e = TypeError.
Proof. destruct v; simpl; intros H; try discriminate H; injection H as <-; reflexivity. Qed.

Lemma estado_json_kind (v : value) (e : exn) :
  estado_json v = Throw e -> kind e = TypeError.
Proof.
  unfold estado_json. destruct (call_toLowerCase v) as [s | e'] eqn:E; simpl; [discriminate | ].
  intros H. injection H as <-. exact (call_toLowerCase_kind _ _ E).
Qed.

(** Takes a hypothesis [e = Throw x], where [e] is a chain of binds, to the
    step that threw. *)
Ltac thrown H :=
  repeat match type of H with
         | bind ?m _ = Throw _ =>
             let a := fresh "a" in
             let E := fresh "E" in
             destruct m as [a | ?] eqn:E; simpl in H;
             [ | injection H as <- ]
         end.

Lemma pba_item_kind (i : value) (e : exn) : pba_item i = Throw e -> kind e = TypeError.
Proof.
  unfold pba_item. intros H. thrown H;
    eauto using get_kind, importe_json_kind, estado_json_kind; discriminate H.
Qed.

Lemma entrerios_item_kind (i : value) (e : exn) :
  entrerios_item i = Throw e -> kind e = TypeError.
Proof.
  unfold entrerios_item. intros H. thrown H;
    eauto using get_kind, importe_json_kind, estado_json_kind; discriminate H.
Qed.

Lemma misiones_item_kind (i : value) (e : exn) :
  misiones_item i = Throw e -> kind e = TypeError.
Proof.
  unfold misiones_item. intros H. thrown H;
    eauto using get_kind, importe_json_kind, estado_json_kind; discriminate H.
Qed.

Lemma map_items_kind (method : string) (f : value -> result infraccion) (v : value) (e : exn) :
  (forall i e', f i = Throw e' -> kind e' = TypeError) ->
  map_items method f v = Throw e -> kind e = TypeError.
Proof.
  intros Hf H. destruct v; simpl in H; try (injection H as <-; reflexivity).
  destruct (mapM_Throw _ _ _ H) as (a & _ & Ha). exact (Hf _ _ Ha).
Qed.

Lemma map_items_Ok (method : string) (f : value -> result infraccion) (v : value)
    (l : list infraccion) :
  map_items method f v = Ok l ->
  exists items, v = VArr items /\ Forall2 (fun i r => f i = Ok r) items l.
Proof.
  destruct v; simpl; try discriminate. intros H. eexists. split; [reflexivity | ].
  apply mapM_Forall2. exact H.
Qed.

(** ** fetchPBA *)

(** X1 (fetchPBA).  The adapter returns one record for each item of
    [data.infracciones], in the order of the list, and only when the body has
    no truthy [error]; it throws its own error exactly on that flag, and
    whatever else it throws is a TypeError of the engine; one [null] item in
    the list loses every record.  A body that is a bare array has no list for
    it and gives the empty result, where the fetchPBA of server.js reads the
    array as the list. *)
Theorem pba_all_or_nothing (res : response) :
  (forall l, pba_parse res = Ok l ->
     truthy (prop (data res) "error") = false
     /\ exists items, prop (data res) "infracciones" ||| VArr [] = VArr items
                      /\ Forall2 (fun i r => pba_item i = Ok r) items l)
  /\ (forall e, pba_parse res = Throw e ->
        (e = pba_error /\ truthy (prop (data res) "error") = true)
        \/ (kind e = TypeError /\ truthy (prop (data res) "error") = false))
  /\ (forall items, nullish (data res) = false ->
        truthy (prop (data res) "error") = false ->
        prop (data res) "infracciones" = VArr items ->
        In VNull items -> exists e, pba_parse res = Throw e /\ kind e = TypeError)
  /\ (forall items, data res = VArr items ->
        pba_parse res = Ok [] /\ server_pba_parse res = mapM Server.pba_item items).
Proof.
  split; [ | split; [ | split]];
    [ | | | intros items E; unfold pba_parse, server_pba_parse; rewrite E; split; reflexivity ].
  all: unfold pba_parse. 1: split.
  - destruct (get (data res) "error"); simpl in H; [ | discriminate H].
    destruct (truthy (prop (data res) "error")); [discriminate H | reflexivity].
  - destruct (get (data res) "error"); simpl in H; [ | discriminate H].
    destruct (truthy (prop (data res) "error")); [discriminate H | ].
    apply map_items_Ok in H. exact H.
  - intros e H. destruct (get (data res) "error") eqn:G; simpl in H.
    + destruct (truthy (prop (data res) "error")).
      * left. injection H as <-. split; reflexivity.
      * right. split; [ | reflexivity].
        eapply map_items_kind; [ | exact H]. exact pba_item_kind.
    + injection H as <-. right. split; [exact (get_kind _ _ _ G) | ].
      unfold get in G. destruct (data res); simpl in G; try discriminate G; reflexivity.
  - intros items N E L Hin. unfold get. rewrite N. simpl. rewrite E, L. simpl.
    destruct (mapM_fails pba_item items VNull _ Hin eq_refl) as (e' & He').
    exists e'. split; [exact He' | ].
    destruct (mapM_Throw _ _ _ He') as (a & _ & Ha). exact (pba_item_kind _ _ Ha).
Qed.

(** ** fetchEntreRios, fetchMisiones *)

(** X2 (fetchEntreRios, fetchMisiones).  The two adapters do not fail on the
    shape of the list: what they throw is a TypeError, raised on a body that
    is [null] or [undefined] or by an item of the list the adapter took from
    the body; a list that is not an array gives the empty result, and one
    that is gives a record for each item, in order.  They part on a body that
    is a bare array: fetchEntreRios reads it as the list, fetchMisiones finds
    no list in it. *)
Theorem entrerios_and_misiones_fail_only_on_null_or_on_an_item (res : response) :
  (forall e, entrerios_parse res = Throw e ->
     kind e = TypeError
     /\ (nullish (data res) = true
         \/ exists items i,
              entrerios_list (data res) = VArr items
              /\ In i items /\ entrerios_item i = Throw e))
  /\ (forall e, misiones_parse res = Throw e ->
        kind e = TypeError
        /\ (nullish (data res) = true
            \/ exists items i,
                 misiones_list (data res) = VArr items
                 /\ In i items /\ misiones_item i = Throw e))
  /\ (nullish (data res) = false ->
      (isArray (entrerios_list (data res)) = false -> entrerios_parse res = Ok [])
      /\ (isArray (misiones_list (data res)) = false -> misiones_parse res = Ok []))
  /\ (forall l, entrerios_parse res = Ok l ->
        (l = [] /\ isArray (entrerios_list (data res)) = false)
        \/ exists items, entrerios_list (data res) = VArr items
                         /\ Forall2 (fun i r => entrerios_item i = Ok r) items l)
  /\ (forall l, misiones_parse res = Ok l ->
        (l = [] /\ isArray (misiones_list (data res)) = false)
        \/ exists items, misiones_list (data res) = VArr items
                         /\ Forall2 (fun i r => misiones_item i = Ok r) items l)
  /\ (forall items, data res = VArr items ->
        entrerios_parse res = mapM entrerios_item items /\ misiones_parse res = Ok []).
Proof.
  split; [ | split; [ | split; [ | split; [ | split]]]].
  - intros e H. unfold entrerios_parse in H.
    destruct (get (data res) "infracciones") eqn:G; simpl in H.
    + destruct (entrerios_list (data res)) as [ | | | | | items | ] eqn:L; simpl in H;
        try discriminate H.
      destruct (mapM_Throw _ _ _ H) as (i & Hi & Hf). split.
      * exact (entrerios_item_kind _ _ Hf).
      * right. exists items, i. repeat split; assumption.
    + injection H as <-. split; [exact (get_kind _ _ _ G) | left].
      unfold get in G. destruct (nullish (data res)); [reflexivity | discriminate G].
  - intros e H. unfold misiones_parse in H.
    match type of H with bind ?m _ = _ => destruct m as [v | e'] eqn:S end; simpl in H.
    + destruct (misiones_list (data res)) as [ | | | | | items | ] eqn:L; simpl in H;
        try discriminate H.
      destruct (mapM_Throw _ _ _ H) as (i & Hi & Hf). split.
      * exact (misiones_item_kind _ _ Hf).
      * right. exists items, i. repeat split; assumption.
    + injection H as <-.
      destruct (truthy (misiones_datos (data res))); [discriminate S | ].
      split; [exact (get_kind _ _ _ S) | left].
      unfold get in S. destruct (nullish (data res)); [reflexivity | discriminate S].
  - intros N. split; intros A.
    + unfold entrerios_parse, get. rewrite N. cbn [bind]. rewrite A. reflexivity.
    + unfold misiones_parse, get. rewrite N.
      destruct (truthy (misiones_datos (data res))); cbn [bind]; rewrite A; reflexivity.
  - intros l H. unfold entrerios_parse in H. apply bind_Ok in H. destruct H as (_ & _ & H).
    destruct (isArray (entrerios_list (data res))) eqn:A; cbn [negb] in H.
    + right. apply map_items_Ok in H. exact H.
    + left. apply Ok_inj in H. split; [symmetry; exact H | reflexivity].
  - intros l H. unfold misiones_parse in H. apply bind_Ok in H. destruct H as (_ & _ & H).
    destruct (isArray (misiones_list (data res))) eqn:A; cbn [negb] in H.
    + right. apply map_items_Ok in H. exact H.
    + left. apply Ok_inj in H. split; [symmetry; exact H | reflexivity].
  - intros items E. unfold entrerios_parse, misiones_parse. rewrite E. split; reflexivity.
Qed.

Lemma entrerios_and_misiones_fail_only_on_null_or_on_an_item_witness :
  entrerios_parse (json_response 200 VNull)
  = Throw (Exn TypeError "Cannot read properties of null (reading 'infracciones')")
  /\ kind (Exn TypeError "Cannot read properties of null (reading 'infracciones')") = TypeError
  /\ entrerios_parse (json_response 200 (VObj [ ("infracciones", VStr "ninguna") ])) = Ok []
  /\ misiones_parse (json_response 200 (VObj [ ("infracciones", VStr "ninguna") ])) = Ok [].
Proof.
  pose proof (entrerios_and_misiones_fail_only_on_null_or_on_an_item
                (json_response 200 VNull)) as (A & _).
  pose proof (entrerios_and_misiones_fail_only_on_null_or_on_an_item
                (json_response 200 (VObj [ ("infracciones", VStr "ninguna") ])))
    as (_ & _ & B & _).
  split; [reflexivity | ]. split; [exact (proj1 (A _ eq_refl)) | ].
  split; [exact (proj1 (B eq_refl) eq_refl) | exact (proj2 (B eq_refl) eq_refl)].
Defined.

(** ** fetchChaco *)

Lemma chaco_fotomulta_fields (i : value) (r : infraccion) :
  chaco_fotomulta i = Ok r -> jurisdiccion r = VStr "Chaco (Fotomulta)".
Proof. unfold chaco_fotomulta. intros H. returned H. subst r. reflexivity. Qed.

Lemma chaco_caminera_fields (i : value) (r : infraccion) :
  chaco_caminera i = Ok r -> jurisdiccion r = VStr "Chaco (Caminera)" /\ lugar r = VNull.
Proof. unfold chaco_caminera. intros H. returned H. subst r. split; reflexivity. Qed.

Lemma Forall2_right {A B} (R : A -> B -> Prop) (P : B -> Prop) (l : list A) (rs : list B) :
  (forall a b, R a b -> P b) -> Forall2 R l rs -> Forall P rs.
Proof. intros HP H. induction H; constructor; eauto. Qed.

(** X3 (fetchChaco).  The result is the records of the speed-camera list
    followed by those of the road-police list, one for each item and in the
    order of each list; the jurisdiction tells the two apart, and a record of
    the second list has no place.  A body that is missing gives the empty
    result. *)
Theorem chaco_fotomultas_then_caminera (res : response) :
  (forall l, chaco_parse res = Ok l ->
     exists fotomultas caminera fs cs,
       l = (fs ++ cs)%list
       /\ prop (data res ||| VObj []) "fotomultas" ||| VArr [] = VArr fotomultas
       /\ prop (data res ||| VObj []) "caminera" ||| VArr [] = VArr caminera
       /\ Forall2 (fun i r => chaco_fotomulta i = Ok r) fotomultas fs
       /\ Forall2 (fun i r => chaco_caminera i = Ok r) caminera cs
       /\ Forall (fun r => jurisdiccion r = VStr "Chaco (Fotomulta)") fs
       /\ Forall (fun r => jurisdiccion r = VStr "Chaco (Caminera)" /\ lugar r = VNull) cs)
  /\ (truthy (data res) = false -> chaco_parse res = Ok []).
Proof.
  split.
  - intros l H. unfold chaco_parse in H. returned H.
    apply map_items_Ok in Ha. destruct Ha as (fotomultas & Ef & Ff).
    apply map_items_Ok in Ha0. destruct Ha0 as (caminera & Ec & Fc).
    exists fotomultas, caminera, a, a0. repeat split; try assumption.
    + symmetry. assumption.
    + eapply Forall2_right; [ | exact Ff]. intros i r. apply chaco_fotomulta_fields.
    + eapply Forall2_right; [ | exact Fc]. intros i r. apply chaco_caminera_fields.
  - intros F. unfold chaco_parse, or. rewrite F. reflexivity.
Qed.

Lemma chaco_fotomultas_then_caminera_witness :
  exists r1 r2,
    chaco_parse (json_response 200
                   (VObj [ ("caminera", VArr [ multa_2 ]); ("fotomultas", VArr [ multa_1 ]) ]))
    = Ok [ r1; r2 ]
    /\ jurisdiccion r1 = VStr "Chaco (Fotomulta)"
    /\ jurisdiccion r2 = VStr "Chaco (Caminera)".
Proof.
  destruct (proj1 (chaco_fotomultas_then_caminera
                     (json_response 200
                        (VObj [ ("caminera", VArr [ multa_2 ]); ("fotomultas", VArr [ multa_1 ]) ])))
              _ eq_refl)
    as (fotomultas & caminera & fs & cs & _).
  eexists. eexists. split; [vm_compute; reflexivity | ]. split; reflexivity.
Defined.

(** ** fetchNeuquen *)

Lemma neuquen_parse_Ok (res : response) (l : list infraccion) :
  neuquen_parse res = Ok l ->
  (l = []
   /\ (status res = 404
       \/ prop (data res ||| VObj []) "error" = VStr sin_infracciones))
  \/ (status res <> 503 /\ status res <> 404 /\ status res <> 422
      /\ exists items,
           prop (data res ||| VObj []) "data" = VArr items
           /\ Forall2 (fun i r => neuquen_item i = Ok r) items l).
Proof.
  unfold neuquen_parse. intros H.
  destruct (status res =? 503) eqn:S503; [discriminate H | ].
  destruct (status res =? 404) eqn:S404; simpl in H.
  { left. apply Ok_inj in H. split; [symmetry; exact H | left; lia]. }
  destruct (is_string sin_infracciones (prop (data res ||| VObj []) "error")) eqn:Es.
  { left. apply Ok_inj in H. split; [symmetry; exact H | right].
    destruct (prop (data res ||| VObj []) "error"); simpl in Es; try discriminate Es.
    apply String.eqb_eq in Es. subst. reflexivity. }
  destruct (status res =? 422) eqn:S422; [discriminate H | ].
  destruct (negb (truthy (prop (data res ||| VObj []) "data"))
            || negb (isArray (prop (data res ||| VObj []) "data"))); [discriminate H | ].
  apply map_items_Ok in H. right. repeat split; try lia. exact H.
Qed.

(** X4 (fetchNeuquen).  A status 503 is reported as maintenance whatever the
    body holds.  When the adapter returns, either the status is 404 or the
    body carries the sentence that says there is no infraction, and the result
    is empty, or the status is none of 503, 404 and 422, [data] is an array
    and the result has one record for each of its items, in order. *)
Theorem neuquen_reads_the_status_before_the_body (res : response) :
  (status res = 503 -> neuquen_parse res = Throw neuquen_mantenimiento)
  /\ (forall l, neuquen_parse res = Ok l ->
        (l = []
         /\ (status res = 404
             \/ prop (data res ||| VObj []) "error" = VStr sin_infracciones))
        \/ (status res <> 503 /\ status res <> 404 /\ status res <> 422
            /\ exists items,
                 prop (data res ||| VObj []) "data" = VArr items
                 /\ Forall2 (fun i r => neuquen_item i = Ok r) items l)).
Proof.
  split.
  - unfold neuquen_parse. intros ->. reflexivity.
  - exact (neuquen_parse_Ok res).
Qed.

Lemma neuquen_reads_the_status_before_the_body_witness :
  neuquen_parse (json_response 503 (VObj [ ("data", VArr [ multa_1 ]) ]))
  = Throw neuquen_mantenimiento
  /\ exists l, neuquen_parse (json_response 200 (VObj [ ("data", VArr [ multa_1 ]) ])) = Ok l
               /\ List.length l = 1%nat.
Proof.
  split.
  - exact (proj1 (neuquen_reads_the_status_before_the_body
                    (json_response 503 (VObj [ ("data", VArr [ multa_1 ]) ]))) eq_refl).
  - eexists. split; [vm_compute; reflexivity | reflexivity].
Defined.

(** ** fetchSalta *)

Lemma or_array_not_empty (a : value) (items : list value) :
  a ||| VArr [] = VArr items -> items <> [] -> a = VArr items.
Proof.
  unfold or. destruct (truthy a); intros H N; [exact H | ].
  injection H as <-. contradiction.
Qed.

(** X5 (fetchSalta).  A status 404 gives the empty result whatever the body
    holds, and so does a message that says the vehicle has no fines, also
    under the status 400, which otherwise is an error.  Records are returned
    only under another status, from a [multas] that is an array, one for each
    item and in order. *)
Theorem salta_sentence_wins_over_the_status
    (toISOString : value -> result string) (res : response) :
  (status res = 404 -> salta_parse toISOString res = Ok [])
  /\ (forall m, truthy (data res) = true ->
        ToString (prop (data res) "message" ||| VStr "") = Ok m ->
        no_posee_multas m = true ->
        salta_parse toISOString res = Ok [])
  /\ (forall m, status res = 400 ->
        ToString (prop (data res) "message" ||| VStr "") = Ok m ->
        no_posee_multas m = false ->
        exists m', salta_parse toISOString res = Throw (Exn Error ("Salta: " ++ m')))
  /\ (forall l, salta_parse toISOString res = Ok l -> l <> [] ->
        status res <> 404 /\ status res <> 400
        /\ exists items, prop (data res) "multas" = VArr items
                         /\ Forall2 (fun i r => salta_item toISOString i = Ok r) items l).
Proof.
  unfold salta_parse. repeat split.
  - intros ->. reflexivity.
  - intros m T M F. destruct (status res =? 404); [reflexivity | ].
    rewrite T, M. simpl. rewrite F. reflexivity.
  - intros m S M F. rewrite S. simpl.
    destruct (truthy (data res)); simpl.
    + rewrite M. simpl. rewrite F.
      destruct (ToString (prop (data res) "message" ||| VStr "Dominio inválido.")) as [m' | e] eqn:E.
      * exists m'. reflexivity.
      * exfalso. revert M E. unfold or.
        destruct (truthy (prop (data res) "message")); simpl; congruence.
    + destruct (ToString (prop (data res) "message" ||| VStr "Dominio inválido.")) as [m' | e] eqn:E.
      * exists m'. reflexivity.
      * exfalso. revert M E. unfold or.
        destruct (truthy (prop (data res) "message")); simpl; congruence.
  - destruct (status res =? 404) eqn:S; [ | lia].
    apply Ok_inj in H. congruence.
  - destruct (status res =? 404) eqn:S; [apply Ok_inj in H; congruence | ].
    apply bind_Ok in H. destruct H as (frase & _ & H).
    destruct frase; [apply Ok_inj in H; congruence | ].
    destruct (status res =? 400) eqn:S'; [ | lia].
    destruct (ToString (prop (data res) "message" ||| VStr "Dominio inválido."));
      discriminate H.
  - destruct (status res =? 404) eqn:S; [apply Ok_inj in H; congruence | ].
    apply bind_Ok in H. destruct H as (frase & _ & H).
    destruct frase; [apply Ok_inj in H; congruence | ].
    destruct (status res =? 400) eqn:S'.
    { destruct (ToString (prop (data res) "message" ||| VStr "Dominio inválido."));
        discriminate H. }
    destruct (negb (isArray (prop (data res) "multas" ||| VArr []))) eqn:A.
    { apply Ok_inj in H. congruence. }
    apply map_items_Ok in H. destruct H as (items & E & F).
    exists items. split; [ | exact F].
    apply or_array_not_empty; [exact E | ].
    intros ->. inversion F. congruence.
Qed.

Lemma salta_sentence_wins_over_the_status_witness :
  status salta_sin_multas = 400 /\ salta_parse un_dia salta_sin_multas = Ok [].
Proof.
  split; [reflexivity | ].
  apply (proj1 (proj2 (salta_sentence_wins_over_the_status un_dia salta_sin_multas))
           "El dominio NO POSÉE multas pendientes");
    reflexivity.
Defined.

(** ** fetchCordoba *)

Lemma flatM_In {A B} (f : A -> result (list B)) (l : list A) (rs : list B) (b : B) :
  flatM f l = Ok rs -> In b rs -> exists a bs, In a l /\ f a = Ok bs /\ In b bs.
Proof.
  revert rs. induction l as [| a l IH]; intros rs H Hin; simpl in H.
  - apply Ok_inj in H. subst rs. destruct Hin.
  - returned H. subst rs. apply in_app_or in Hin. destruct Hin as [Hin | Hin].
    + exists a, a0. split; [left; reflexivity | split; assumption].
    + destruct (IH _ Ha0 Hin) as (a' & bs & Ha' & Hf & Hb).
      exists a', bs. split; [right; exact Ha' | split; assumption].
Qed.

Lemma prop_nullish (v : value) (k : string) : nullish v = true -> prop v k = VUndefined.
Proof. destruct v; simpl; intros H; try discriminate H; reflexivity. Qed.

Lemma is_string_eq (t : string) (v : value) : is_string t v = true <-> v = VStr t.
Proof.
  destruct v; simpl; split; intros H; try discriminate H.
  - apply String.eqb_eq in H. subst. reflexivity.
  - injection H as ->. apply String.eqb_refl.
Qed.

Lemma cordoba_obligacion_fields (titular : string) (objeto ob : value) (r : infraccion) :
  cordoba_obligacion titular objeto ob = Ok r ->
  lugar r = VNull
  /\ acta r = prop objeto "referencia1" ||| VNull
  /\ exists t, jurisdiccion r = VStr ("Córdoba Caminera" ++ t).
Proof.
  unfold cordoba_obligacion. intros H. returned H. subst r. simpl.
  split; [reflexivity | ]. split; [reflexivity | ].
  destruct (titular =? "")%string.
  - exists "". reflexivity.
  - eexists. reflexivity.
Qed.

Lemma cordoba_success (res : response) :
  (if nullish (prop (data res) "status") then VUndefined
   else prop (prop (data res) "status") "success")
  = prop (prop (data res) "status") "success".
Proof.
  destruct (nullish (prop (data res) "status")) eqn:N; [ | reflexivity].
  symmetry. apply prop_nullish. exact N.
Qed.

Lemma cordoba_parse_In (res : response) (l : list infraccion) (r : infraccion) :
  cordoba_parse res = Ok l -> In r l ->
  exists contribuyentes contribuyente objetos objeto titular ob,
    iterate (prop (prop (data res) "data") "contribuyentes" ||| VArr [])
    = Ok contribuyentes
    /\ In contribuyente contribuyentes
    /\ cordoba_titular contribuyente = Ok titular
    /\ iterate (prop contribuyente "objetos" ||| VArr []) = Ok objetos
    /\ In objeto objetos
    /\ cordoba_obligacion titular objeto ob = Ok r.
Proof.
  unfold cordoba_parse. rewrite cordoba_success. intros H Hin.
  destruct (negb (truthy (data res))
            || negb (is_string "TRUE" (prop (prop (data res) "status") "success")));
    [discriminate H | ].
  destruct (negb (truthy (prop (data res) "data"))).
  { apply Ok_inj in H. subst l. destruct Hin. }
  apply bind_Ok in H. destruct H as (contribuyentes & Hc & H).
  destruct (flatM_In _ _ _ _ H Hin) as (contribuyente & rs & Hc' & Hf & Hr).
  unfold cordoba_contribuyente in Hf.
  apply bind_Ok in Hf. destruct Hf as (titular & Ht & Hf).
  apply bind_Ok in Hf. destruct Hf as (objetos & Ho & Hf).
  destruct (flatM_In _ _ _ _ Hf Hr) as (objeto & rs' & Ho' & Hf' & Hr').
  unfold cordoba_objeto in Hf'.
  apply bind_Ok in Hf'. destruct Hf' as (_ & _ & Hf').
  apply bind_Ok in Hf'. destruct Hf' as (obligaciones & _ & Hf').
  destruct (mapM_In _ _ _ _ Hf' Hr') as (ob & _ & Hob).
  exists contribuyentes, contribuyente, objetos, objeto, titular, ob.
  repeat (split; [assumption | ]). exact Hob.
Qed.

(** X6 (fetchCordoba).  The adapter goes on only when [status.success] is
    the string TRUE, and throws its error otherwise, also on a boolean true;
    with no [data] the result is empty.  Every record it returns is an
    obligation of an object of a taxpayer of the answer: it has no place, its
    number is the first reference of the object, and its jurisdiction starts
    with the name of the source. *)
Theorem cordoba_goes_on_only_on_success_TRUE (res : response) :
  (prop (prop (data res) "status") "success" <> VStr "TRUE" ->
   cordoba_parse res = Throw cordoba_error)
  /\ (prop (prop (data res) "status") "success" = VStr "TRUE" ->
      truthy (prop (data res) "data") = false -> cordoba_parse res = Ok [])
  /\ (forall l, cordoba_parse res = Ok l ->
        prop (prop (data res) "status") "success" = VStr "TRUE"
        /\ forall r, In r l ->
             exists contribuyentes contribuyente objetos objeto titular ob,
               iterate (prop (prop (data res) "data") "contribuyentes" ||| VArr [])
               = Ok contribuyentes
               /\ In contribuyente contribuyentes
               /\ cordoba_titular contribuyente = Ok titular
               /\ iterate (prop contribuyente "objetos" ||| VArr []) = Ok objetos
               /\ In objeto objetos
               /\ cordoba_obligacion titular objeto ob = Ok r
               /\ lugar r = VNull
               /\ acta r = prop objeto "referencia1" ||| VNull
               /\ exists t, jurisdiccion r = VStr ("Córdoba Caminera" ++ t)).
Proof.
  split; [ | split].
  - unfold cordoba_parse. rewrite cordoba_success.
    intros N. destruct (is_string "TRUE" (prop (prop (data res) "status") "success")) eqn:E.
    + apply is_string_eq in E. contradiction.
    + rewrite orb_true_r. reflexivity.
  - unfold cordoba_parse. rewrite cordoba_success.
    intros E F. assert (T : truthy (data res) = true).
    { destruct (data res); simpl in E; try discriminate E. reflexivity. }
    rewrite T. apply is_string_eq in E. rewrite E, F. reflexivity.
  - intros l H. split.
    + unfold cordoba_parse in H. rewrite cordoba_success in H.
      destruct (negb (truthy (data res))
                || negb (is_string "TRUE" (prop (prop (data res) "status") "success"))) eqn:G;
        [discriminate H | ].
      apply orb_false_elim in G. destruct G as (_ & G). apply negb_false_iff in G.
      apply is_string_eq in G. exact G.
    + intros r Hin.
      destruct (cordoba_parse_In res l r H Hin)
        as (cs & c & os & o & titular & ob & H1 & H2 & H3 & H4 & H5 & Hob).
      exists cs, c, os, o, titular, ob.
      repeat (split; [assumption | ]).
      exact (cordoba_obligacion_fields _ _ _ _ Hob).
Qed.

Lemma cordoba_goes_on_only_on_success_TRUE_witness :
  cordoba_parse (json_response 200 (VObj [ ("status", VObj [ ("success", VBool true) ]) ]))
  = Throw cordoba_error
  /\ exists r1 r2, cordoba_parse (json_response 200 cordoba_dos) = Ok [ r1; r2 ]
                   /\ jurisdiccion r1 = VStr "Córdoba Caminera · ANA PAZ"
                   /\ estado r2 = "pagada".
Proof.
  split.
  - apply (proj1 (cordoba_goes_on_only_on_success_TRUE
                    (json_response 200 (VObj [ ("status", VObj [ ("success", VBool true) ]) ])))).
    discriminate.
  - eexists. eexists. split; [vm_compute; reflexivity | split; reflexivity].
Defined.

(** ** The route: the identifier *)

Lemma plate_char_upper (c : ascii) (r : string) :
  plate_char c = true ->
  ws_head (String c r) = 0%nat
  /\ toUpperCase (String c r) = String c (toUpperCase r)
  /\ toLowerCase (String c r) = String (lower c) (toLowerCase r).
Proof.
  destruct c as [[] [] [] [] [] [] [] []]; intros H; try discriminate H;
    repeat split; reflexivity.
Qed.

Lemma plate_char_lower (c : ascii) (r : string) :
  plate_char c = true ->
  ws_head (String (lower c) r) = 0%nat
  /\ toUpperCase (String (lower c) r) = String c (toUpperCase r).
Proof.
  destruct c as [[] [] [] [] [] [] [] []]; intros H; try discriminate H;
    repeat split; reflexivity.
Qed.

Lemma toUpperCase_plate (d : string) :
  forallb_string plate_char d = true ->
  toUpperCase d = d /\ toUpperCase (toLowerCase d) = d.
Proof.
  induction d as [| c d IH]; [split; reflexivity | ].
  cbn [forallb_string]. intros H. apply andb_true_iff in H. destruct H as (Hc & Hd).
  destruct (IH Hd) as (IH1 & IH2).
  destruct (plate_char_upper c d Hc) as (_ & U & L).
  destruct (plate_char_lower c (toLowerCase d) Hc) as (_ & U').
  rewrite U, L, U', IH1, IH2. split; reflexivity.
Qed.

Lemma strip_ws_fuel_plate (d : string) :
  forallb_string plate_char d = true ->
  forall fuel, (String.length d <= fuel)%nat ->
    strip_ws_fuel fuel d = d /\ strip_ws_fuel fuel (toLowerCase d) = toLowerCase d.
Proof.
  induction d as [| c d IH]; intros H fuel Hf.
  - destruct fuel; split; reflexivity.
  - cbn [forallb_string] in H. apply andb_true_iff in H. destruct H as (Hc & Hd).
    destruct fuel as [| fuel]; [simpl in Hf; lia | ].
    simpl in Hf. destruct (IH Hd fuel ltac:(lia)) as (IH1 & IH2).
    destruct (plate_char_upper c d Hc) as (W & _ & L).
    destruct (plate_char_lower c (toLowerCase d) Hc) as (W' & _).
    rewrite L. cbn [strip_ws_fuel]. rewrite W, W', IH1, IH2. split; reflexivity.
Qed.

Lemma toLowerCase_length_plate (d : string) :
  forallb_string plate_char d = true -> String.length (toLowerCase d) = String.length d.
Proof.
  induction d as [| c d IH]; [reflexivity | ].
  cbn [forallb_string]. intros H. apply andb_true_iff in H. destruct H as (Hc & Hd).
  destruct (plate_char_upper c d Hc) as (_ & _ & L). rewrite L. simpl. rewrite (IH Hd).
  reflexivity.
Qed.

(** A space inside a plate: it is removed, wherever it is. *)
Lemma strip_ws_fuel_space (a b : string) :
  forallb_string plate_char a = true -> forallb_string plate_char b = true ->
  forall fuel, (String.length (a ++ " " ++ b) <= fuel)%nat ->
    strip_ws_fuel fuel (a ++ " " ++ b) = a ++ b.
Proof.
  induction a as [| c a IH]; intros Ha Hb fuel Hf.
  - destruct fuel as [| fuel]; [simpl in Hf; lia | ].
    change ("" ++ " " ++ b) with (String " " b). cbn [strip_ws_fuel].
    change (ws_head (String " " b)) with 1%nat. cbn [drop].
    simpl in Hf. apply (strip_ws_fuel_plate b Hb fuel). lia.
  - cbn [forallb_string] in Ha. apply andb_true_iff in Ha. destruct Ha as (Hc & Ha).
    destruct fuel as [| fuel]; [simpl in Hf; lia | ].
    change (String c a ++ " " ++ b) with (String c (a ++ " " ++ b)).
    cbn [strip_ws_fuel].
    destruct (plate_char_upper c (a ++ " " ++ b) Hc) as (W & _). rewrite W.
    rewrite (IH Ha Hb fuel); [reflexivity | ]. simpl in Hf |- *. lia.
Qed.

Lemma forallb_string_app (p : ascii -> bool) (a b : string) :
  forallb_string p (a ++ b) = forallb_string p a && forallb_string p b.
Proof.
  induction a as [| c a IH]; [reflexivity | ]. simpl. rewrite IH, andb_assoc. reflexivity.
Qed.

Lemma formato_plate_chars (d : string) :
  formato_antiguo d || formato_mercosur d = true ->
  forallb_string plate_char d = true /\ d <> "".
Proof.
  unfold plate_char.
  destruct d as [| a [| b [| c [| d' [| e [| f [| g [| h r]]]]]]]];
    try (intros H; discriminate H);
    cbn [formato_antiguo formato_mercosur forallb_string orb]; intros H;
    (split; [ | discriminate]).
  - rewrite orb_false_r in H.
    do 5 (apply andb_true_iff in H; destruct H as (H & ?)).
    repeat match goal with E : _ = true |- _ => rewrite E; clear E end.
    rewrite ?orb_true_r. reflexivity.
  - do 6 (apply andb_true_iff in H; destruct H as (H & ?)).
    repeat match goal with E : _ = true |- _ => rewrite E; clear E end.
    rewrite ?orb_true_r. reflexivity.
Qed.

Lemma clean_of_plate (d : string) :
  forallb_string plate_char d = true ->
  clean_of d = d /\ clean_of (toLowerCase d) = d.
Proof.
  intros H. unfold clean_of, strip_ws.
  destruct (strip_ws_fuel_plate d H (String.length d) (le_n _)) as (S1 & _).
  destruct (strip_ws_fuel_plate d H (String.length (toLowerCase d))) as (_ & S2).
  { rewrite (toLowerCase_length_plate d H). apply le_n. }
  destruct (toUpperCase_plate d H) as (U1 & U2).
  rewrite S1, S2, U1, U2. split; reflexivity.
Qed.

Lemma clean_of_space (a b : string) :
  forallb_string plate_char (a ++ b) = true -> clean_of (a ++ " " ++ b) = a ++ b.
Proof.
  intros H. pose proof H as H'. rewrite forallb_string_app in H'.
  apply andb_true_iff in H'. destruct H' as (Ha & Hb).
  unfold clean_of, strip_ws.
  rewrite (strip_ws_fuel_space a b Ha Hb _ (le_n _)).
  apply (toUpperCase_plate (a ++ b) H).
Qed.

(** X7 (the route, both files).  A plate in one of the two layouts reaches
    the adapter as it is: the handler of either file is then the dispatch on
    that plate.  Written in lower case, or with a space anywhere in it, it is
    cleaned to the same upper case identifier, and the handler of either file
    answers as it does for the plate itself. *)
Theorem a_plate_in_lower_case_or_with_a_space_is_the_same_query
    (run : adapter -> string -> M (list infraccion))
    (run' : Server.adapter -> string -> M (list infraccion))
    (d : string) (fuente : value) :
  formato_antiguo d || formato_mercosur d = true ->
  clean_of d = d
  /\ clean_of (toLowerCase d) = d
  /\ (forall a b, d = a ++ b -> clean_of (a ++ " " ++ b) = d)
  /\ multas run (VStr d) fuente = dispatch run (fuente_or_default fuente) d
  /\ Server.multas run' (VStr d) fuente = Server.dispatch run' (fuente_or_default fuente) d
  /\ multas run (VStr (toLowerCase d)) fuente = multas run (VStr d) fuente
  /\ Server.multas run' (VStr (toLowerCase d)) fuente = Server.multas run' (VStr d) fuente
  /\ (forall a b, d = a ++ b ->
        multas run (VStr (a ++ " " ++ b)) fuente = multas run (VStr d) fuente
        /\ Server.multas run' (VStr (a ++ " " ++ b)) fuente
           = Server.multas run' (VStr d) fuente).
Proof.
  intros V. destruct (formato_plate_chars d V) as (P & N).
  destruct (clean_of_plate d P) as (C1 & C2).
  assert (E : (d =? "")%string = false) by (apply String.eqb_neq; exact N).
  assert (E' : (toLowerCase d =? "")%string = false).
  { apply String.eqb_neq. intros Z. apply N.
    destruct d as [| c d]; [reflexivity | ].
    cbn [forallb_string] in P. apply andb_true_iff in P. destruct P as (Pc & _).
    destruct (plate_char_upper c d Pc) as (_ & _ & L). rewrite L in Z. discriminate Z. }
  assert (B : negb (formato_antiguo d) && negb (formato_mercosur d) = false).
  { destruct (formato_antiguo d), (formato_mercosur d); try reflexivity; discriminate V. }
  assert (S : forall a b, d = a ++ b ->
              clean_of (a ++ " " ++ b) = d /\ (a ++ " " ++ b =? "")%string = false).
  { intros a b ->. split; [apply clean_of_space; exact P | ].
    destruct a; reflexivity. }
  assert (M : multas run (VStr d) fuente = dispatch run (fuente_or_default fuente) d).
  { unfold multas. cbn [truthy]. rewrite E, C1, B. reflexivity. }
  assert (M' : Server.multas run' (VStr d) fuente
               = Server.dispatch run' (fuente_or_default fuente) d).
  { unfold Server.multas. cbn [truthy]. rewrite E, C1, B. reflexivity. }
  split; [exact C1 | ]. split; [exact C2 | ].
  split; [intros a b H; exact (proj1 (S a b H)) | ].
  split; [exact M | ]. split; [exact M' | ].
  split; [rewrite M; unfold multas; cbn [truthy]; rewrite E', C2, B; reflexivity | ].
  split; [rewrite M'; unfold Server.multas; cbn [truthy]; rewrite E', C2, B; reflexivity | ].
  intros a b H. destruct (S a b H) as (Cs & Es). split.
  - rewrite M. unfold multas. cbn [truthy]. rewrite Es, Cs, B. reflexivity.
  - rewrite M'. unfold Server.multas. cbn [truthy]. rewrite Es, Cs, B. reflexivity.
Qed.

Lemma a_plate_in_lower_case_or_with_a_space_is_the_same_query_witness :
  clean_of "ab123cd" = "AB123CD"
  /\ clean_of "AB 123CD" = "AB123CD"
  /\ multas eco (VStr "ab123cd") (VStr "pba") sin_red []
     = (Ok (Reply 200 (Infracciones "AB123CD" (VStr "pba") [ ansv_row [ "AB123CD"; ""; "" ] ])),
        [])
  /\ Server.multas eco (VStr "AB 123CD") (VStr "pba") sin_red []
     = (Ok (Reply 200 (Infracciones "AB123CD" (VStr "pba") [ ansv_row [ "AB123CD"; ""; "" ] ])),
        []).
Proof.
  destruct (a_plate_in_lower_case_or_with_a_space_is_the_same_query
              eco eco "AB123CD" (VStr "pba") eq_refl)
    as (_ & C & Sp & D & D' & M & _ & R).
  split; [exact C | ]. split; [exact (Sp "AB" "123CD" eq_refl) | ].
  split.
  - change "ab123cd" with (toLowerCase "AB123CD"). rewrite M, D. reflexivity.
  - change "AB 123CD" with ("AB" ++ " " ++ "123CD").
    rewrite (proj2 (R "AB" "123CD" eq_refl)), D'. reflexivity.
Defined.

Lemma clean_of_empty : clean_of "" = "".
Proof. reflexivity. Qed.

(** X8 (the route, both files).  On a plate given once or not at all, and a
    source that converts to a string, the handler of either file always
    answers, with the status 200, 400 or 502.  It answers 400 exactly when the
    plate is missing or empty or, once cleaned, is in neither layout; it has
    then called no adapter and made no request, whatever the adapters are.  On
    a plate that is neither a string nor falsy, as express gives it for a key
    that is repeated, the handler does not answer: cleaning it throws a
    TypeError before the [try], with no adapter called and no request made. *)
Theorem the_route_answers_400_exactly_on_a_bad_plate
    (run : adapter -> string -> M (list infraccion))
    (run' : Server.adapter -> string -> M (list infraccion))
    (dominio fuente : value) (f : string) (net : network) (log : list request) :
  ToString (fuente_or_default fuente) = Ok f ->
  let bad :=
    truthy dominio = false
    \/ exists d, dominio = VStr d
                 /\ formato_antiguo (clean_of d) || formato_mercosur (clean_of d) = false in
  ((truthy dominio = false \/ exists d, dominio = VStr d) ->
   (exists rep log',
      multas run dominio fuente net log = (Ok rep, log')
      /\ (Backend.code rep = 400 <-> bad)
      /\ (Backend.code rep = 400 ->
          log' = log /\ forall run2, multas run2 dominio fuente net log = (Ok rep, log))
      /\ (Backend.code rep = 200 \/ Backend.code rep = 400 \/ Backend.code rep = 502))
   /\ (exists rep log',
         Server.multas run' dominio fuente net log = (Ok rep, log')
         /\ (Backend.code rep = 400 <-> bad)
         /\ (Backend.code rep = 400 ->
             log' = log
             /\ forall run2, Server.multas run2 dominio fuente net log = (Ok rep, log))
         /\ (Backend.code rep = 200 \/ Backend.code rep = 400 \/ Backend.code rep = 502)))
  /\ (truthy dominio = true -> (forall d, dominio <> VStr d) ->
      multas run dominio fuente net log = (Throw (not_a_function "dominio.replace"), log)
      /\ Server.multas run' dominio fuente net log
         = (Throw (not_a_function "dominio.replace"), log)
      /\ kind (not_a_function "dominio.replace") = TypeError).
Proof.
  intros F. cbv zeta. split.
  - intros S.
    unfold multas, Server.multas, dispatch, Server.dispatch, envelope, ret. rewrite F.
    cbn [bind].
    destruct (truthy dominio) eqn:T; cbn [negb].
    2: { split; eexists; eexists; (split; [reflexivity | ]); simpl;
         (split; [split; [intros _; left; reflexivity | reflexivity] | ]);
         (split; [ | tauto]); intros _; (split; [reflexivity | ]);
         intros run2; reflexivity. }
    destruct S as [S | (d & ->)]; [discriminate S | ].
    destruct (formato_antiguo (clean_of d) || formato_mercosur (clean_of d)) eqn:V.
    + assert (B : negb (formato_antiguo (clean_of d)) && negb (formato_mercosur (clean_of d))
                  = false).
      { destruct (formato_antiguo (clean_of d)), (formato_mercosur (clean_of d));
          try reflexivity; discriminate V. }
      rewrite B.
      assert (NB : ~ (true = false
                      \/ exists d0, VStr d = VStr d0
                                    /\ formato_antiguo (clean_of d0)
                                       || formato_mercosur (clean_of d0) = false)).
      { intros [K | (d0 & K & K')]; [discriminate K | ].
        injection K as <-. rewrite V in K'. discriminate K'. }
      split.
      * destruct (run _ (clean_of d) net log) as [[l | e] log'];
          eexists; eexists; (split; [reflexivity | ]); simpl;
          (split; [split; [intros; discriminate | intros K; destruct (NB K)] | ]);
          (split; [intros; discriminate | ]); auto.
      * destruct (run' _ (clean_of d) net log) as [[l | e] log'];
          eexists; eexists; (split; [reflexivity | ]); simpl;
          (split; [split; [intros; discriminate | intros K; destruct (NB K)] | ]);
          (split; [intros; discriminate | ]); auto.
    + assert (B : negb (formato_antiguo (clean_of d)) && negb (formato_mercosur (clean_of d))
                  = true).
      { destruct (formato_antiguo (clean_of d)), (formato_mercosur (clean_of d));
          try reflexivity; discriminate V. }
      rewrite B.
      split; eexists; eexists; (split; [reflexivity | ]); simpl;
        (split; [split; [intros _; right; exists d; split; [reflexivity | exact V]
                        | reflexivity] | ]);
        (split; [ | tauto]); intros _; (split; [reflexivity | ]);
        intros run2; reflexivity.
  - intros T N. unfold multas, Server.multas, throw. rewrite T. cbn [negb].
    destruct dominio; try (repeat split; reflexivity).
    exfalso. exact (N s eq_refl).
Qed.

(** The theorem at a plate that is missing, at one that is too short, and at
    one given twice. *)
Lemma the_route_answers_400_exactly_on_a_bad_plate_witness :
  (exists rep, multas eco VUndefined VUndefined sin_red [] = (Ok rep, [])
               /\ Backend.code rep = 400)
  /\ (exists rep, Server.multas eco (VStr "AB12") (VStr "pba") sin_red [] = (Ok rep, [])
                  /\ Backend.code rep = 400)
  /\ multas eco (VArr [ VStr "ABC123"; VStr "AB123CD" ]) VUndefined sin_red []
     = (Throw (not_a_function "dominio.replace"), []).
Proof.
  pose proof (the_route_answers_400_exactly_on_a_bad_plate eco eco
                (VArr [ VStr "ABC123"; VStr "AB123CD" ]) VUndefined "ansv" sin_red [] eq_refl)
    as H.
  cbv zeta in H. destruct H as (_ & H).
  split; [eexists; split; [vm_compute; reflexivity | reflexivity] | ].
  split; [eexists; split; [vm_compute; reflexivity | reflexivity] | ].
  apply H; [reflexivity | intros d; discriminate].
Defined.

(** ** gxEncrypt: the hexadecimal text *)

Lemma hex_digit_hex_char (n : N) : (n < 16)%N -> hex_digit (hex_char n) = Some n.
Proof.
  intros H. destruct n as [| p]; [reflexivity | ].
  do 4 (destruct p as [p | p | ]; try reflexivity; try lia).
Qed.

Lemma from_hex_to_hex (l : list N) : Forall byte l -> from_hex (to_hex l) = l.
Proof.
  unfold byte. induction 1 as [| b l Hb _ IH]; [reflexivity | ].
  cbn [to_hex from_hex].
  rewrite (hex_digit_hex_char (b / 16)), (hex_digit_hex_char (b mod 16)), IH.
  - f_equal. pose proof (N.div_mod b 16 ltac:(discriminate)). lia.
  - apply N.mod_lt. discriminate.
  - apply N.Div0.div_lt_upper_bound. exact Hb.
Qed.

Lemma Forall_flat_map {A B} (P : B -> Prop) (f : A -> list B) (l : list A) :
  (forall a, Forall P (f a)) -> Forall P (flat_map f l).
Proof.
  intros H. induction l as [| a l IH]; simpl; [constructor | ].
  apply Forall_app. split; [apply H | exact IH].
Qed.

Lemma from_hex_length (s : string) :
  forallb_string is_hex s = true ->
  List.length (from_hex s) = Nat.div2 (String.length s).
Proof.
  revert s. fix IH 1. intros s H. destruct s as [| a [| b r]]; [reflexivity | reflexivity | ].
  cbn [forallb_string] in H.
  apply andb_true_iff in H. destruct H as (Ha & H).
  apply andb_true_iff in H. destruct H as (Hb & H).
  cbn [from_hex String.length Nat.div2].
  assert (X : forall c, is_hex c = true -> exists n, hex_digit c = Some n).
  { intros c Hc. unfold hex_digit, is_hex in *.
    destruct (is_digit c); [eexists; reflexivity | ].
    destruct (in_range 97 102 c); [eexists; reflexivity | ].
    destruct (in_range 65 70 c); [eexists; reflexivity | discriminate Hc]. }
  destruct (X a Ha) as (h & ->). destruct (X b Hb) as (l & ->).
  cbn [List.length]. rewrite (IH r H). reflexivity.
Qed.

Lemma from_hex_short (s : string) :
  (2 * List.length (from_hex s) <= String.length s)%nat.
Proof.
  revert s. fix IH 1. intros s. destruct s as [| a [| b r]]; [simpl; lia | simpl; lia | ].
  cbn [from_hex]. destruct (hex_digit a); [ | simpl; lia].
  destruct (hex_digit b); [ | simpl; lia].
  specialize (IH r). cbn [List.length String.length]. lia.
Qed.

(** X9 (gxEncrypt).  Writing bytes in hexadecimal and reading them back
    gives the bytes; so the text gxEncrypt returns decodes to the cipher text
    of the padded plain text, block by block, under the key read from the
    hexadecimal key. *)
Theorem the_cipher_text_is_read_back_from_its_hex
    (aes : list N -> list N -> list N) (plaintext hexKey out : string) :
  (forall key block, Forall byte (aes key block)) ->
  gxEncrypt aes plaintext hexKey = Ok out ->
  (forall l, Forall byte l -> from_hex (to_hex l) = l)
  /\ from_hex out = ecb aes (from_hex hexKey) (padded_of plaintext)
  /\ String.length out = (2 * List.length (ecb aes (from_hex hexKey) (padded_of plaintext)))%nat.
Proof.
  intros Haes H. split; [exact from_hex_to_hex | ].
  unfold gxEncrypt in H. destruct (List.length (from_hex hexKey) =? 16)%nat; [ | discriminate H].
  apply Ok_inj in H. subst out. split.
  - apply from_hex_to_hex. unfold ecb. apply Forall_flat_map. intros b. apply Haes.
  - apply to_hex_length.
Qed.

Lemma the_cipher_text_is_read_back_from_its_hex_witness :
  gxEncrypt suma "Hola" clave = Ok "48706e640405060708090a0b0c0d0e0f"
  /\ from_hex "48706e640405060708090a0b0c0d0e0f"
     = ecb suma (from_hex clave) (padded_of "Hola").
Proof.
  split; [reflexivity | ].
  apply (the_cipher_text_is_read_back_from_its_hex suma "Hola" clave).
  - intros key block. unfold suma. apply Forall_forall. intros x Hx.
    apply in_map_iff in Hx. destruct Hx as (p & <- & _). apply N.mod_lt. discriminate.
  - reflexivity.
Defined.

(** X10 (gxEncrypt).  The key is accepted when it is thirty-two hexadecimal
    digits, of either case; a shorter text, and a text of thirty-two
    characters one of which is no hexadecimal digit, is refused with a
    RangeError, since the decoding stops at the first pair that is not two
    digits. *)
Theorem the_key_is_thirty_two_hexadecimal_digits
    (aes : list N -> list N -> list N) (plaintext hexKey : string) :
  (String.length hexKey = 32%nat -> forallb_string is_hex hexKey = true ->
   gxEncrypt aes plaintext hexKey
   = Ok (to_hex (ecb aes (from_hex hexKey) (padded_of plaintext))))
  /\ ((String.length hexKey < 32)%nat ->
      gxEncrypt aes plaintext hexKey = Throw (Exn RangeError "Invalid key length")).
Proof.
  unfold gxEncrypt. split.
  - intros L H. rewrite (from_hex_length hexKey H), L. reflexivity.
  - intros L. pose proof (from_hex_short hexKey) as S.
    destruct (Nat.eqb_spec (List.length (from_hex hexKey)) 16) as [E | _]; [lia | reflexivity].
Qed.

Lemma the_key_is_thirty_two_hexadecimal_digits_witness :
  gxEncrypt identidad "Hola" clave = Ok "486f6c61000000000000000000000000"
  /\ gxEncrypt identidad "Hola" "00010203" = Throw (Exn RangeError "Invalid key length").
Proof.
  pose proof (the_key_is_thirty_two_hexadecimal_digits identidad "Hola" clave) as (A & _).
  pose proof (the_key_is_thirty_two_hexadecimal_digits identidad "Hola" "00010203") as (_ & B).
  split; [rewrite (A eq_refl eq_refl); reflexivity | apply B; simpl; lia].
Defined.

(** ** fetchANSV: the site key and the requests *)

Lemma span_unquoted_spec (s k rest : string) :
  span_unquoted s = (k, rest) ->
  s = k ++ rest /\ forallb_string (fun c => negb (is_char 34 c)) k = true.
Proof.
  revert k rest. induction s as [| c s IH]; intros k rest H; simpl in H.
  - injection H as <- <-. split; reflexivity.
  - destruct (is_char 34 c) eqn:Q.
    + injection H as <- <-. split; reflexivity.
    + destruct (span_unquoted s) as (k' & rest') eqn:E. injection H as <- <-.
      destruct (IH _ _ eq_refl) as (-> & F). split; [reflexivity | ].
      simpl. rewrite Q, F. reflexivity.
Qed.

Lemma drop_app (a b : string) : drop (String.length a) (a ++ b) = b.
Proof. induction a as [| c a IH]; [destruct b; reflexivity | exact IH]. Qed.

Lemma after_prefix_spec (p s rest : string) : after_prefix p s = Some rest -> s = p ++ rest.
Proof.
  unfold after_prefix. destruct (prefix p s) eqn:P; [ | discriminate].
  intros H. injection H as <-. destruct (prefix_split _ _ P) as (b & ->).
  rewrite drop_app. reflexivity.
Qed.

Lemma append_assoc (a b c : string) : (a ++ b) ++ c = a ++ b ++ c.
Proof. induction a as [| x a IH]; [reflexivity | ]. simpl. rewrite IH. reflexivity. Qed.

Lemma includes_tail (sub : string) (c : ascii) (s : string) :
  includes sub s = true -> includes sub (String c s) = true.
Proof. intros H. cbn [includes]. rewrite H. apply orb_true_r. Qed.

Lemma includes_false_tail (sub : string) (c : ascii) (s : string) :
  includes sub (String c s) = false ->
  prefix sub (String c s) = false /\ includes sub s = false.
Proof. cbn [includes]. intros H. apply orb_false_elim in H. exact H. Qed.

Lemma no_quote_not_included (k : string) :
  forallb_string (fun c => negb (is_char 34 c)) k = true -> includes dquote k = false.
Proof.
  induction k as [| c k IH]; [reflexivity | ].
  cbn [forallb_string]. intros H. apply andb_true_iff in H. destruct H as (Hc & Hk).
  cbn [includes]. rewrite (IH Hk), orb_false_r.
  unfold dquote. cbn [prefix]. destruct (ascii_dec (chr 34) c) as [<- | _]; [ | reflexivity].
  discriminate Hc.
Qed.

(** X11 (fetchANSV, the site key).  The key the adapter reads in the home
    page is the value of a data-sitekey attribute of the page: it is not
    empty, it holds no double quote, and the page holds the attribute, the
    key between double quotes.  A page without the attribute has no key. *)
Theorem the_site_key_is_read_from_the_page (html : string) :
  (forall k, siteKeyMatch html = Some k ->
     k <> "" /\ includes dquote k = false
     /\ includes ("data-sitekey=" ++ dquote ++ k ++ dquote) html = true)
  /\ (includes ("data-sitekey=" ++ dquote) html = false -> siteKeyMatch html = None).
Proof.
  split.
  - induction html as [| c html IH]; intros k H; [discriminate H | ].
    cbn [siteKeyMatch] in H.
    destruct (after_prefix ("data-sitekey=" ++ dquote) (String c html)) as [rest | ] eqn:A.
    + destruct (span_unquoted rest) as (k' & rest') eqn:S.
      destruct (negb (k' =? "")%string && prefix dquote rest') eqn:G.
      * injection H as <-. apply andb_true_iff in G. destruct G as (N & Q).
        apply negb_true_iff, String.eqb_neq in N.
        destruct (span_unquoted_spec _ _ _ S) as (-> & F).
        destruct (prefix_split _ _ Q) as (post & ->).
        apply after_prefix_spec in A. split; [exact N | ].
        split; [exact (no_quote_not_included _ F) | ].
        apply includes_spec. exists "", post. rewrite A.
        cbn [append]. rewrite !append_assoc. reflexivity.
      * destruct (IH k H) as (N & Q & I). repeat split; try assumption.
        apply includes_tail. exact I.
    + destruct (IH k H) as (N & Q & I). repeat split; try assumption.
      apply includes_tail. exact I.
  - induction html as [| c html IH]; intros H; [reflexivity | ].
    apply includes_false_tail in H. destruct H as (P & I).
    cbn [siteKeyMatch]. unfold after_prefix. rewrite P. exact (IH I).
Qed.

Lemma the_site_key_is_read_from_the_page_witness :
  siteKeyMatch ansv_home_html = Some "6Lc-site"
  /\ includes ("data-sitekey=" ++ dquote ++ "6Lc-site" ++ dquote) ansv_home_html = true.
Proof.
  split; [reflexivity | ].
  exact (proj2 (proj2 (proj1 (the_site_key_is_read_from_the_page ansv_home_html)
                         "6Lc-site" eq_refl))).
Defined.

(** X12 (fetchANSV, the requests).  When the adapter returns, it has made
    three requests and no other, in this order: the GET of the home page, the
    solving of the reCAPTCHA of the key read in that page, and the POST of the
    form, which carries the identifier, the token the solver gave and the
    hidden fields of the home page; the result is read in the response to the
    POST.  Whatever the outcome, a POST is made only after a reCAPTCHA was
    solved, and carries the identifier. *)
Theorem ansv_asks_for_the_page_the_captcha_and_the_form
    (dominio : string) (net : network) (log : list request) :
  (forall l log', fetchANSV dominio net log = (Ok l, log') ->
     exists home html siteKey solved captchaToken res,
       formato_antiguo dominio = true
       /\ net log (GET PAGE_URL) = Ok home
       /\ ToString (data home) = Ok html
       /\ siteKeyMatch html = Some siteKey
       /\ net (log ++ [GET PAGE_URL])%list (Recaptcha siteKey PAGE_URL) = Ok solved
       /\ ToString (data solved) = Ok captchaToken
       /\ let form := ansv_form (val_or_empty (find (doc home) (input_named "__VIEWSTATE")))
                        (val_or_empty (find (doc home) (input_named "__VIEWSTATEGENERATOR")))
                        (val_or_empty (find (doc home) (input_named "__EVENTVALIDATION")))
                        dominio captchaToken in
          net (log ++ [GET PAGE_URL; Recaptcha siteKey PAGE_URL])%list (POST PAGE_URL form)
          = Ok res
          /\ ansv_parse res = Ok l
          /\ log' = (log ++ [GET PAGE_URL; Recaptcha siteKey PAGE_URL; POST PAGE_URL form])%list)
  /\ (exists asked,
        snd (fetchANSV dominio net log) = (log ++ asked)%list
        /\ (List.length asked <= 3)%nat
        /\ forall url form, In (POST url form) asked ->
             field "ctl00$ContentPlaceHolder1$txDominio" form = dominio
             /\ exists siteKey solved,
                  In (Recaptcha siteKey PAGE_URL) asked
                  /\ net (log ++ [GET PAGE_URL])%list (Recaptcha siteKey PAGE_URL) = Ok solved
                  /\ ToString (data solved) = Ok (field "g-recaptcha-response" form)).
Proof.
  unfold fetchANSV, bindM, send, lift, throw. split.
  - intros l log' H.
    destruct (formato_antiguo dominio); [ | discriminate H]. cbn [negb] in H.
    destruct (net log (GET PAGE_URL)) as [home | e] eqn:N1; [ | discriminate H].
    destruct (ToString (data home)) as [html | e] eqn:T1; [ | discriminate H].
    destruct (siteKeyMatch html) as [siteKey | ] eqn:K; [ | discriminate H].
    destruct (net (log ++ [GET PAGE_URL])%list (Recaptcha siteKey PAGE_URL))
      as [solved | e] eqn:N2; [ | discriminate H].
    destruct (ToString (data solved)) as [captchaToken | e] eqn:T2; [ | discriminate H].
    rewrite log_snoc2 in H.
    match type of H with context [net _ (POST PAGE_URL ?f)] =>
      destruct (net (log ++ [GET PAGE_URL; Recaptcha siteKey PAGE_URL])%list (POST PAGE_URL f))
        as [res | e] eqn:N3; [ | discriminate H] end.
    injection H as H <-.
    exists home, html, siteKey, solved, captchaToken, res.
    repeat (split; [first [reflexivity | assumption] | ]).
    rewrite <- !app_assoc. reflexivity.
  - destruct (formato_antiguo dominio); cbn [negb].
    2: { exists []. rewrite app_nil_r. split; [reflexivity | ]. split; [simpl; lia | ].
         intros url form []. }
    destruct (net log (GET PAGE_URL)) as [home | e] eqn:N1.
    2: { exists [GET PAGE_URL]. split; [reflexivity | ]. split; [simpl; lia | ].
         intros url form [F | []]. discriminate F. }
    destruct (ToString (data home)) as [html | e] eqn:T1.
    2: { exists [GET PAGE_URL]. split; [reflexivity | ]. split; [simpl; lia | ].
         intros url form [F | []]. discriminate F. }
    destruct (siteKeyMatch html) as [siteKey | ] eqn:K.
    2: { exists [GET PAGE_URL]. split; [reflexivity | ]. split; [simpl; lia | ].
         intros url form [F | []]. discriminate F. }
    destruct (net (log ++ [GET PAGE_URL])%list (Recaptcha siteKey PAGE_URL))
      as [solved | e] eqn:N2.
    2: { exists [GET PAGE_URL; Recaptcha siteKey PAGE_URL].
         split; [simpl; rewrite <- app_assoc; reflexivity | ]. split; [simpl; lia | ].
         intros url form [F | [F | []]]; discriminate F. }
    destruct (ToString (data solved)) as [captchaToken | e] eqn:T2.
    2: { exists [GET PAGE_URL; Recaptcha siteKey PAGE_URL].
         split; [simpl; rewrite <- app_assoc; reflexivity | ]. split; [simpl; lia | ].
         intros url form [F | [F | []]]; discriminate F. }
    match goal with |- context [POST PAGE_URL ?f] =>
      exists [GET PAGE_URL; Recaptcha siteKey PAGE_URL; POST PAGE_URL f] end.
    split.
    { match goal with |- context [net ?lg (POST PAGE_URL ?f)] =>
        destruct (net lg (POST PAGE_URL f)) as [res | e] end;
        simpl; rewrite <- !app_assoc; reflexivity. }
    split; [simpl; lia | ].
    intros url form [F | [F | [F | []]]]; try discriminate F.
    injection F as <- <-. split; [reflexivity | ].
    exists siteKey, solved. split; [right; left; reflexivity | ].
    split; [exact N2 | exact T2].
Qed.

Lemma ansv_asks_for_the_page_the_captcha_and_the_form_witness :
  exists l form,
    fetchANSV "ABC123" portal_json []
    = (Ok l, [GET PAGE_URL; Recaptcha "6Lc-site" PAGE_URL; POST PAGE_URL form])
    /\ field "g-recaptcha-response" form = "03AGdBq2"
    /\ field "__VIEWSTATE" form = "vs1".
Proof.
  destruct (fetchANSV "ABC123" portal_json []) as (r & log') eqn:E.
  assert (R : exists l, r = Ok l) by (vm_compute in E; injection E as <- _; eexists; reflexivity).
  destruct R as (l & ->).
  destruct (proj1 (ansv_asks_for_the_page_the_captcha_and_the_form "ABC123" portal_json [])
              l log' E)
    as (home & html & siteKey & solved & captchaToken & res & _ & N1 & T1 & K & N2 & T2 & H).
  cbv zeta in H. destruct H as (_ & _ & L).
  injection N1 as <-. vm_compute in T1. injection T1 as <-.
  vm_compute in K. injection K as <-. injection N2 as <-.
  vm_compute in T2. injection T2 as <-.
  eexists. eexists. split; [rewrite L; reflexivity | ]. split; reflexivity.
Defined.

(** ** fetchANSV and fetchPBA: an item that cannot be read *)

Lemma forEach_push_stops (f : value -> result infraccion) (pre post : list value)
    (bad : value) (rs acc : list infraccion) (e : exn) :
  mapM f pre = Ok rs -> f bad = Throw e ->
  forEach_push f (pre ++ bad :: post) acc = (Throw e, (acc ++ rs)%list).
Proof.
  revert rs acc. induction pre as [| x pre IH]; intros rs acc H Hb; simpl in H.
  - apply Ok_inj in H. subst rs. simpl. rewrite Hb, app_nil_r. reflexivity.
  - returned H. subst rs. simpl. rewrite Ha, (IH _ _ Ha0 Hb), <- app_assoc. reflexivity.
Qed.

Lemma mapM_stops {A B} (f : A -> result B) (pre post : list A) (bad : A) (rs : list B)
    (e : exn) :
  mapM f pre = Ok rs -> f bad = Throw e -> mapM f (pre ++ bad :: post) = Throw e.
Proof.
  revert rs. induction pre as [| x pre IH]; intros rs H Hb; simpl in H.
  - simpl. rewrite Hb. reflexivity.
  - returned H. simpl. rewrite Ha, (IH _ Ha0 Hb). reflexivity.
Qed.

(** X13 (fetchANSV against fetchPBA).  In the JSON fallback of fetchANSV an
    item that cannot be read ends the reading and is forgotten: the records
    of the items before it are the result.  In fetchPBA the same list loses
    everything: the adapter throws what the item threw. *)
Theorem ansv_keeps_the_records_before_a_bad_item_and_pba_none
    (res res' : response) (t : string) (json : value) (pre post : list value) (bad : value)
    (rs rs' : list infraccion) (e e' : exn) :
  ToString (data res) = Ok t -> includes "{" t = true ->
  filter (at_least 3)
    (rows_of (doc res) "table.table-infracciones tbody tr, table tbody tr") = [] ->
  parsed res = Some json -> data res' = json ->
  nullish json = false -> truthy (prop json "error") = false ->
  prop json "infracciones" = VArr (pre ++ bad :: post) ->
  mapM ansv_item pre = Ok rs -> ansv_item bad = Throw e ->
  mapM pba_item pre = Ok rs' -> pba_item bad = Throw e' ->
  ansv_parse res = Ok rs /\ pba_parse res' = Throw e'.
Proof.
  intros T I R P D N E L Ma Ba Mp Bp. split.
  - unfold ansv_parse. rewrite T. cbn [bind]. rewrite R, I. cbn [map List.length Nat.eqb andb].
    unfold ansv_json_attempt, get. rewrite P, N, L. cbn [or truthy].
    rewrite (forEach_push_stops _ _ _ _ _ [] _ Ma Ba). reflexivity.
  - unfold pba_parse, get. rewrite D, N. cbn [bind]. rewrite E, L. cbn [or truthy map_items].
    exact (mapM_stops _ _ _ _ _ _ Mp Bp).
Qed.

Lemma ansv_keeps_the_records_before_a_bad_item_and_pba_none_witness :
  exists r, ansv_item multa_1 = Ok r
            /\ ansv_parse respuesta_con_null = Ok [ r ]
            /\ pba_parse (json_response 200 lista_con_null)
               = Throw (Exn TypeError "Cannot read properties of null (reading 'nroActa')").
Proof.
  eexists. split; [reflexivity | ].
  eapply (ansv_keeps_the_records_before_a_bad_item_and_pba_none
           respuesta_con_null (json_response 200 lista_con_null) cuerpo_con_null
           lista_con_null [ multa_1 ] [ multa_2 ] VNull _ _
           (Exn TypeError "Cannot read properties of null (reading 'nroActa')"));
    reflexivity.
Defined.

(** ** fetchMendoza: the plate in the form *)

(** X14 (fetchMendoza).  The form always has the five fields of the plate.
    For a plate in the old layout the letters and the digits fill the first
    two and the other three are empty; for a Mercosur plate the first two are
    empty and the other three hold two letters, three digits and two
    letters.  In both cases the fields, one after the other, spell the plate,
    and the values written into the session are the fields that are not
    empty, separated by commas. *)
Theorem the_form_of_mendoza_spells_the_plate (d : string) :
  formato_antiguo d || formato_mercosur d = true ->
  let f := plateFields d in
  map fst f = [ "P4000_MZA_LETRAS"; "P4000_MZA_NUMEROS"; "P4000_MZA_PRIMER_LETRA";
                "P4000_MZA_NUM_INTER"; "P4000_MZA_ULT_LETRA" ]
  /\ field "P4000_MZA_LETRAS" f ++ field "P4000_MZA_NUMEROS" f
     ++ field "P4000_MZA_PRIMER_LETRA" f ++ field "P4000_MZA_NUM_INTER" f
     ++ field "P4000_MZA_ULT_LETRA" f = d
  /\ (formato_antiguo d = true ->
      String.length (field "P4000_MZA_LETRAS" f) = 3%nat
      /\ String.length (field "P4000_MZA_NUMEROS" f) = 3%nat
      /\ field "P4000_MZA_PRIMER_LETRA" f = "" /\ field "P4000_MZA_NUM_INTER" f = ""
      /\ field "P4000_MZA_ULT_LETRA" f = ""
      /\ itemNames d = "P4000_MZA_LETRAS,P4000_MZA_NUMEROS"
      /\ itemValues d = field "P4000_MZA_LETRAS" f ++ "," ++ field "P4000_MZA_NUMEROS" f)
  /\ (formato_mercosur d = true ->
      field "P4000_MZA_LETRAS" f = "" /\ field "P4000_MZA_NUMEROS" f = ""
      /\ String.length (field "P4000_MZA_PRIMER_LETRA" f) = 2%nat
      /\ String.length (field "P4000_MZA_NUM_INTER" f) = 3%nat
      /\ String.length (field "P4000_MZA_ULT_LETRA" f) = 2%nat
      /\ itemNames d = "P4000_MZA_PRIMER_LETRA,P4000_MZA_NUM_INTER,P4000_MZA_ULT_LETRA"
      /\ itemValues d = field "P4000_MZA_PRIMER_LETRA" f ++ ","
                        ++ field "P4000_MZA_NUM_INTER" f ++ ","
                        ++ field "P4000_MZA_ULT_LETRA" f).
Proof.
  intros V. cbv zeta. unfold plateFields, itemNames, itemValues.
  destruct (formato_mercosur d) eqn:M.
  - pose proof (mercosur_is_not_antiguo d M) as A. rewrite A.
    destruct d as [| a [| b [| c [| d' [| e [| f [| g [| h r]]]]]]]]; try discriminate M.
    repeat split; try discriminate; reflexivity.
  - rewrite orb_false_r in V. rewrite V.
    destruct d as [| a [| b [| c [| d' [| e [| f [| g r]]]]]]]; try discriminate V.
    repeat split; try discriminate; reflexivity.
Qed.

Lemma the_form_of_mendoza_spells_the_plate_witness :
  itemValues "AB123CD" = "AB,123,CD" /\ itemValues "ABC123" = "ABC,123"
  /\ field "P4000_MZA_NUM_INTER" (plateFields "AB123CD") = "123".
Proof.
  pose proof (the_form_of_mendoza_spells_the_plate "AB123CD" eq_refl) as H.
  cbv zeta in H. destruct H as (_ & _ & _ & H). destruct (H eq_refl) as (_ & _ & _ & _ & _ & _ & E).
  split; [rewrite E; reflexivity | ]. split; reflexivity.
Defined.

(** ** The tables: the first row *)

Lemma skip_first_rows (f : list string -> infraccion) (n : nat) (rows : list (list string)) :
  (List.length (map f (filter (at_least n) (skip_first rows))) <= pred (List.length rows))%nat.
Proof.
  rewrite length_map. destruct rows as [| row rows]; [simpl; lia | ].
  cbn [skip_first tl List.length pred]. apply filter_length_le.
Qed.

(** X15 (the tables).  Six adapters skip the first row their selector finds,
    taking it for the header: fetchSantaFe, fetchPosadas, fetchCorrientes and
    fetchRosario, and the fetchCABA and fetchSantaFe of server.js; each
    returns at most one record fewer than the rows found, and none from a
    table of one row, even a row of data.  fetchANSV and fetchSantaRosa read
    the first row as a record.  The three adapters that give the data to
    cheerio as it is return for data that is a string, with the rows of that
    page; what they return for other data is bounded by the rows of the page
    cheerio made of it. *)
Theorem the_first_row_is_taken_for_the_header
    (load : value -> result element) (res : response) :
  let rows sel := List.length (find (doc res) sel) in
  (forall s, data res = VStr s ->
     exists l1 l2 l3,
       santafe_parse load res = Ok l1
       /\ server_santafe_parse load res = Ok l2
       /\ server_caba_parse load res = Ok l3
       /\ (List.length l1 <= pred (rows "table.grilla tbody tr, table.listado tr"))%nat
       /\ (List.length l2 <= pred (rows "table.grilla tbody tr, table.listado tr"))%nat
       /\ (List.length l3 <= pred (rows "table tr"))%nat)
  /\ (forall l, santafe_parse load res = Ok l \/ server_santafe_parse load res = Ok l ->
        exists page,
          load_data load res = Ok page
          /\ (List.length l
              <= pred (List.length (find page "table.grilla tbody tr, table.listado tr")))%nat)
  /\ (forall l, server_caba_parse load res = Ok l ->
        exists page,
          load_data load res = Ok page
          /\ (List.length l <= pred (List.length (find page "table tr")))%nat)
  /\ (forall l, posadas_parse res = Ok l \/ corrientes_parse res = Ok l
                \/ rosario_parse res = Ok l ->
        (List.length l <= pred (rows "table tbody tr, table tr"))%nat)
  /\ (forall row others l,
        find (doc res) "table.table-infracciones tbody tr, table tbody tr" = row :: others ->
        at_least 3 (cells row) = true ->
        ansv_parse res = Ok l -> hd_error l = Some (ansv_row (cells row)))
  /\ (forall row others l,
        find (doc res) "table tbody tr" = row :: others ->
        at_least 2 (cells row) = true ->
        santarosa_parse res = Ok l -> l = [] \/ hd_error l = Some (santarosa_row (cells row))).
Proof.
  cbv zeta. unfold santafe_parse, server_santafe_parse, server_caba_parse, rows_of.
  split; [ | split; [ | split; [ | split; [ | split]]]].
  - intros s E. unfold load_data. rewrite E. cbn [bind].
    eexists. eexists. eexists.
    repeat (split; [reflexivity | ]).
    repeat split; rewrite <- (length_map cells); apply skip_first_rows.
  - intros l [H | H]; apply bind_Ok in H; destruct H as (page & L & H);
      apply Ok_inj in H; subst l; exists page; (split; [exact L | ]);
      rewrite <- (length_map cells); apply skip_first_rows.
  - intros l H. apply bind_Ok in H. destruct H as (page & L & H).
    apply Ok_inj in H. subst l. exists page. split; [exact L | ].
    rewrite <- (length_map cells). apply skip_first_rows.
  - intros l [H | [H | H]].
    + unfold posadas_parse in H. apply bind_Ok in H. destruct H as (_ & _ & H).
      destruct (test_i _ _); apply Ok_inj in H; subst l; [simpl; lia | ].
      unfold rows_of. rewrite <- (length_map cells). apply skip_first_rows.
    + unfold corrientes_parse in H. apply bind_Ok in H. destruct H as (_ & _ & H).
      destruct (_ || _); apply Ok_inj in H; subst l; [simpl; lia | ].
      unfold rows_of. rewrite <- (length_map cells). apply skip_first_rows.
    + unfold rosario_parse in H. apply bind_Ok in H. destruct H as (_ & _ & H).
      destruct (find (doc res) ".govuk-error-summary"); [ | discriminate H].
      destruct (_ && _); apply Ok_inj in H; subst l; [simpl; lia | ].
      unfold rows_of. rewrite <- (length_map cells). apply skip_first_rows.
  - intros row others l F A H. unfold ansv_parse, rows_of in H.
    apply bind_Ok in H. destruct H as (t & _ & H). rewrite F in H.
    cbn [map filter] in H. rewrite A in H. cbn [map List.length Nat.eqb andb] in H.
    apply Ok_inj in H. subst l. reflexivity.
  - intros row others l F A H. unfold santarosa_parse, rows_of in H.
    apply bind_Ok in H. destruct H as (t & _ & H).
    destruct (includes _ _); [apply Ok_inj in H; left; symmetry; exact H | ].
    destruct (negb _); [discriminate H | ].
    rewrite F in H. cbn [map filter] in H. rewrite A in H.
    apply Ok_inj in H. subst l. right. reflexivity.
Qed.

Lemma the_first_row_is_taken_for_the_header_witness :
  posadas_parse (html_response "<table><tr><td>P-1</td><td>01/02/2024</td></tr></table>"
                   (page "P-101/02/2024"
                      [ ("table tbody tr, table tr", [ tr [ "P-1"; "01/02/2024" ] ]) ]))
  = Ok [].
Proof.
  pose proof (the_first_row_is_taken_for_the_header no_es_pagina
                (html_response "<table><tr><td>P-1</td><td>01/02/2024</td></tr></table>"
                   (page "P-101/02/2024"
                      [ ("table tbody tr, table tr", [ tr [ "P-1"; "01/02/2024" ] ]) ]))) as H.
  cbv zeta in H. destruct H as (_ & _ & _ & H & _).
  destruct (posadas_parse _) as [l | e] eqn:E; [ | vm_compute in E; discriminate E].
  specialize (H l (or_introl eq_refl)). destruct l; [reflexivity | simpl in H; lia].
Defined.

(** ** The amounts read in a page *)

Lemma of_decimal_sign (m e : Z) : negative (of_decimal false m e) = false.
Proof.
  unfold of_decimal, binary64.
  repeat match goal with
         | |- context [if ?c then _ else _] => destruct c
         end; reflexivity.
Qed.

Lemma parseFloat_digit_or_dot (c : ascii) (r : string) :
  digit_or_dot c = true -> negative (parseFloat_string (String c r)) = false.
Proof.
  intros H. unfold parseFloat_string.
  assert (W : ws_head (String c r) = 0%nat /\ is_char 45 c = false /\ is_char 43 c = false
              /\ prefix "Infinity" (String c r) = false).
  { destruct c as [[] [] [] [] [] [] [] []]; try discriminate H; repeat split; reflexivity. }
  destruct W as (W & Mi & Pl & I).
  rewrite (trimStart_id _ W), Mi, Pl, I.
  destruct (span_digits (String c r) 0 0) as ((ip & ni) & s2).
  destruct s2 as [| c2 r2].
  - destruct (ni + 0)%nat; [reflexivity | apply of_decimal_sign].
  - destruct (is_char 46 c2).
    + destruct (span_digits r2 ip 0) as ((fp & nf) & s3).
      destruct (ni + nf)%nat; [reflexivity | apply of_decimal_sign].
    + destruct (ni + 0)%nat; [reflexivity | apply of_decimal_sign].
Qed.

Lemma filter_string_head (p : ascii -> bool) (t : string) :
  filter_string p t = "" \/ exists c r, filter_string p t = String c r /\ p c = true.
Proof.
  induction t as [| c t IH]; [left; reflexivity | ].
  simpl. destruct (p c) eqn:E; [right; exists c, (filter_string p t); split; auto | exact IH].
Qed.

Lemma or_null_sign (x y : number) : negative x = false -> or_null x = Some y -> negative y = false.
Proof. unfold or_null. destruct (number_truthy x); intros N H; [ | discriminate H]. injection H as <-. exact N. Qed.

(** X16 (the amounts of the pages).  An amount read in the text of a page
    is never below zero: every character but the digits, the dot and, under
    the second policy, the comma is removed before the number is read, the
    minus sign with them. *)
Theorem an_amount_read_in_a_page_is_never_negative (t : string) (x : number) :
  importe_punto t = Some x \/ importe_coma t = Some x -> negative x = false.
Proof.
  intros [H | H].
  - unfold importe_punto in H. eapply or_null_sign; [ | exact H].
    destruct (filter_string_head digit_or_dot t) as [-> | (c & r & -> & P)];
      [reflexivity | apply parseFloat_digit_or_dot; exact P].
  - unfold importe_coma in H. eapply or_null_sign; [ | exact H].
    destruct (filter_string_head digit_dot_or_comma t) as [-> | (c & r & -> & P)];
      [reflexivity | ].
    cbn [replace_first]. destruct (Ascii.eqb c ",") eqn:E.
    + apply parseFloat_digit_or_dot. reflexivity.
    + apply parseFloat_digit_or_dot. unfold digit_dot_or_comma in P. unfold digit_or_dot.
      apply orb_true_iff in P. destruct P as [P | P]; [exact P | ].
      apply Ascii.eqb_neq in E. exfalso. apply E.
      destruct c as [[] [] [] [] [] [] [] []]; try discriminate P; reflexivity.
Qed.

Lemma an_amount_read_in_a_page_is_never_negative_witness :
  importe_punto "-1500" = Some (dec 1500 0) /\ negative (dec 1500 0) = false.
Proof.
  split; [vm_compute; reflexivity | ].
  apply (an_amount_read_in_a_page_is_never_negative "-1500"). left. vm_compute. reflexivity.
Defined.

(** ** A row that is short *)

Lemma col_missing (cols : list string) (k : nat) :
  (List.length cols <= k)%nat -> col cols k = "" /\ col_or_null cols k = VNull.
Proof.
  intros H. unfold col_or_null, col. rewrite (nth_overflow cols "" H). split; reflexivity.
Qed.

(** X17 (the tables).  A cell that the row does not have reads as a missing
    value: a row of fewer than five cells has no amount and one of fewer than
    four no place, in every adapter that reads its rows by position; with
    fewer than six cells the status is pendiente where it is read in the
    sixth, and with fewer than seven the jurisdiction of fetchANSV is
    Nacional. *)
Theorem a_missing_cell_reads_as_null (bodyText : string) (cols : list string) :
  ((List.length cols <= 4)%nat ->
   importe (ansv_row cols) = None /\ importe (santafe_row cols) = None
   /\ importe (posadas_row bodyText cols) = None /\ importe (corrientes_row cols) = None
   /\ importe (rosario_row cols) = None /\ importe (santarosa_row cols) = None
   /\ importe (Server.caba_row cols) = None)
  /\ ((List.length cols <= 3)%nat ->
      lugar (ansv_row cols) = VNull /\ lugar (santafe_row cols) = VNull
      /\ lugar (posadas_row bodyText cols) = VNull /\ lugar (corrientes_row cols) = VNull
      /\ lugar (rosario_row cols) = VNull /\ lugar (santarosa_row cols) = VNull
      /\ lugar (Server.caba_row cols) = VNull)
  /\ ((List.length cols <= 5)%nat ->
      estado (ansv_row cols) = "pendiente" /\ estado (corrientes_row cols) = "pendiente"
      /\ estado (rosario_row cols) = "pendiente")
  /\ ((List.length cols <= 6)%nat -> jurisdiccion (ansv_row cols) = VStr "Nacional").
Proof.
  repeat split; cbn [importe lugar estado jurisdiccion ansv_row santafe_row posadas_row
                       corrientes_row rosario_row santarosa_row Server.caba_row];
    try (destruct (col_missing cols 3 ltac:(assumption)) as (_ & ->); reflexivity);
    try (destruct (col_missing cols 4 ltac:(assumption)) as (-> & _); reflexivity);
    try (destruct (col_missing cols 5 ltac:(assumption)) as (-> & _); reflexivity);
    try (destruct (col_missing cols 6 ltac:(assumption)) as (-> & _); reflexivity).
  intros H. destruct (col_missing cols 6 H) as (-> & _). reflexivity.
Qed.

Lemma a_missing_cell_reads_as_null_witness :
  importe (rosario_row [ "R-1"; "01/02/2024"; "Semaforo" ]) = None
  /\ estado (rosario_row [ "R-1"; "01/02/2024"; "Semaforo" ]) = "pendiente".
Proof.
  pose proof (a_missing_cell_reads_as_null "" [ "R-1"; "01/02/2024"; "Semaforo" ])
    as (A & _ & B & _).
  split.
  - apply A. simpl. lia.
  - apply B. simpl. lia.
Defined.

(** ** The records of the reading stages *)

Lemma Forall2_In_right {A B} (R : A -> B -> Prop) (l : list A) (rs : list B) (b : B) :
  Forall2 R l rs -> In b rs -> exists a, In a l /\ R a b.
Proof.
  induction 1 as [| a b' l rs Hab _ IH]; intros Hin; [destruct Hin | ].
  destruct Hin as [<- | Hin].
  - exists a. split; [left; reflexivity | exact Hab].
  - destruct (IH Hin) as (a' & Ha' & Hr). exists a'. split; [right; exact Ha' | exact Hr].
Qed.

Lemma map_items_In (method : string) (f : value -> result infraccion) (v : value)
    (l : list infraccion) (r : infraccion) :
  map_items method f v = Ok l -> In r l -> exists i, f i = Ok r.
Proof.
  intros H Hin. apply map_items_Ok in H. destruct H as (items & _ & F).
  destruct (Forall2_In_right _ _ _ _ F Hin) as (i & _ & Hi). exists i. exact Hi.
Qed.

Lemma reading_stage_site (toISOString : value -> result string)
    (load : value -> result element) (res : response)
    (l : list infraccion) (r : infraccion) :
  In r l ->
  pba_parse res = Ok l \/ entrerios_parse res = Ok l \/ misiones_parse res = Ok l
  \/ chaco_parse res = Ok l \/ neuquen_parse res = Ok l
  \/ salta_parse toISOString res = Ok l \/ cordoba_parse res = Ok l
  \/ server_pba_parse res = Ok l
  \/ santafe_parse load res = Ok l \/ server_santafe_parse load res = Ok l
  \/ server_caba_parse load res = Ok l ->
  exists s, Produced s r /\ s <> ANSV_item /\ s <> Server_ANSV_item.
Proof.
  intros Hin [H | [H | [H | [H | [H | [H | [H | [H | [H | [H | H]]]]]]]]]].
  - exists PBA_item. split; [ | split; discriminate].
    unfold pba_parse in H. apply bind_Ok in H. destruct H as (_ & _ & H).
    destruct (truthy _); [discriminate H | ].
    destruct (map_items_In _ _ _ _ _ H Hin) as (i & Hi). exact (P_pba_item i r Hi).
  - exists EntreRios_item. split; [ | split; discriminate].
    unfold entrerios_parse in H. apply bind_Ok in H. destruct H as (_ & _ & H).
    destruct (negb _); [apply Ok_inj in H; subst l; destruct Hin | ].
    destruct (map_items_In _ _ _ _ _ H Hin) as (i & Hi). exact (P_entrerios_item i r Hi).
  - exists Misiones_item. split; [ | split; discriminate].
    unfold misiones_parse in H. apply bind_Ok in H. destruct H as (v & _ & H).
    cbv zeta in H.
    destruct (negb _); [apply Ok_inj in H; subst l; destruct Hin | ].
    destruct (map_items_In _ _ _ _ _ H Hin) as (i & Hi). exact (P_misiones_item i r Hi).
  - unfold chaco_parse in H. returned H. subst l. apply in_app_or in Hin.
    destruct Hin as [Hin | Hin].
    + exists Chaco_fotomulta. split; [ | split; discriminate].
      destruct (map_items_In _ _ _ _ _ Ha Hin) as (i & Hi). exact (P_chaco_fotomulta i r Hi).
    + exists Chaco_caminera. split; [ | split; discriminate].
      destruct (map_items_In _ _ _ _ _ Ha0 Hin) as (i & Hi). exact (P_chaco_caminera i r Hi).
  - exists Neuquen_item. split; [ | split; discriminate].
    destruct (neuquen_parse_Ok res l H)
      as [(-> & _) | (_ & _ & _ & items & _ & F)]; [destruct Hin | ].
    destruct (Forall2_In_right _ _ _ _ F Hin) as (i & _ & Hi). exact (P_neuquen_item i r Hi).
  - exists Salta_item. split; [ | split; discriminate].
    unfold salta_parse in H.
    destruct (status res =? 404); [apply Ok_inj in H; subst l; destruct Hin | ].
    apply bind_Ok in H. destruct H as (frase & _ & H).
    destruct frase; [apply Ok_inj in H; subst l; destruct Hin | ].
    destruct (status res =? 400).
    { destruct (ToString _); discriminate H. }
    destruct (negb _); [apply Ok_inj in H; subst l; destruct Hin | ].
    destruct (map_items_In _ _ _ _ _ H Hin) as (i & Hi).
    exact (P_salta_item toISOString i r Hi).
  - exists Cordoba_obligacion. split; [ | split; discriminate].
    destruct (cordoba_parse_In res l r H Hin)
      as (cs & c & os & o & titular & ob & _ & _ & _ & _ & _ & Hob).
    exact (P_cordoba_obligacion titular o ob r Hob).
  - exists Server_PBA_item. split; [ | split; discriminate].
    unfold server_pba_parse in H. apply bind_Ok in H. destruct H as (v & _ & H).
    destruct (map_items_In _ _ _ _ _ H Hin) as (i & Hi). exact (P_server_pba_item i r Hi).
  - exists SantaFe_row. split; [ | split; discriminate].
    unfold santafe_parse in H. apply bind_Ok in H. destruct H as (page & _ & H).
    apply Ok_inj in H. subst l. apply in_rows in Hin.
    destruct Hin as (cols & A & ->). exact (P_santafe_row cols A).
  - exists Server_SantaFe_row. split; [ | split; discriminate].
    unfold server_santafe_parse in H. apply bind_Ok in H. destruct H as (page & _ & H).
    apply Ok_inj in H. subst l. apply in_rows in Hin.
    destruct Hin as (cols & A & ->). exact (P_server_santafe_row cols A).
  - exists Server_CABA_row. split; [ | split; discriminate].
    unfold server_caba_parse in H. apply bind_Ok in H. destruct H as (page & _ & H).
    apply Ok_inj in H. subst l. apply in_rows in Hin.
    destruct Hin as (cols & A & ->). exact (P_server_caba_row cols A).
Qed.

(** X18 (the reading stages).  Every record that the reading stage of an
    adapter returns was built at a record literal of that adapter, so what
    holds of the literals holds of the results: the status of the record is
    pagada or pendiente, its amount is null or a number other than zero, and
    its jurisdiction is never empty. *)
Theorem what_the_adapters_return_is_pagada_or_pendiente
    (toISOString : value -> result string) (load : value -> result element)
    (res : response) (l : list infraccion) (r : infraccion) :
  In r l ->
  pba_parse res = Ok l \/ entrerios_parse res = Ok l \/ misiones_parse res = Ok l
  \/ chaco_parse res = Ok l \/ neuquen_parse res = Ok l
  \/ salta_parse toISOString res = Ok l \/ cordoba_parse res = Ok l
  \/ server_pba_parse res = Ok l
  \/ santafe_parse load res = Ok l \/ server_santafe_parse load res = Ok l
  \/ server_caba_parse load res = Ok l ->
  pagada_o_pendiente (estado r)
  /\ null_or_nonzero (importe r)
  /\ truthy (jurisdiccion r) = true
  /\ null_or_truthy (descripcion r) /\ null_or_truthy (lugar r).
Proof.
  intros Hin H.
  destruct (reading_stage_site toISOString load res l r Hin H) as (s & P & N1 & N2).
  split; [exact (produced_estado s r P N1 N2) | ].
  split; [exact (produced_importe s r P) | ].
  destruct (produced_campos s r P) as (D & L & J & _).
  split; [exact J | split; assumption].
Qed.

Lemma what_the_adapters_return_is_pagada_or_pendiente_witness :
  exists r, neuquen_parse (json_response 200 (VObj [ ("data", VArr [ multa_2 ]) ])) = Ok [ r ]
            /\ estado r = "pagada" /\ pagada_o_pendiente (estado r).
Proof.
  destruct (neuquen_parse (json_response 200 (VObj [ ("data", VArr [ multa_2 ]) ])))
    as [l | e] eqn:E; [ | vm_compute in E; discriminate E].
  pose proof (what_the_adapters_return_is_pagada_or_pendiente un_dia no_es_pagina
                (json_response 200 (VObj [ ("data", VArr [ multa_2 ]) ])) l) as H.
  vm_compute in E. injection E as <-.
  eexists. split; [reflexivity | ]. split; [reflexivity | ].
  apply H; [left; reflexivity | ].
  right. right. right. right. left. vm_compute. reflexivity.
Defined.

End Coverage.
